(** * Metadata encryption of the userdata partition (MetadataCrypt.cpp)

    A shallow embedding of vold's [MetadataCrypt.cpp]: the encoding of the
    dm "default-key" parameters, the construction of the device-mapper
    command buffer, the bounded retry of [DM_TABLE_LOAD], and the two entry
    points [e4crypt_mount_metadata_encrypted] and [e4crypt_enable_crypto].

    The command buffer is modelled byte for byte (a [list byte] of
    [DM_CRYPT_BUF_SIZE] bytes, integers stored little-endian).  Everything
    the file reaches outside itself (the kernel, fs_mgr, the key storage,
    the property service, the logger) is modelled as a state [world] that
    records every call in a [trace], with the answers of the collaborators
    taken from a record [collaborators].  The thread that the entry points
    detach ([async_kick_off], with [prep_data_fs]) runs on its own; its
    start is an event of the trace. *)

From Stdlib Require Import ZArith Lia List.
From Stdlib Require Import Strings.String Strings.Ascii Strings.Byte DecimalString.
From stdpp Require Import gmap strings list fin_maps.

Local Open Scope Z_scope.
Local Open Scope string_scope.

(** ** Machine integers *)

(** [size_t], [uint64_t] and [unsigned long] are 64 bits wide (LP64), [__u32]
    is 32 bits wide; arithmetic wraps around. *)
Definition to_u32 (z : Z) : Z := z mod 2 ^ 32.
Definition to_u64 (z : Z) : Z := z mod 2 ^ 64.
Definition size_t_of (z : Z) : Z := to_u64 z.

(** [off64_t] is a signed integer of 64 bits; a [uint64_t] that is passed for
    one is converted modulo 2^64, so that values from 2^63 on arrive as
    negative numbers. *)
Definition off64_t_of (z : Z) : Z := (z + 2 ^ 63) mod 2 ^ 64 - 2 ^ 63.

(** ** Bytes, C strings and decimal printing *)

Definition byte_of_Z (z : Z) : byte :=
  default x00 (Byte.of_N (Z.to_N (z mod 256))).

Definition Z_of_byte (b : byte) : Z := Z.of_N (Byte.to_N b).

(** Little-endian encoding of an integer on [n] bytes, and its inverse. *)
Fixpoint le_encode (n : nat) (v : Z) : list byte :=
  match n with
  | O => []
  | S n' => byte_of_Z v :: le_encode n' (v / 256)
  end.

Fixpoint le_decode (l : list byte) : Z :=
  match l with
  | [] => 0
  | b :: r => Z_of_byte b + 256 * le_decode r
  end.

(** What a [const char*] sees of a [std::string]: the characters before the
    first NUL. *)
Fixpoint c_str (s : string) : string :=
  match s with
  | EmptyString => EmptyString
  | String c r => if Ascii.eqb c Ascii.zero then EmptyString else String c (c_str r)
  end.

(** The same for a character array: the bytes before the first NUL. *)
Fixpoint c_str_bytes (l : list byte) : list byte :=
  match l with
  | [] => []
  | b :: r => if Byte.eqb b x00 then [] else b :: c_str_bytes r
  end.

(** [strcmp(a, b) != 0] *)
Definition strcmp_ne (a b : string) : bool := negb (String.eqb (c_str a) (c_str b)).

(** [std::to_string] and [operator<<] on integers. *)
Definition to_string (z : Z) : string := NilZero.string_of_int (Z.to_int z).

(** ** The command buffer as memory *)

Abbreviation buffer := (list byte).

Fixpoint store_bytes_at (off : nat) (data : list byte) (buf : buffer) : buffer :=
  match data with
  | [] => buf
  | b :: rest => store_bytes_at (S off) rest (<[off := b]> buf)
  end.

Definition store_bytes (off : Z) (data : list byte) (buf : buffer) : buffer :=
  store_bytes_at (Z.to_nat off) data buf.

Definition load_bytes (off : Z) (n : nat) (buf : buffer) : list byte :=
  take n (drop (Z.to_nat off) buf).

Definition store_u32 (off v : Z) (buf : buffer) : buffer := store_bytes off (le_encode 4 v) buf.
Definition store_u64 (off v : Z) (buf : buffer) : buffer := store_bytes off (le_encode 8 v) buf.
Definition load_u32 (off : Z) (buf : buffer) : Z := le_decode (load_bytes off 4 buf).
Definition load_u64 (off : Z) (buf : buffer) : Z := le_decode (load_bytes off 8 buf).

(** [buffer[ix] = c]: a store through an index that is not checked by the
    code.  Past the end of the array the behaviour is undefined, which the
    model reports as [None]. *)
Definition store_char (ix : Z) (c : byte) (buf : buffer) : option buffer :=
  if decide (0 <= ix < Z.of_nat (length buf)) then Some (<[Z.to_nat ix := c]> buf) else None.

(** ** Constants of the file and of <linux/dm-ioctl.h> *)

Definition DM_CRYPT_BUF_SIZE : Z := 4096.
Definition TABLE_LOAD_RETRIES : Z := 10.
Definition DEFAULT_KEY_TARGET_TYPE : string := "default-key".
Definition kDmNameUserdata : string := "userdata".

(** Layout of [struct dm_ioctl] (kernel uapi header, interface version 4). *)
Module dm_ioctl.
Definition sizeof : Z := 312.
Definition version (i : Z) : Z := 4 * i.
Definition data_size : Z := 12.
Definition data_start : Z := 16.
Definition target_count : Z := 20.
Definition flags : Z := 28.
Definition dev : Z := 40.
Definition name : Z := 48.
Definition sizeof_name : nat := 128.
End dm_ioctl.

(** Layout of [struct dm_target_spec]. *)
Module dm_target_spec.
Definition sizeof : Z := 40.
Definition sector_start : Z := 0.
Definition length : Z := 8.
Definition status : Z := 16.
Definition next : Z := 20.
Definition target_type : Z := 24.
Definition sizeof_target_type : nat := 16.
End dm_target_spec.

(** The ioctl requests of the device-mapper driver. *)
Inductive dm_cmd :=
  | DM_DEV_CREATE
  | DM_DEV_REMOVE
  | DM_DEV_STATUS
  | DM_TABLE_LOAD
  | DM_DEV_SUSPEND.

#[global] Instance dm_cmd_eq_dec : EqDecision dm_cmd.
Proof. solve_decision. Defined.

(** [std::string::copy(dst, n)]: at most [n] characters, no terminator. *)
Definition string_copy (s : string) (n : nat) : list byte :=
  take n (list_byte_of_string s).

(** [dm_ioctl_init] (lines 129 to 146): [None] stands for the [nullptr]
    result, [Some] for the buffer after the [memset] and the stores. *)
Definition dm_ioctl_init (buffer_size : Z) (dm_name : string) : option buffer :=
  if decide (buffer_size < dm_ioctl.sizeof) then None
  else
    let buffer := replicate (Z.to_nat buffer_size) x00 in
    let buffer := store_u32 dm_ioctl.data_size (to_u32 buffer_size) buffer in
    let buffer := store_u32 dm_ioctl.data_start dm_ioctl.sizeof buffer in
    let buffer := store_u32 (dm_ioctl.version 0) 4 buffer in
    let buffer := store_u32 (dm_ioctl.version 1) 0 buffer in
    let buffer := store_u32 (dm_ioctl.version 2) 0 buffer in
    let buffer := store_u32 dm_ioctl.flags 0 buffer in
    let buffer := store_bytes dm_ioctl.name (string_copy dm_name dm_ioctl.sizeof_name) buffer in
    Some buffer.

(** The name field of a command buffer, as the driver reads it. *)
Definition dm_name_of (buf : buffer) : string :=
  string_of_list_byte (c_str_bytes (load_bytes dm_ioctl.name dm_ioctl.sizeof_name buf)).

(** ** The world outside the file *)

Inductive severity := DEBUG | INFO | ERROR.

(** Every call that leaves the file is recorded, with its arguments and its
    result.  [EvLog] is a [LOG] ([with_errno = false]) or a [PLOG] record. *)
Inductive event :=
  | EvLog (sev : severity) (with_errno : bool) (msg : string)
  | EvOpen (path : string) (ok : bool)
  | EvIoctl (cmd : dm_cmd) (arg : buffer) (rc : Z)
  | EvUsleep (usec : Z)
  | EvPropertySet (key value : string)
  | EvMkdir (path : string) (mode : Z) (rc : Z)
  | EvRetrieveKey (create_if_absent : bool) (dir temp : string) (ok : bool)
  | EvSetexeccon (con : option string) (rc : Z)
  | EvFsMgrDoMount (mount_point blk_device : string) (rc : Z)
  | EvEnableInplace (crypto_blkdev real_blkdev : string) (size : Z) (rc : Z) (done : Z)
  | EvThreadDetach (entry : string).

(** What the driver knows about a named mapping. *)
Inductive dm_status := DmCreated | DmLoaded | DmActive.

Record world := World {
  props : gmap string string;       (* the property service *)
  dm_table : gmap string dm_status; (* the mappings registered in the kernel *)
  load_calls : nat;                 (* DM_TABLE_LOAD requests seen so far *)
  trace : list event
}.

(** [KeyBuffer] is a [std::vector<char>] with a zeroing allocator. *)
Abbreviation KeyBuffer := (list byte).

(** An entry of the fstab, as [fs_mgr_get_crypt_entry] returns it; a null
    [key_dir] is [None]. *)
Record fstab_rec := {
  blk_device : string;
  mount_point : string;
  key_dir : option string
}.

(** The answers of the collaborators.  None of them is defined in this file
    of the repository; the program is verified for all their behaviours. *)
Record collaborators := {
  StrToHex : KeyBuffer → Z * KeyBuffer;          (* status and hex output *)
  fs_mgr_get_crypt_entry : option fstab_rec;
  pathExists : string → bool;
  mkdir_rc : string → Z;
  retrieveKey : bool → string → string → option KeyBuffer;
  open_ok : string → bool;
  get_blkdev_size : string → Z;
  secontextFsck : string;
  setexeccon_rc : option string → Z;
  fs_mgr_do_mount_rc : string → string → Z;
  cryptfs_enable_inplace : string → string → Z → Z → Z → Z * Z; (* rc, size_already_done *)
  dm_create_ok : bool;            (* the driver accepts a create of a fresh name *)
  dm_status_dev : option Z;       (* the device number the driver assigned *)
  dm_load_ok : nat → bool;        (* does the n-th DM_TABLE_LOAD succeed *)
  dm_resume_ok : bool
}.

(** A run returns, or executes an operation whose behaviour is undefined in
    C++, or exhausts the fuel of a loop. *)
Inductive outcome (A : Type) :=
  | Ret (a : A)
  | Undefined
  | OutOfFuel.
Arguments Ret {A} a.
Arguments Undefined {A}.
Arguments OutOfFuel {A}.

Definition M (A : Type) : Type := world → outcome A * world.

#[global] Instance M_ret : MRet M := λ A a w, (Ret a, w).
#[global] Instance M_bind : MBind M := λ A B f m w,
  match m w with
  | (Ret a, w') => f a w'
  | (Undefined, w') => (Undefined, w')
  | (OutOfFuel, w') => (OutOfFuel, w')
  end.

Definition undefined {A} : M A := λ w, (Undefined, w).
Definition out_of_fuel {A} : M A := λ w, (OutOfFuel, w).

Definition emit (e : event) : M unit := λ w,
  (Ret (), World (props w) (dm_table w) (load_calls w) (trace w ++ [e])).

Definition LOG (sev : severity) (msg : string) : M unit := emit (EvLog sev false msg).
Definition PLOG (sev : severity) (msg : string) : M unit := emit (EvLog sev true msg).
Definition usleep (usec : Z) : M unit := emit (EvUsleep usec).

(** [property_get]: the default is used when the property is unset or empty. *)
Definition property_get (key default_value : string) : M string := λ w,
  (Ret (match props w !! key with
        | Some v => if String.eqb v "" then default_value else v
        | None => default_value
        end), w).

Definition property_set (key value : string) : M unit := λ w,
  (Ret (), World (<[key := value]> (props w)) (dm_table w) (load_calls w)
                 (trace w ++ [EvPropertySet key value])).

(** The device-mapper driver: what a request does to the table of mappings
    and to the command buffer.  A create of a name that is already
    registered is rejected, the other requests need a registered name. *)
Definition dm_driver (E : collaborators) (cmd : dm_cmd) (arg : buffer) (w : world)
  : Z * buffer * gmap string dm_status * nat :=
  let name := dm_name_of arg in
  let tbl := dm_table w in
  let n := load_calls w in
  match cmd with
  | DM_DEV_CREATE =>
      match tbl !! name with
      | Some _ => (-1, arg, tbl, n)
      | None => if dm_create_ok E then (0, arg, <[name := DmCreated]> tbl, n)
                else (-1, arg, tbl, n)
      end
  | DM_DEV_REMOVE =>
      match tbl !! name with
      | Some _ => (0, arg, delete name tbl, n)
      | None => (-1, arg, tbl, n)
      end
  | DM_DEV_STATUS =>
      match tbl !! name, dm_status_dev E with
      | Some _, Some dev => (0, store_u64 dm_ioctl.dev (to_u64 dev) arg, tbl, n)
      | _, _ => (-1, arg, tbl, n)
      end
  | DM_TABLE_LOAD =>
      match tbl !! name with
      | Some _ => if dm_load_ok E n then (0, arg, <[name := DmLoaded]> tbl, S n)
                  else (-1, arg, tbl, S n)
      | None => (-1, arg, tbl, S n)
      end
  | DM_DEV_SUSPEND =>
      match tbl !! name with
      | Some _ => if dm_resume_ok E then (0, arg, <[name := DmActive]> tbl, n)
                  else (-1, arg, tbl, n)
      | None => (-1, arg, tbl, n)
      end
  end.

(** ** The program *)

Section Program.
Context (E : collaborators).

(** The calls that leave the file: each one is recorded with the answer of
    the collaborator.  [ioctl] returns the buffer as the driver left it. *)
Definition ioctl (cmd : dm_cmd) (arg : buffer) : M (Z * buffer) := λ w,
  let '(rc, arg', tbl, n) := dm_driver E cmd arg w in
  (Ret (rc, arg'), World (props w) tbl n (trace w ++ [EvIoctl cmd arg rc])).

(** [open(path, ...)]: is the descriptor valid. *)
Definition open (path : string) : M bool :=
  let ok := open_ok E path in
  emit (EvOpen path ok);; mret ok.

Definition setexeccon (con : option string) : M Z :=
  let rc := setexeccon_rc E con in
  emit (EvSetexeccon con rc);; mret rc.

Definition fs_mgr_do_mount (mount_point blk_device : string) : M Z :=
  let rc := fs_mgr_do_mount_rc E mount_point blk_device in
  emit (EvFsMgrDoMount mount_point blk_device rc);; mret rc.

Definition mkdir (path : string) (mode : Z) : M Z :=
  let rc := mkdir_rc E path in
  emit (EvMkdir path mode rc);; mret rc.

(** [mount_via_fs_mgr] (lines 54 to 73). *)
Definition mount_via_fs_mgr (mount_point blk_device : string) : M bool :=
  rc ← setexeccon (Some (secontextFsck E));
  if decide (rc ≠ 0) then
    PLOG ERROR "Failed to setexeccon";; mret false
  else
    mount_rc ← fs_mgr_do_mount mount_point blk_device;
    rc ← setexeccon None;
    if decide (rc ≠ 0) then
      PLOG ERROR "Failed to clear setexeccon";; mret false
    else if decide (mount_rc ≠ 0) then
      LOG ERROR ("fs_mgr_do_mount failed with rc " ++ to_string mount_rc);; mret false
    else
      LOG DEBUG ("Mounted " ++ mount_point);; mret true.

(** [read_key] (lines 75 to 98): [Some key] is [true] with [*key] filled
    in, [None] is [false]. *)
Definition read_key (create_if_absent : bool) : M (option KeyBuffer) :=
  match fs_mgr_get_crypt_entry E with
  | None => LOG ERROR "Failed to get data_rec";; mret None
  | Some data_rec =>
    match key_dir data_rec with
    | None => LOG ERROR "Failed to get key_dir";; mret None
    | Some data_rec_key_dir =>
      LOG DEBUG ("key_dir: " ++ data_rec_key_dir);;
      created ← (if pathExists E data_rec_key_dir then mret true
                 else
                   rc ← mkdir data_rec_key_dir 511;
                   if decide (rc ≠ 0) then
                     PLOG ERROR ("Unable to create: " ++ data_rec_key_dir);; mret false
                   else
                     LOG DEBUG ("Created: " ++ data_rec_key_dir);; mret true);
      if negb created then mret None
      else
        let dir := data_rec_key_dir ++ "/key" in
        let temp := data_rec_key_dir ++ "/tmp" in
        let key := retrieveKey E create_if_absent dir temp in
        emit (EvRetrieveKey create_if_absent dir temp (bool_decide (is_Some key)));;
        mret key
    end
  end.

(** [default_key_params] (lines 100 to 109); [android::OK] is 0, and
    [KeyBuffer + const char*] appends the characters of the C string. *)
Definition default_key_params (real_blkdev : string) (key : KeyBuffer) : M KeyBuffer :=
  let '(status, hex_key) := StrToHex E key in
  if decide (status ≠ 0) then
    LOG ERROR "Failed to turn key to hex";; mret []
  else
    let res := ((((([] ++ list_byte_of_string "AES-256-XTS ") ++ hex_key)
                   ++ list_byte_of_string " ")
                   ++ list_byte_of_string (c_str real_blkdev))
                   ++ list_byte_of_string " 0")%list in
    LOG DEBUG ("crypt_params: " ++ string_of_list_byte res);;
    mret res.

(** [get_number_of_sectors] (lines 111 to 127): [Some nr_sec] is [true] with
    [*nr_sec] filled in. *)
Definition get_number_of_sectors (real_blkdev : string) : M (option Z) :=
  ok ← open (c_str real_blkdev);
  if negb ok then
    PLOG ERROR ("Unable to open " ++ real_blkdev ++ " to measure size");; mret None
  else
    let res := to_u64 (get_blkdev_size E (c_str real_blkdev)) in
    if decide (res = 0) then
      PLOG ERROR ("Unable to measure size of " ++ real_blkdev);; mret None
    else mret (Some res).

(** The loop [for (int i = 0; ; i++)] around [DM_TABLE_LOAD] (lines 194 to
    204); [true] is the [break], [false] the [return false].  The fuel bounds
    the recursion; [table_load_loop_spec] shows that [TABLE_LOAD_RETRIES]
    units are enough from [i = 0]. *)
Fixpoint table_load_loop (fuel : nat) (i : Z) (io : buffer) : M bool :=
  match fuel with
  | O => out_of_fuel
  | S fuel' =>
    '(rc, io) ← ioctl DM_TABLE_LOAD io;
    if decide (rc = 0) then mret true
    else if decide (i + 1 >= TABLE_LOAD_RETRIES) then
      PLOG ERROR "DM_TABLE_LOAD ioctl failed";; mret false
    else
      PLOG INFO "DM_TABLE_LOAD ioctl failed, retrying";;
      usleep 500000;;
      table_load_loop fuel' (i + 1) io
  end.

(** The result of [dm_ioctl_init], used without a null check. *)
Definition deref {A} (io : option buffer) (k : buffer → M A) : M A :=
  match io with
  | Some io => k io
  | None => undefined
  end.

(** The table-load command (lines 183 to 192): the header, one target and
    its parameters.  [None] is the store of the NUL past the end of the
    buffer. *)
Definition table_load_buffer (io : buffer) (sizeof_buffer : Z) (nr_sec : Z)
    (target_type : string) (crypt_params : KeyBuffer) (paramix nullix endix : Z)
  : option buffer :=
  let io := store_u32 dm_ioctl.target_count 1 io in
  let tgt := load_u32 dm_ioctl.data_start io in
  let io := store_u32 (tgt + dm_target_spec.status) 0 io in
  let io := store_u64 (tgt + dm_target_spec.sector_start) 0 io in
  let io := store_u64 (tgt + dm_target_spec.length) nr_sec io in
  let io := store_bytes (tgt + dm_target_spec.target_type)
              (string_copy target_type dm_target_spec.sizeof_target_type) io in
  let n := Z.min (Z.of_nat (length crypt_params)) (size_t_of (sizeof_buffer - paramix)) in
  let io := store_bytes paramix (take (Z.to_nat n) crypt_params) io in
  io ← store_char nullix x00 io;
  Some (store_u32 (tgt + dm_target_spec.next) (to_u32 endix) io).

(** [create_crypto_blk_dev] (lines 148 to 213): [Some crypto_blkdev] is
    [true] with [*crypto_blkdev] filled in, [None] is [false]. *)
Definition create_crypto_blk_dev (dm_name : string) (nr_sec : Z) (target_type : string)
    (crypt_params : KeyBuffer) : M (option string) :=
  ok ← open "/dev/device-mapper";
  if negb ok then
    PLOG ERROR "Cannot open device-mapper";; mret None
  else
    let sizeof_buffer := DM_CRYPT_BUF_SIZE in
    created ← match dm_ioctl_init sizeof_buffer dm_name with
              | None => mret false
              | Some io => '(rc, _) ← ioctl DM_DEV_CREATE io; mret (bool_decide (rc = 0))
              end;
    if negb created then
      PLOG ERROR ("Cannot create dm-crypt device " ++ dm_name);; mret None
    else
      (* Get the device status, in particular, the name of its device file *)
      deref (dm_ioctl_init sizeof_buffer dm_name) (λ io,
        '(rc, io) ← ioctl DM_DEV_STATUS io;
        if decide (rc ≠ 0) then
          PLOG ERROR ("Cannot retrieve dm-crypt device status " ++ dm_name);; mret None
        else
          let dev := load_u64 dm_ioctl.dev io in
          let crypto_blkdev :=
            "/dev/block/dm-" ++
            to_string (Z.lor (Z.land dev 255) (Z.land (Z.shiftr dev 12) 1048320)) in
          deref (dm_ioctl_init sizeof_buffer dm_name) (λ io,
            let paramix := size_t_of (load_u32 dm_ioctl.data_start io + dm_target_spec.sizeof) in
            let nullix := size_t_of (paramix + Z.of_nat (length crypt_params)) in
            (* Add room for \0 and align to 8 byte boundary *)
            let endix := Z.land (size_t_of (nullix + 1 + 7)) 8 in
            if decide (endix > sizeof_buffer) then
              LOG ERROR "crypt_params too big for DM_CRYPT_BUF_SIZE";; mret None
            else
              match table_load_buffer io sizeof_buffer nr_sec target_type crypt_params
                      paramix nullix endix with
              | None => undefined
              | Some io =>
                loaded ← table_load_loop (Z.to_nat TABLE_LOAD_RETRIES) 0 io;
                if negb loaded then mret None
                else
                  (* Resume this device to activate it *)
                  deref (dm_ioctl_init sizeof_buffer dm_name) (λ io,
                    '(rc, _) ← ioctl DM_DEV_SUSPEND io;
                    if decide (rc ≠ 0) then
                      PLOG ERROR ("Cannot resume dm-crypt device " ++ dm_name);; mret None
                    else mret (Some crypto_blkdev))
              end)).

(** The call of [cryptfs_enable_inplace], with [size_already_done] as its
    second result; [size], [tot_size] and [previously_encrypted_upto] are
    [off64_t] parameters. *)
Definition run_cryptfs_enable_inplace (crypto_blkdev real_blkdev : string)
    (size tot_size previously_encrypted_upto : Z) : M (Z * Z) :=
  let '(rc, size_already_done) :=
    cryptfs_enable_inplace E crypto_blkdev real_blkdev size tot_size previously_encrypted_upto in
  emit (EvEnableInplace crypto_blkdev real_blkdev size rc size_already_done);;
  mret (rc, size_already_done).

(** [std::thread(&async_kick_off).detach()] *)
Definition detach_async_kick_off : M unit := emit (EvThreadDetach "async_kick_off").

(** [e4crypt_mount_metadata_encrypted] (lines 252 to 272). *)
Definition e4crypt_mount_metadata_encrypted : M bool :=
  LOG DEBUG "e4crypt_mount_default_encrypted";;
  key ← read_key false;
  match key with
  | None => mret false
  | Some key =>
    match fs_mgr_get_crypt_entry E with
    | None => LOG ERROR "Failed to get data_rec";; mret false
    | Some data_rec =>
      nr_sec ← get_number_of_sectors (blk_device data_rec);
      match nr_sec with
      | None => mret false
      | Some nr_sec =>
        crypt_params ← default_key_params (blk_device data_rec) key;
        crypto_blkdev ← create_crypto_blk_dev kDmNameUserdata nr_sec
                          DEFAULT_KEY_TARGET_TYPE crypt_params;
        match crypto_blkdev with
        | None => mret false
        | Some crypto_blkdev =>
          LOG DEBUG "Restarting filesystem for metadata encryption";;
          mount_via_fs_mgr (mount_point data_rec) (c_str crypto_blkdev);;
          detach_async_kick_off;;
          mret true
        end
      end
    end
  end.

(** [e4crypt_enable_crypto] (lines 274 to 319). *)
Definition e4crypt_enable_crypto : M bool :=
  LOG DEBUG "e4crypt_enable_crypto";;
  encrypted_state ← property_get "ro.crypto.state" "";
  if strcmp_ne encrypted_state "" then
    LOG DEBUG ("e4crypt_enable_crypto got unexpected starting state: " ++ c_str encrypted_state);;
    mret false
  else
    key_ref ← read_key true;
    match key_ref with
    | None => mret false
    | Some key_ref =>
      match fs_mgr_get_crypt_entry E with
      | None => LOG ERROR "Failed to get data_rec";; mret false
      | Some data_rec =>
        nr_sec ← get_number_of_sectors (blk_device data_rec);
        match nr_sec with
        | None => mret false
        | Some nr_sec =>
          crypt_params ← default_key_params (blk_device data_rec) key_ref;
          crypto_blkdev ← create_crypto_blk_dev kDmNameUserdata nr_sec
                            DEFAULT_KEY_TARGET_TYPE crypt_params;
          match crypto_blkdev with
          | None => mret false
          | Some crypto_blkdev =>
            LOG INFO ("Beginning inplace encryption, nr_sec: " ++ to_string nr_sec);;
            '(rc, size_already_done) ←
              run_cryptfs_enable_inplace (c_str crypto_blkdev) (blk_device data_rec)
                (off64_t_of nr_sec) (off64_t_of nr_sec) 0;
            if decide (rc ≠ 0) then
              LOG ERROR ("Inplace crypto failed with code: " ++ to_string rc);; mret false
            else if decide (to_u64 size_already_done ≠ nr_sec) then
              LOG ERROR ("Inplace crypto only got up to sector: "
                         ++ to_string size_already_done);;
              mret false
            else
              LOG INFO "Inplace encryption complete";;
              property_set "ro.crypto.state" "encrypted";;
              property_set "ro.crypto.type" "file";;
              mount_via_fs_mgr (mount_point data_rec) (c_str crypto_blkdev);;
              property_set "vold.decrypt" "trigger_reset_main";;
              detach_async_kick_off;;
              mret true
          end
        end
      end
    end.

End Program.

(** ** Hex encoding of the key *)

Definition hex_digit (n : Z) : byte :=
  nth (Z.to_nat n) (list_byte_of_string "0123456789abcdef") x00.

(** Modelled from the spec: [android::vold::StrToHex] of Utils.cpp, which
    is not among the sources at hand.  The spec asks for the hex encoding of
    the key, two digits for every byte; the status is [android::OK]. *)
Definition StrToHex_model (key : KeyBuffer) : Z * KeyBuffer :=
  (0, flat_map (λ b, [hex_digit (Z_of_byte b / 16); hex_digit (Z_of_byte b mod 16)]) key).

(** ** A concrete run *)

Module Scenario.

Definition data_rec : fstab_rec :=
  {| blk_device := "/dev/block/sda9"; mount_point := "/data";
     key_dir := Some "/metadata/vold" |}.

(** Every collaborator succeeds; the device has 1,000,000 sectors and the
    transform completes [done] of them. *)
Definition env (load_ok : nat → bool) (resume_ok : bool) (done : Z) : collaborators :=
  {| StrToHex := StrToHex_model;
     fs_mgr_get_crypt_entry := Some data_rec;
     pathExists := λ _, true;
     mkdir_rc := λ _, 0;
     retrieveKey := λ _ _ _, Some [x01; xab];
     open_ok := λ _, true;
     get_blkdev_size := λ _, 1000000;
     secontextFsck := "u:r:fsck:s0";
     setexeccon_rc := λ _, 0;
     fs_mgr_do_mount_rc := λ _ _, 0;
     cryptfs_enable_inplace := λ _ _ _ _ _, (0, done);
     dm_create_ok := true;
     dm_status_dev := Some 65027;
     dm_load_ok := load_ok;
     dm_resume_ok := resume_ok |}.

Definition boot : world := World ∅ ∅ 0 [].

End Scenario.

Local Open Scope list_scope.

(** ** Traces *)

(** The world with more events in its trace. *)
Definition add_trace (t : list event) (w : world) : world :=
  World (props w) (dm_table w) (load_calls w) (trace w ++ t).

(** The events that a run added to the trace. *)
Definition new_events (w w' : world) : list event := drop (length (trace w)) (trace w').

(** The commands of one kind, the pauses of one length, and how many events
    of a trace satisfy a test. *)
Definition is_ioctl (cmd : dm_cmd) (e : event) : bool :=
  match e with
  | EvIoctl c _ _ => bool_decide (c = cmd)
  | _ => false
  end.

Definition is_usleep (usec : Z) (e : event) : bool :=
  match e with
  | EvUsleep u => bool_decide (u = usec)
  | _ => false
  end.

Definition count (p : event → bool) (t : list event) : nat := length (List.filter p t).

(** ** The commands of a provisioning *)

(** The buffer of the create, status and resume commands. *)
Definition plain_cmd (dm_name : string) : buffer :=
  default [] (dm_ioctl_init DM_CRYPT_BUF_SIZE dm_name).

(** The buffer of the table-load command. *)
Definition load_cmd (dm_name : string) (nr_sec : Z) (target_type : string)
    (crypt_params : KeyBuffer) : buffer :=
  let paramix := dm_ioctl.sizeof + dm_target_spec.sizeof in
  let nullix := paramix + Z.of_nat (length crypt_params) in
  default [] (table_load_buffer (plain_cmd dm_name) DM_CRYPT_BUF_SIZE nr_sec target_type
                crypt_params paramix nullix (Z.land (size_t_of (nullix + 1 + 7)) 8)).

(** The next multiple of 8, which is what the comment in the source asks
    [endix] to be. *)
Definition align8 (n : Z) : Z := (n + 7) / 8 * 8.

(** One failed attempt that is followed by another one. *)
Definition load_retry (io : buffer) : list event :=
  [EvIoctl DM_TABLE_LOAD io (-1);
   EvLog INFO true "DM_TABLE_LOAD ioctl failed, retrying";
   EvUsleep 500000].

(** [n] such attempts in a row. *)
Definition load_retries (n : nat) (io : buffer) : list event :=
  concat (replicate n (load_retry io)).

(** The events of the resume command. *)
Definition resume_events (E : collaborators) (dm_name : string) : list event :=
  if dm_resume_ok E then [EvIoctl DM_DEV_SUSPEND (plain_cmd dm_name) 0]
  else [EvIoctl DM_DEV_SUSPEND (plain_cmd dm_name) (-1);
        EvLog ERROR true ("Cannot resume dm-crypt device " +:+ dm_name)].

(** The path of the mapped device, from the device number of the status reply. *)
Definition crypto_blkdev_of (dev : Z) : string :=
  ("/dev/block/dm-" ++
   to_string (Z.lor (Z.land (to_u64 dev) 255) (Z.land (Z.shiftr (to_u64 dev) 12) 1048320)))%string.

(** The state in which the table load starts: the mapping is created and its
    status was queried. *)
Definition created (dm_name : string) (w : world) : world :=
  World (props w) (<[dm_name_of (plain_cmd dm_name) := DmCreated]> (dm_table w)) (load_calls w)
        (trace w ++ [EvOpen "/dev/device-mapper" true;
                     EvIoctl DM_DEV_CREATE (plain_cmd dm_name) 0;
                     EvIoctl DM_DEV_STATUS (plain_cmd dm_name) 0]).

(** The part of [create_crypto_blk_dev] that follows the construction of the
    table-load command: the retry loop and the resume. *)
Definition finish_provisioning (E : collaborators) (dm_name crypto_blkdev : string)
    (io : buffer) : M (option string) :=
  loaded ← table_load_loop E (Z.to_nat TABLE_LOAD_RETRIES) 0 io;
  if negb loaded then mret None
  else
    deref (dm_ioctl_init DM_CRYPT_BUF_SIZE dm_name) (λ io,
      '(rc, _) ← ioctl E DM_DEV_SUSPEND io;
      if decide (rc ≠ 0) then
        PLOG ERROR ("Cannot resume dm-crypt device " +:+ dm_name);; mret None
      else mret (Some crypto_blkdev)).

(** ** Classes of events *)

(** What reading the key, sizing the device and encoding the parameters add
    to the trace. *)
Definition is_prelude (e : event) : bool :=
  match e with
  | EvLog _ _ _ | EvOpen _ _ | EvMkdir _ _ _ | EvRetrieveKey _ _ _ _ => true
  | _ => false
  end.

(** What [mount_via_fs_mgr] adds to the trace. *)
Definition is_mount (e : event) : bool :=
  match e with
  | EvLog _ _ _ | EvSetexeccon _ _ | EvFsMgrDoMount _ _ _ => true
  | _ => false
  end.

(** What the retry loop adds to the trace. *)
Definition is_load_step (e : event) : bool :=
  match e with
  | EvLog _ _ _ | EvUsleep _ | EvIoctl DM_TABLE_LOAD _ _ => true
  | _ => false
  end.

(** What [create_crypto_blk_dev] adds to the trace: no [DM_DEV_REMOVE]. *)
Definition is_provision_step (e : event) : bool :=
  match e with
  | EvLog _ _ _ | EvUsleep _ | EvOpen _ _ => true
  | EvIoctl cmd _ _ => negb (bool_decide (cmd = DM_DEV_REMOVE))
  | _ => false
  end.

(** What the shared steps add to the trace. *)
Definition is_quiet (e : event) : bool := is_prelude e || is_provision_step e.

(** A resume command that the driver accepted. *)
Definition is_resumed (e : event) : bool :=
  match e with
  | EvIoctl DM_DEV_SUSPEND _ rc => bool_decide (rc = 0)
  | _ => false
  end.

(** A [DM_DEV_REMOVE] command. *)
Definition is_remove (e : event) : bool := is_ioctl DM_DEV_REMOVE e.

(** A write to a property, or the start of the restart thread. *)
Definition is_signal (e : event) : bool :=
  match e with
  | EvPropertySet _ _ | EvThreadDetach _ => true
  | _ => false
  end.

(** A call of [cryptfs_enable_inplace]. *)
Definition is_inplace (e : event) : bool :=
  match e with
  | EvEnableInplace _ _ _ _ _ => true
  | _ => false
  end.

(** The property writes of the file, and every event that is not a property
    write. *)
Definition writes_fixed_property (e : event) : bool :=
  match e with
  | EvPropertySet key value =>
      bool_decide ((key, value) ∈ [("ro.crypto.state", "encrypted");
                                    ("ro.crypto.type", "file");
                                    ("vold.decrypt", "trigger_reset_main")])
  | _ => true
  end.

(** [only P m]: [m] always returns, changes nothing but the trace, and adds
    to it only events that satisfy [P]. *)
Definition only {A} (P : event → bool) (m : M A) : Prop :=
  ∀ w, ∃ a t, m w = (Ret a, add_trace t w) ∧ Forall (λ e, P e = true) t.

(** [emits P m]: whatever [m] does, the events it adds satisfy [P]. *)
Definition emits {A} (P : event → bool) (m : M A) : Prop :=
  ∀ w, ∃ t, trace (m w).2 = trace w ++ t ∧ Forall (λ e, P e = true) t.

(** No mapping disappears from the table of the driver. *)
Definition table_grows (w w' : world) : Prop :=
  ∀ n, is_Some (dm_table w !! n) → is_Some (dm_table w' !! n).

(** ** The steps that the two entry points share *)

(** Key, fstab entry, size of the device, parameters and mapping, as both
    entry points run them; [None] is their [return false]. *)
Definition provision (E : collaborators) (create_if_absent : bool)
  : M (option (fstab_rec * Z * string)) :=
  key ← read_key E create_if_absent;
  match key with
  | None => mret None
  | Some key =>
    match fs_mgr_get_crypt_entry E with
    | None => LOG ERROR "Failed to get data_rec";; mret None
    | Some data_rec =>
      nr_sec ← get_number_of_sectors E (blk_device data_rec);
      match nr_sec with
      | None => mret None
      | Some nr_sec =>
        crypt_params ← default_key_params E (blk_device data_rec) key;
        crypto_blkdev ← create_crypto_blk_dev E kDmNameUserdata nr_sec
                          DEFAULT_KEY_TARGET_TYPE crypt_params;
        match crypto_blkdev with
        | None => mret None
        | Some crypto_blkdev => mret (Some (data_rec, nr_sec, crypto_blkdev))
        end
      end
    end
  end.

(** What [e4crypt_mount_metadata_encrypted] does after the shared steps. *)
Definition mount_tail (E : collaborators) (p : option (fstab_rec * Z * string)) : M bool :=
  match p with
  | None => mret false
  | Some (data_rec, _, crypto_blkdev) =>
    LOG DEBUG "Restarting filesystem for metadata encryption";;
    mount_via_fs_mgr E (mount_point data_rec) (c_str crypto_blkdev);;
    detach_async_kick_off;;
    mret true
  end.

(** What [e4crypt_enable_crypto] does after the shared steps. *)
Definition enable_tail (E : collaborators) (p : option (fstab_rec * Z * string)) : M bool :=
  match p with
  | None => mret false
  | Some (data_rec, nr_sec, crypto_blkdev) =>
    LOG INFO ("Beginning inplace encryption, nr_sec: " +:+ to_string nr_sec);;
    '(rc, size_already_done) ←
      run_cryptfs_enable_inplace E (c_str crypto_blkdev) (blk_device data_rec)
        (off64_t_of nr_sec) (off64_t_of nr_sec) 0;
    if decide (rc ≠ 0) then
      LOG ERROR ("Inplace crypto failed with code: " +:+ to_string rc);; mret false
    else if decide (to_u64 size_already_done ≠ nr_sec) then
      LOG ERROR ("Inplace crypto only got up to sector: " +:+ to_string size_already_done);;
      mret false
    else
      LOG INFO "Inplace encryption complete";;
      property_set "ro.crypto.state" "encrypted";;
      property_set "ro.crypto.type" "file";;
      mount_via_fs_mgr E (mount_point data_rec) (c_str crypto_blkdev);;
      property_set "vold.decrypt" "trigger_reset_main";;
      detach_async_kick_off;;
      mret true
  end.

(** The properties after a complete in-place encryption. *)
Definition encrypted_props (p : gmap string string) : gmap string string :=
  <["vold.decrypt" := "trigger_reset_main"]>
    (<["ro.crypto.type" := "file"]> (<["ro.crypto.state" := "encrypted"]> p)).

(** Every parameter string starts with the name of the cipher. *)
Definition holds_crypt_params (s : list byte) : Prop :=
  ∃ rest, s = list_byte_of_string "AES-256-XTS " ++ rest.

(** [p] occurs in [msg] as it is. *)
Definition verbatim_in (p msg : string) : Prop := ∃ pre post, msg = pre +:+ p +:+ post.

(** ** More concrete runs *)

(** The collaborators of [E], with another result of [fs_mgr_do_mount]. *)
Definition with_mount_rc (rc : Z) (E : collaborators) : collaborators :=
  {| StrToHex := StrToHex E;
     fs_mgr_get_crypt_entry := fs_mgr_get_crypt_entry E;
     pathExists := pathExists E;
     mkdir_rc := mkdir_rc E;
     retrieveKey := retrieveKey E;
     open_ok := open_ok E;
     get_blkdev_size := get_blkdev_size E;
     secontextFsck := secontextFsck E;
     setexeccon_rc := setexeccon_rc E;
     fs_mgr_do_mount_rc := λ _ _, rc;
     cryptfs_enable_inplace := cryptfs_enable_inplace E;
     dm_create_ok := dm_create_ok E;
     dm_status_dev := dm_status_dev E;
     dm_load_ok := dm_load_ok E;
     dm_resume_ok := dm_resume_ok E |}.

(** The collaborators of [E], with another key in the key storage. *)
Definition with_key (key : KeyBuffer) (E : collaborators) : collaborators :=
  {| StrToHex := StrToHex E;
     fs_mgr_get_crypt_entry := fs_mgr_get_crypt_entry E;
     pathExists := pathExists E;
     mkdir_rc := mkdir_rc E;
     retrieveKey := λ _ _ _, Some key;
     open_ok := open_ok E;
     get_blkdev_size := get_blkdev_size E;
     secontextFsck := secontextFsck E;
     setexeccon_rc := setexeccon_rc E;
     fs_mgr_do_mount_rc := fs_mgr_do_mount_rc E;
     cryptfs_enable_inplace := cryptfs_enable_inplace E;
     dm_create_ok := dm_create_ok E;
     dm_status_dev := dm_status_dev E;
     dm_load_ok := dm_load_ok E;
     dm_resume_ok := dm_resume_ok E |}.

(** The collaborators of [E], with another [StrToHex]. *)
Definition with_StrToHex (f : KeyBuffer → Z * KeyBuffer) (E : collaborators) : collaborators :=
  {| StrToHex := f;
     fs_mgr_get_crypt_entry := fs_mgr_get_crypt_entry E;
     pathExists := pathExists E;
     mkdir_rc := mkdir_rc E;
     retrieveKey := retrieveKey E;
     open_ok := open_ok E;
     get_blkdev_size := get_blkdev_size E;
     secontextFsck := secontextFsck E;
     setexeccon_rc := setexeccon_rc E;
     fs_mgr_do_mount_rc := fs_mgr_do_mount_rc E;
     cryptfs_enable_inplace := cryptfs_enable_inplace E;
     dm_create_ok := dm_create_ok E;
     dm_status_dev := dm_status_dev E;
     dm_load_ok := dm_load_ok E;
     dm_resume_ok := dm_resume_ok E |}.

(** The table load of the mapping "userdata" with 34 bytes of parameters. *)
Module Scenario_C4.
Definition crypt_params : KeyBuffer :=
  list_byte_of_string "AES-256-XTS 01ab /dev/block/sda9 0".

(** Attempts 1 to 9 fail and attempt 10 succeeds. *)
Definition env_tenth : collaborators :=
  Scenario.env (λ n, bool_decide (n = 9%nat)) true 1000000.

(** Every attempt fails. *)
Definition env_never : collaborators := Scenario.env (λ _, false) true 1000000.

Definition run (E : collaborators) : outcome (option string) * world :=
  create_crypto_blk_dev E kDmNameUserdata 1000000 DEFAULT_KEY_TARGET_TYPE crypt_params
    Scenario.boot.
End Scenario_C4.

(** Parameters that do not fit in the command buffer. *)
Module Scenario_C1.
(** 4000 bytes of parameters: with the header (312), the target (40) and the
    terminator they need 4353 bytes. *)
Definition crypt_params : KeyBuffer := replicate 4000 x41.

Definition run : outcome (option string) * world :=
  create_crypto_blk_dev (Scenario.env (λ _, true) true 1000000) kDmNameUserdata 1000000
    DEFAULT_KEY_TARGET_TYPE crypt_params Scenario.boot.

(** The same from an entry point: a key of 2000 bytes gives 4030 bytes of
    parameters. *)
Definition run_mount : outcome bool * world :=
  e4crypt_mount_metadata_encrypted
    (with_key (replicate 2000 x41) (Scenario.env (λ _, true) true 1000000)) Scenario.boot.
End Scenario_C1.

(** A key that [StrToHex] rejects. *)
Module Scenario_C6.
(** A [StrToHex] that reports the status -1 for the empty key and encodes
    every other key. *)
Definition StrToHex_strict (key : KeyBuffer) : Z * KeyBuffer :=
  match key with
  | [] => (-1, [])
  | _ => StrToHex_model key
  end.

(** The key storage holds the empty key; [load_ok] says whether the driver
    accepts the table; every other collaborator succeeds. *)
Definition env (load_ok : bool) : collaborators :=
  with_key [] (with_StrToHex StrToHex_strict (Scenario.env (λ _, load_ok) true 1000000)).

Definition run (load_ok : bool) : outcome bool * world :=
  e4crypt_mount_metadata_encrypted (env load_ok) Scenario.boot.
End Scenario_C6.

(** A mount that fails, followed by a failure to reset the execution
    context. *)
Module Scenario_C8.
(** The collaborators of [E], with another result of [setexeccon(nullptr)]. *)
Definition with_clear_rc (rc : Z) (E : collaborators) : collaborators :=
  {| StrToHex := StrToHex E;
     fs_mgr_get_crypt_entry := fs_mgr_get_crypt_entry E;
     pathExists := pathExists E;
     mkdir_rc := mkdir_rc E;
     retrieveKey := retrieveKey E;
     open_ok := open_ok E;
     get_blkdev_size := get_blkdev_size E;
     secontextFsck := secontextFsck E;
     setexeccon_rc := λ con, match con with
                             | None => rc
                             | Some _ => setexeccon_rc E con
                             end;
     fs_mgr_do_mount_rc := fs_mgr_do_mount_rc E;
     cryptfs_enable_inplace := cryptfs_enable_inplace E;
     dm_create_ok := dm_create_ok E;
     dm_status_dev := dm_status_dev E;
     dm_load_ok := dm_load_ok E;
     dm_resume_ok := dm_resume_ok E |}.

(** [fs_mgr_do_mount] returns 5 and [setexeccon(nullptr)] returns -1; every
    other collaborator succeeds. *)
Definition env : collaborators :=
  with_mount_rc 5 (with_clear_rc (-1) (Scenario.env (λ _, true) true 1000000)).

Definition run : outcome bool * world := e4crypt_mount_metadata_encrypted env Scenario.boot.
End Scenario_C8.

(** ** The restart thread *)

(** [async_kick_off] runs in a detached thread, after the entry point has
    returned.  Its calls are recorded in a trace of their own; the property
    service, which init writes to at the same time, is a collaborator: it
    gives the value of a property at the n-th read of the thread (the empty
    string when the property is unset). *)
Inductive thread_event :=
  | TvLog (sev : severity) (msg : string)
  | TvSleep (seconds : Z)
  | TvUsleep (usec : Z)
  | TvPropertySet (key value : string)
  | TvPropertyGet (key value : string).

Record thread_state := ThreadState {
  reads : nat;                     (* property reads so far *)
  thread_trace : list thread_event
}.

Definition T (A : Type) : Type := thread_state → outcome A * thread_state.

#[global] Instance T_ret : MRet T := λ A a s, (Ret a, s).
#[global] Instance T_bind : MBind T := λ A B f m s,
  match m s with
  | (Ret a, s') => f a s'
  | (Undefined, s') => (Undefined, s')
  | (OutOfFuel, s') => (OutOfFuel, s')
  end.

Definition DATA_PREP_TIMEOUT : Z := 1000.

(** [*p == c] for a character array that holds [p]. *)
Definition first_char_is (c : ascii) (p : string) : bool :=
  match p with
  | String c' _ => Ascii.eqb c' c
  | EmptyString => false
  end.

Section Thread.
Context (service : nat → string → string).

Definition thread_emit (e : thread_event) : T unit := λ s,
  (Ret (), ThreadState (reads s) (thread_trace s ++ [e])).

Definition thread_out_of_fuel {A} : T A := λ s, (OutOfFuel, s).

(** [property_get] of the thread: the default is used when the property is
    unset or empty. *)
Definition thread_property_get (key default_value : string) : T string := λ s,
  let v := service (reads s) key in
  let p := if String.eqb v "" then default_value else v in
  (Ret p, ThreadState (S (reads s)) (thread_trace s ++ [TvPropertyGet key p])).

(** The loop [for (int i = 0; ; i++)] of [prep_data_fs] (lines 227 to 240). *)
Fixpoint prep_data_fs_loop (fuel : nat) (i : Z) : T bool :=
  match fuel with
  | O => thread_out_of_fuel
  | S fuel' =>
    p ← thread_property_get "vold.post_fs_data_done" "0";
    if first_char_is "1" p then
      thread_emit (TvLog INFO "Successful data prep");; mret true
    else if decide (i + 1 = DATA_PREP_TIMEOUT) then
      thread_emit (TvLog ERROR "post_fs_data timed out");; mret false
    else
      thread_emit (TvUsleep 50000);;
      prep_data_fs_loop fuel' (i + 1)
  end.

(** [prep_data_fs] (lines 216 to 241). *)
Definition prep_data_fs : T bool :=
  (* Do the prep of the /data filesystem *)
  thread_emit (TvPropertySet "vold.post_fs_data_done" "0");;
  thread_emit (TvPropertySet "vold.decrypt" "trigger_post_fs_data");;
  thread_emit (TvLog DEBUG "Waiting for post_fs_data_done");;
  (* Wait a max of 50 seconds, hopefully it takes much less *)
  prep_data_fs_loop (Z.to_nat DATA_PREP_TIMEOUT) 0.

(** [async_kick_off] (lines 243 to 250). *)
Definition async_kick_off : T unit :=
  thread_emit (TvLog DEBUG "Asynchronously restarting framework");;
  thread_emit (TvSleep 2);;
  thread_emit (TvPropertySet "vold.decrypt" "trigger_load_persist_props");;
  ok ← prep_data_fs;
  if negb ok then mret ()
  else
    (* startup service classes main and late_start *)
    thread_emit (TvPropertySet "vold.decrypt" "trigger_restart_framework").

End Thread.

(** The reads of a trace, its pauses, and the time it sleeps, in
    microseconds. *)
Definition is_read (e : thread_event) : bool :=
  match e with TvPropertyGet _ _ => true | _ => false end.

Definition is_pause (e : thread_event) : bool :=
  match e with TvUsleep _ => true | _ => false end.

Definition slept (e : thread_event) : Z :=
  match e with
  | TvSleep seconds => 1000000 * seconds
  | TvUsleep usec => usec
  | _ => 0
  end.

Definition time_slept (t : list thread_event) : Z := foldr (λ e acc, slept e + acc) 0 t.

(** The values that a trace writes to [vold.decrypt], in order. *)
Definition decrypt_signals (t : list thread_event) : list string :=
  omap (λ e, match e with
             | TvPropertySet key value =>
                 if String.eqb key "vold.decrypt" then Some value else None
             | _ => None
             end) t.

(** Does the [n]-th read of [vold.post_fs_data_done] see a value that
    starts with '1'. *)
Definition data_prep_done (service : nat → string → string) (n : nat) : bool :=
  first_char_is "1"
    (let v := service n "vold.post_fs_data_done" in if String.eqb v "" then "0" else v).

Definition thread_start : thread_state := ThreadState 0 [].

(** A property service in which init sets [vold.post_fs_data_done] to "1"
    just before the [n]-th read of the thread. *)
Definition flag_from (n : nat) : nat → string → string :=
  λ k _, if (k <? n)%nat then "" else "1".

(** ** The calls of the entry points *)

(** What the steps that the two entry points share add to the trace, for an
    entry point that reads the key with [create_if_absent]. *)
Definition provision_call (create_if_absent : bool) (e : event) : bool :=
  match e with
  | EvLog _ _ _ | EvOpen _ _ | EvUsleep _ | EvMkdir _ _ _ => true
  | EvRetrieveKey c _ _ _ => bool_decide (c = create_if_absent)
  | EvIoctl cmd _ _ => negb (bool_decide (cmd = DM_DEV_REMOVE))
  | _ => false
  end.

(** What [read_key] adds to the trace. *)
Definition is_key_step (e : event) : bool :=
  match e with
  | EvLog _ _ _ | EvMkdir _ _ _ | EvRetrieveKey _ _ _ _ => true
  | _ => false
  end.

(** The collaborators of [E], with an empty key storage that takes no new
    key. *)
Definition with_key_missing (E : collaborators) : collaborators :=
  {| StrToHex := StrToHex E;
     fs_mgr_get_crypt_entry := fs_mgr_get_crypt_entry E;
     pathExists := pathExists E;
     mkdir_rc := mkdir_rc E;
     retrieveKey := λ _ _ _, None;
     open_ok := open_ok E;
     get_blkdev_size := get_blkdev_size E;
     secontextFsck := secontextFsck E;
     setexeccon_rc := setexeccon_rc E;
     fs_mgr_do_mount_rc := fs_mgr_do_mount_rc E;
     cryptfs_enable_inplace := cryptfs_enable_inplace E;
     dm_create_ok := dm_create_ok E;
     dm_status_dev := dm_status_dev E;
     dm_load_ok := dm_load_ok E;
     dm_resume_ok := dm_resume_ok E |}.

(** ** Memory lemmas *)

Lemma store_bytes_at_length off data (buf : buffer) :
  length (store_bytes_at off data buf) = length buf.
Proof.
  revert off buf. induction data as [|b data IH]; intros off buf; cbn [store_bytes_at]; [done|].
  by rewrite IH, length_insert.
Qed.

Lemma store_bytes_length off data (buf : buffer) :
  length (store_bytes off data buf) = length buf.
Proof. apply store_bytes_at_length. Qed.

Lemma store_bytes_at_lookup_ne off data (buf : buffer) (i : nat) :
  (i < off ∨ off + length data ≤ i)%nat →
  store_bytes_at off data buf !! i = buf !! i.
Proof.
  revert off buf. induction data as [|b data IH]; intros off buf Hi;
    cbn [store_bytes_at length] in *; [done|].
  rewrite IH by lia. apply list_lookup_insert_ne. lia.
Qed.

Lemma store_bytes_at_lookup off data (buf : buffer) (i : nat) :
  (off + length data ≤ length buf)%nat → (i < length data)%nat →
  store_bytes_at off data buf !! (off + i)%nat = data !! i.
Proof.
  revert off buf i. induction data as [|b data IH]; intros off buf i Hlen Hi;
    cbn [store_bytes_at length] in *; [lia|].
  destruct i as [|i].
  - rewrite store_bytes_at_lookup_ne by lia.
    rewrite Nat.add_0_r. apply list_lookup_insert_eq. lia.
  - replace (off + S i)%nat with (S off + i)%nat by lia.
    apply IH; [rewrite length_insert|]; lia.
Qed.

Lemma load_bytes_ext off n (b1 b2 : buffer) :
  (∀ i : nat, (Z.to_nat off ≤ i < Z.to_nat off + n)%nat → b1 !! i = b2 !! i) →
  load_bytes off n b1 = load_bytes off n b2.
Proof.
  intros H. unfold load_bytes. apply list_eq. intros i.
  destruct (decide (i < n)%nat) as [Hi|Hi].
  - rewrite !lookup_take_lt, !lookup_drop by done. apply H. lia.
  - by rewrite !lookup_take_ge by lia.
Qed.

Lemma load_bytes_store_bytes_ne off n off' data (buf : buffer) :
  0 <= off → 0 <= off' →
  off' + Z.of_nat (length data) <= off ∨ off + Z.of_nat n <= off' →
  load_bytes off n (store_bytes off' data buf) = load_bytes off n buf.
Proof.
  intros H0 H0' Hd. apply load_bytes_ext. intros i Hi.
  apply store_bytes_at_lookup_ne. lia.
Qed.

Lemma load_bytes_insert_ne off n (i : nat) b (buf : buffer) :
  0 <= off → Z.of_nat i < off ∨ off + Z.of_nat n <= Z.of_nat i →
  load_bytes off n (<[i := b]> buf) = load_bytes off n buf.
Proof.
  intros H0 Hd. apply load_bytes_ext. intros j Hj.
  apply list_lookup_insert_ne. lia.
Qed.

Lemma load_bytes_store_bytes off data (buf : buffer) :
  0 <= off → off + Z.of_nat (length data) <= Z.of_nat (length buf) →
  load_bytes off (length data) (store_bytes off data buf) = data.
Proof.
  intros H0 Hlen. unfold load_bytes, store_bytes. apply list_eq. intros i.
  destruct (decide (i < length data)%nat) as [Hi|Hi].
  - rewrite lookup_take_lt, lookup_drop by done.
    apply store_bytes_at_lookup; lia.
  - rewrite lookup_take_ge by lia. symmetry. apply lookup_ge_None. lia.
Qed.

Lemma string_copy_length s n : (length (string_copy s n) ≤ n)%nat.
Proof. unfold string_copy. rewrite length_take. lia. Qed.

(** ** The buffer that [dm_ioctl_init] returns *)

Lemma dm_ioctl_init_facts dm_name :
  ∃ io, dm_ioctl_init DM_CRYPT_BUF_SIZE dm_name = Some io
        ∧ length io = 4096%nat
        ∧ load_u32 dm_ioctl.data_start io = dm_ioctl.sizeof
        ∧ load_u32 dm_ioctl.data_size io = DM_CRYPT_BUF_SIZE
        ∧ (load_u32 (dm_ioctl.version 0) io, load_u32 (dm_ioctl.version 1) io,
           load_u32 (dm_ioctl.version 2) io) = (4, 0, 0)
        ∧ load_bytes dm_ioctl.name (length (string_copy dm_name dm_ioctl.sizeof_name)) io
          = string_copy dm_name dm_ioctl.sizeof_name.
Proof.
  unfold dm_ioctl_init. rewrite decide_False by (vm_compute; discriminate).
  eexists. split; [reflexivity|].
  pose proof (string_copy_length dm_name dm_ioctl.sizeof_name) as Hn.
  unfold dm_ioctl.sizeof_name in *.
  assert (Hfield : ∀ off, 0 <= off → off + 4 <= 48 → ∀ B : buffer,
    load_u32 off (store_bytes dm_ioctl.name (string_copy dm_name 128) B) = load_u32 off B).
  { intros off H0 H1 B. unfold load_u32. f_equal.
    apply load_bytes_store_bytes_ne; unfold dm_ioctl.name; lia. }
  split; [|split; [|split; [|split]]].
  - rewrite store_bytes_length. reflexivity.
  - rewrite Hfield by (vm_compute; intuition discriminate). reflexivity.
  - rewrite Hfield by (vm_compute; intuition discriminate). reflexivity.
  - rewrite !Hfield by (vm_compute; intuition discriminate). reflexivity.
  - apply load_bytes_store_bytes; [done|].
    unfold store_u32. rewrite !store_bytes_length. unfold dm_ioctl.name.
    change (length (replicate (Z.to_nat DM_CRYPT_BUF_SIZE) x00)) with 4096%nat. lia.
Qed.

(** ** The size computation of the table-load command *)

Lemma land_8_testbit (x : Z) : Z.land x 8 = if Z.testbit x 3 then 8 else 0.
Proof.
  apply Z.bits_inj'. intros n Hn. rewrite Z.land_spec.
  destruct (decide (n = 3)) as [->|Hne].
  - destruct (Z.testbit x 3); reflexivity.
  - change 8 with (2 ^ 3). rewrite (Z.pow2_bits_false 3 n) by lia.
    rewrite andb_false_r.
    destruct (Z.testbit x 3); [by rewrite Z.pow2_bits_false by lia|by rewrite Z.bits_0].
Qed.

(** [endix] is 0 or 8, whatever the length of the parameters. *)
Lemma endix_le_8 (nullix : Z) : 0 <= Z.land (size_t_of (nullix + 1 + 7)) 8 <= 8.
Proof. rewrite land_8_testbit. destruct (Z.testbit _ 3); lia. Qed.

Lemma dm_name_of_store_bytes off data (buf : buffer) :
  0 <= off →
  off + Z.of_nat (length data) <= dm_ioctl.name
  ∨ dm_ioctl.name + Z.of_nat dm_ioctl.sizeof_name <= off →
  dm_name_of (store_bytes off data buf) = dm_name_of buf.
Proof.
  intros H0 Hd. unfold dm_name_of. do 2 f_equal.
  apply load_bytes_store_bytes_ne; [done|done|]. lia.
Qed.

Lemma dm_name_of_insert (i : nat) b (buf : buffer) :
  dm_ioctl.name + Z.of_nat dm_ioctl.sizeof_name <= Z.of_nat i →
  dm_name_of (<[i := b]> buf) = dm_name_of buf.
Proof.
  intros Hd. unfold dm_name_of. do 2 f_equal.
  apply load_bytes_insert_ne; [done|]. lia.
Qed.

Lemma le_encode_length n v : length (le_encode n v) = n.
Proof. revert v. induction n as [|n IH]; intros v; simpl; [done|]. by rewrite IH. Qed.

Lemma Z_of_byte_of_Z v : Z_of_byte (byte_of_Z v) = v mod 256.
Proof.
  unfold Z_of_byte, byte_of_Z.
  assert (Hr : 0 <= v mod 256 < 256) by (apply Z.mod_pos_bound; lia).
  destruct (Byte.of_N (Z.to_N (v mod 256))) as [b|] eqn:Hb.
  - apply Byte.to_of_N in Hb. unfold default, id. rewrite Hb. lia.
  - apply Byte.of_N_None_iff in Hb. lia.
Qed.

Lemma le_decode_encode n v : le_decode (le_encode n v) = v mod 2 ^ (8 * Z.of_nat n).
Proof.
  revert v. induction n as [|n IH]; intros v.
  - cbn [le_encode le_decode]. change (2 ^ (8 * Z.of_nat 0)) with 1. by rewrite Z.mod_1_r.
  - cbn [le_encode le_decode]. rewrite IH, Z_of_byte_of_Z.
    replace (2 ^ (8 * Z.of_nat (S n))) with (256 * 2 ^ (8 * Z.of_nat n)).
    + rewrite Z.rem_mul_r by lia. done.
    + replace (8 * Z.of_nat (S n)) with (8 + 8 * Z.of_nat n) by lia.
      rewrite Z.pow_add_r by lia. done.
Qed.

Section TableLoadBuffer.
Context (io : buffer) (nr_sec : Z) (target_type : string) (crypt_params : KeyBuffer).
Context (Hlen : length io = 4096%nat).
Context (Hstart : load_u32 dm_ioctl.data_start io = dm_ioctl.sizeof).

Let paramix := dm_ioctl.sizeof + dm_target_spec.sizeof.
Let nullix := paramix + Z.of_nat (length crypt_params).

Lemma tgt_after_target_count :
  load_u32 dm_ioctl.data_start (store_u32 dm_ioctl.target_count 1 io) = dm_ioctl.sizeof.
Proof.
  rewrite <- Hstart. unfold load_u32, store_u32. f_equal.
  apply load_bytes_store_bytes_ne; vm_compute; intuition discriminate.
Qed.

(** Parameters that leave room for the terminator: the command is built,
    with the parameters right after the target, a NUL after them, and
    [endix] in the [next] field. *)
Lemma table_load_buffer_fits endix :
  nullix < DM_CRYPT_BUF_SIZE →
  ∃ io', table_load_buffer io DM_CRYPT_BUF_SIZE nr_sec target_type crypt_params
           paramix nullix endix = Some io'
         ∧ length io' = 4096%nat
         ∧ dm_name_of io' = dm_name_of io
         ∧ load_bytes paramix (length crypt_params) io' = crypt_params
         ∧ io' !! Z.to_nat nullix = Some x00
         ∧ load_u32 (dm_ioctl.sizeof + dm_target_spec.next) io' = to_u32 endix.
Proof.
  intros Hfit. unfold table_load_buffer. rewrite tgt_after_target_count.
  subst paramix nullix. unfold DM_CRYPT_BUF_SIZE, dm_ioctl.sizeof, dm_target_spec.sizeof in *.
  pose proof (string_copy_length target_type dm_target_spec.sizeof_target_type) as Htt.
  unfold dm_target_spec.sizeof_target_type in Htt.
  change (size_t_of (4096 - (312 + 40))) with 3744.
  rewrite Z.min_l by lia. rewrite Nat2Z.id, firstn_all.
  unfold store_char. rewrite decide_True.
  2:{ unfold store_u32, store_u64. rewrite !store_bytes_length, Hlen. lia. }
  cbn [mbind option_bind]. eexists. split; [reflexivity|].
  unfold store_u32, store_u64, dm_ioctl.target_count, dm_target_spec.status,
    dm_target_spec.sector_start, dm_target_spec.length, dm_target_spec.target_type,
    dm_target_spec.next.
  split; [|split; [|split; [|split]]].
  - rewrite store_bytes_length, length_insert, !store_bytes_length. done.
  - rewrite dm_name_of_store_bytes
      by (rewrite ?le_encode_length; unfold dm_ioctl.name, dm_ioctl.sizeof_name; lia).
    rewrite dm_name_of_insert by (unfold dm_ioctl.name, dm_ioctl.sizeof_name; lia).
    rewrite !dm_name_of_store_bytes
      by (rewrite ?le_encode_length; unfold dm_ioctl.name, dm_ioctl.sizeof_name; lia).
    done.
  - rewrite load_bytes_store_bytes_ne by (rewrite ?le_encode_length; lia).
    rewrite load_bytes_insert_ne by lia.
    apply load_bytes_store_bytes; [lia|]. rewrite !store_bytes_length, Hlen. lia.
  - unfold store_bytes at 1.
    rewrite store_bytes_at_lookup_ne by (rewrite le_encode_length; lia).
    apply list_lookup_insert_eq. rewrite !store_bytes_length, Hlen. lia.
  - unfold load_u32.
    replace 4%nat with (length (le_encode 4 (to_u32 endix))) at 1 by apply le_encode_length.
    rewrite load_bytes_store_bytes.
    2: lia.
    2:{ rewrite length_insert, !store_bytes_length, Hlen, le_encode_length. lia. }
    rewrite le_decode_encode. unfold to_u32.
    change (2 ^ (8 * Z.of_nat 4)) with (2 ^ 32). apply Z.mod_mod. lia.
Qed.
End TableLoadBuffer.

(** ** Running the monad *)

Lemma bind_run {A B} (m : M A) (f : A → M B) w a w' :
  m w = (Ret a, w') → (m ≫= f) w = f a w'.
Proof. intros H. unfold mbind, M_bind. by rewrite H. Qed.

Lemma bind_undefined {A B} (m : M A) (f : A → M B) w w' :
  m w = (Undefined, w') → (m ≫= f) w = (Undefined, w').
Proof. intros H. unfold mbind, M_bind. by rewrite H. Qed.

Lemma add_trace_add_trace t1 t2 w : add_trace t2 (add_trace t1 w) = add_trace (t1 ++ t2) w.
Proof. unfold add_trace. cbn. by rewrite app_assoc. Qed.

Lemma emit_run e w : emit e w = (Ret (), add_trace [e] w).
Proof. reflexivity. Qed.

(** ** The answers of the driver and the retry loop *)

Section Driver.
Context (E : collaborators).

Lemma open_run path w :
  open E path w = (Ret (open_ok E path), add_trace [EvOpen path (open_ok E path)] w).
Proof. reflexivity. Qed.

Lemma ioctl_create_fresh io w :
  dm_table w !! dm_name_of io = None → dm_create_ok E = true →
  ioctl E DM_DEV_CREATE io w
  = (Ret (0, io), World (props w) (<[dm_name_of io := DmCreated]> (dm_table w))
                        (load_calls w) (trace w ++ [EvIoctl DM_DEV_CREATE io 0])).
Proof. intros H1 H2. unfold ioctl, dm_driver. by rewrite H1, H2. Qed.

Lemma ioctl_create_exists io w :
  is_Some (dm_table w !! dm_name_of io) →
  ioctl E DM_DEV_CREATE io w = (Ret (-1, io), add_trace [EvIoctl DM_DEV_CREATE io (-1)] w).
Proof. intros [s H1]. unfold ioctl, dm_driver. by rewrite H1. Qed.

Lemma ioctl_status_ok io dev w :
  is_Some (dm_table w !! dm_name_of io) → dm_status_dev E = Some dev →
  ioctl E DM_DEV_STATUS io w
  = (Ret (0, store_u64 dm_ioctl.dev (to_u64 dev) io), add_trace [EvIoctl DM_DEV_STATUS io 0] w).
Proof. intros [s H1] H2. unfold ioctl, dm_driver. by rewrite H1, H2. Qed.

Lemma ioctl_load_fail io w :
  dm_load_ok E (load_calls w) = false →
  ioctl E DM_TABLE_LOAD io w
  = (Ret (-1, io), World (props w) (dm_table w) (S (load_calls w))
                         (trace w ++ [EvIoctl DM_TABLE_LOAD io (-1)])).
Proof.
  intros H. unfold ioctl, dm_driver. rewrite H. by destruct (dm_table w !! dm_name_of io).
Qed.

Lemma ioctl_load_ok io w :
  is_Some (dm_table w !! dm_name_of io) → dm_load_ok E (load_calls w) = true →
  ioctl E DM_TABLE_LOAD io w
  = (Ret (0, io), World (props w) (<[dm_name_of io := DmLoaded]> (dm_table w))
                        (S (load_calls w)) (trace w ++ [EvIoctl DM_TABLE_LOAD io 0])).
Proof. intros [s H1] H2. unfold ioctl, dm_driver. by rewrite H1, H2. Qed.

Lemma ioctl_resume io w :
  is_Some (dm_table w !! dm_name_of io) →
  ioctl E DM_DEV_SUSPEND io w
  = if dm_resume_ok E
    then (Ret (0, io), World (props w) (<[dm_name_of io := DmActive]> (dm_table w))
                             (load_calls w) (trace w ++ [EvIoctl DM_DEV_SUSPEND io 0]))
    else (Ret (-1, io), add_trace [EvIoctl DM_DEV_SUSPEND io (-1)] w).
Proof. intros [s H1]. unfold ioctl, dm_driver. rewrite H1. by destruct (dm_resume_ok E). Qed.

(** *** The retry loop *)

Lemma table_load_loop_retry fuel i io w :
  dm_load_ok E (load_calls w) = false → i + 1 < TABLE_LOAD_RETRIES →
  table_load_loop E (S fuel) i io w
  = table_load_loop E fuel (i + 1) io
      (World (props w) (dm_table w) (S (load_calls w)) (trace w ++ load_retry io)).
Proof.
  intros Hfail Hi. cbn [table_load_loop].
  erewrite bind_run by (by apply ioctl_load_fail). cbn beta iota.
  rewrite decide_False by done. rewrite decide_False by lia.
  unfold PLOG, usleep. erewrite bind_run by apply emit_run.
  erewrite bind_run by apply emit_run.
  unfold add_trace. cbn [props dm_table load_calls trace].
  by rewrite <- !app_assoc.
Qed.

Lemma table_load_loop_retries k fuel i io w :
  (∀ j, (j < k)%nat → dm_load_ok E (load_calls w + j) = false) →
  i + Z.of_nat k < TABLE_LOAD_RETRIES →
  table_load_loop E (k + fuel) i io w
  = table_load_loop E fuel (i + Z.of_nat k) io
      (World (props w) (dm_table w) (load_calls w + k) (trace w ++ load_retries k io)).
Proof.
  revert i w. induction k as [|k IH]; intros i w Hfail Hi.
  - cbn [Nat.add load_retries replicate concat].
    rewrite Z.add_0_r, Nat.add_0_r, app_nil_r. by destruct w.
  - cbn [Nat.add]. rewrite table_load_loop_retry.
    2:{ specialize (Hfail 0%nat). rewrite Nat.add_0_r in Hfail. apply Hfail. lia. }
    2: lia.
    rewrite IH; cbn [props dm_table load_calls trace].
    + f_equal; [lia|]. f_equal; [lia|].
      unfold load_retries. cbn [replicate concat]. by rewrite <- app_assoc.
    + intros j Hj. specialize (Hfail (S j)).
      replace (S (load_calls w) + j)%nat with (load_calls w + S j)%nat by lia.
      apply Hfail. lia.
    + lia.
Qed.

Lemma table_load_loop_success fuel i io w :
  is_Some (dm_table w !! dm_name_of io) → dm_load_ok E (load_calls w) = true →
  table_load_loop E (S fuel) i io w
  = (Ret true, World (props w) (<[dm_name_of io := DmLoaded]> (dm_table w))
                     (S (load_calls w)) (trace w ++ [EvIoctl DM_TABLE_LOAD io 0])).
Proof.
  intros Hreg Hok. cbn [table_load_loop].
  erewrite bind_run by (by apply ioctl_load_ok). cbn beta iota.
  by rewrite decide_True by done.
Qed.

Lemma table_load_loop_give_up fuel i io w :
  dm_load_ok E (load_calls w) = false → i + 1 >= TABLE_LOAD_RETRIES →
  table_load_loop E (S fuel) i io w
  = (Ret false, World (props w) (dm_table w) (S (load_calls w))
                      (trace w ++ [EvIoctl DM_TABLE_LOAD io (-1);
                                   EvLog ERROR true "DM_TABLE_LOAD ioctl failed"])).
Proof.
  intros Hfail Hi. cbn [table_load_loop].
  erewrite bind_run by (by apply ioctl_load_fail). cbn beta iota.
  rewrite decide_False by done. rewrite decide_True by done.
  unfold PLOG. erewrite bind_run by apply emit_run.
  unfold add_trace. cbn. by rewrite <- app_assoc.
Qed.

End Driver.

Lemma load_store_u64 off v (buf : buffer) :
  0 <= off → off + 8 <= Z.of_nat (length buf) →
  load_u64 off (store_u64 off v buf) = to_u64 v.
Proof.
  intros H0 H1. unfold load_u64, store_u64.
  replace 8%nat with (length (le_encode 8 v)) at 1 by apply le_encode_length.
  rewrite load_bytes_store_bytes by (rewrite ?le_encode_length; lia).
  apply le_decode_encode.
Qed.

Lemma to_u64_idem v : to_u64 (to_u64 v) = to_u64 v.
Proof. unfold to_u64. apply Z.mod_mod. lia. Qed.

(** ** [create_crypto_blk_dev], step by step *)

Section Provisioning.
Context (E : collaborators) (dm_name : string) (nr_sec : Z) (target_type : string).
Context (crypt_params : KeyBuffer) (w : world) (dev : Z).
Context (Hopen : open_ok E "/dev/device-mapper" = true).
Context (Hfresh : dm_table w !! dm_name_of (plain_cmd dm_name) = None).
Context (Hcreate : dm_create_ok E = true).
Context (Hstatus : dm_status_dev E = Some dev).

Lemma create_crypto_blk_dev_built :
  dm_ioctl.sizeof + dm_target_spec.sizeof + Z.of_nat (length crypt_params) + 1
    <= DM_CRYPT_BUF_SIZE →
  create_crypto_blk_dev E dm_name nr_sec target_type crypt_params w
  = finish_provisioning E dm_name (crypto_blkdev_of dev)
      (load_cmd dm_name nr_sec target_type crypt_params) (created dm_name w).
Proof.
  intros Hfit.
  destruct (dm_ioctl_init_facts dm_name) as (io0 & Hinit & Hlen & Hstart & _).
  assert (Hplain : plain_cmd dm_name = io0) by (unfold plain_cmd; by rewrite Hinit).
  unfold create_crypto_blk_dev, created, load_cmd, finish_provisioning.
  rewrite Hplain in *. rewrite Hinit.
  erewrite bind_run by apply open_run. rewrite Hopen. cbn [negb].
  erewrite bind_run.
  2:{ erewrite bind_run by (by apply ioctl_create_fresh). reflexivity. }
  rewrite bool_decide_true by done. cbn [negb deref].
  erewrite bind_run.
  2:{ apply ioctl_status_ok; [|done]. cbn [dm_table]. by rewrite lookup_insert_eq. }
  cbn beta iota. rewrite decide_False by (intros H; by apply H).
  rewrite load_store_u64 by (unfold dm_ioctl.dev; lia).
  rewrite to_u64_idem, Hstart.
  change (size_t_of (dm_ioctl.sizeof + dm_target_spec.sizeof))
    with (dm_ioctl.sizeof + dm_target_spec.sizeof).
  unfold dm_ioctl.sizeof, dm_target_spec.sizeof, DM_CRYPT_BUF_SIZE in *.
  replace (size_t_of (312 + 40 + Z.of_nat (length crypt_params)))
    with (312 + 40 + Z.of_nat (length crypt_params))
    by (unfold size_t_of, to_u64; rewrite Z.mod_small; lia).
  rewrite decide_False by (pose proof (endix_le_8 (312 + 40 + Z.of_nat (length crypt_params))); lia).
  destruct (table_load_buffer_fits io0 nr_sec target_type crypt_params Hlen Hstart
              (Z.land (size_t_of (312 + 40 + Z.of_nat (length crypt_params) + 1 + 7)) 8))
    as (ioL & HioL & _).
  { unfold dm_ioctl.sizeof, dm_target_spec.sizeof, DM_CRYPT_BUF_SIZE. lia. }
  unfold dm_ioctl.sizeof, dm_target_spec.sizeof, DM_CRYPT_BUF_SIZE in HioL.
  rewrite HioL. unfold default, id. cbn [from_option].
  unfold crypto_blkdev_of, add_trace. cbn [props dm_table load_calls trace].
  rewrite <- !app_assoc. reflexivity.
Qed.

End Provisioning.

Lemma new_events_app w w' t : trace w' = trace w ++ t → new_events w w' = t.
Proof. intros H. unfold new_events. rewrite H. by rewrite drop_app_length. Qed.

Lemma count_app p t1 t2 : count p (t1 ++ t2) = (count p t1 + count p t2)%nat.
Proof. unfold count. by rewrite List.filter_app, length_app. Qed.

Lemma count_load_retries_load n io : count (is_ioctl DM_TABLE_LOAD) (load_retries n io) = n.
Proof.
  induction n as [|n IH]; [done|].
  unfold load_retries in *. cbn [replicate concat]. rewrite count_app, IH. done.
Qed.

Lemma count_load_retries_usleep n io : count (is_usleep 500000) (load_retries n io) = n.
Proof.
  induction n as [|n IH]; [done|].
  unfold load_retries in *. cbn [replicate concat]. rewrite count_app, IH. done.
Qed.

Lemma count_load_retries_resume n io : count (is_ioctl DM_DEV_SUSPEND) (load_retries n io) = 0%nat.
Proof.
  induction n as [|n IH]; [done|].
  unfold load_retries in *. cbn [replicate concat]. rewrite count_app, IH. done.
Qed.

Section Finish.
Context (E : collaborators) (dm_name crypto_blkdev : string) (io : buffer) (w : world).
Context (Hname : dm_name_of io = dm_name_of (plain_cmd dm_name)).
Context (Hreg : is_Some (dm_table w !! dm_name_of (plain_cmd dm_name))).

(** Every attempt fails: ten load commands, nine pauses, no resume. *)
Lemma finish_provisioning_all_fail :
  (∀ j, (j < 10)%nat → dm_load_ok E (load_calls w + j) = false) →
  finish_provisioning E dm_name crypto_blkdev io w
  = (Ret None,
     World (props w) (dm_table w) (load_calls w + 10)
       (trace w ++ load_retries 9 io ++
          [EvIoctl DM_TABLE_LOAD io (-1); EvLog ERROR true "DM_TABLE_LOAD ioctl failed"])).
Proof.
  intros Hfail. unfold finish_provisioning.
  change (Z.to_nat TABLE_LOAD_RETRIES) with (9 + 1)%nat.
  erewrite bind_run.
  2:{ rewrite table_load_loop_retries by (try done; intros j Hj; apply Hfail; lia).
      apply table_load_loop_give_up; [|done]. cbn [load_calls]. apply Hfail. lia. }
  cbn [negb props dm_table load_calls trace]. unfold mret, M_ret.
  do 2 f_equal; [lia|]. by rewrite <- app_assoc.
Qed.

(** The first [k] attempts fail and the next one succeeds: [k + 1] load
    commands, then the resume. *)
Lemma finish_provisioning_success (k : nat) :
  (k < 10)%nat →
  (∀ j, (j < k)%nat → dm_load_ok E (load_calls w + j) = false) →
  dm_load_ok E (load_calls w + k) = true →
  finish_provisioning E dm_name crypto_blkdev io w
  = (Ret (if dm_resume_ok E then Some crypto_blkdev else None),
     World (props w)
       (if dm_resume_ok E
        then <[dm_name_of io := DmActive]> (<[dm_name_of io := DmLoaded]> (dm_table w))
        else <[dm_name_of io := DmLoaded]> (dm_table w))
       (load_calls w + k + 1)
       (trace w ++ load_retries k io ++ [EvIoctl DM_TABLE_LOAD io 0]
          ++ resume_events E dm_name)).
Proof.
  intros Hk Hfail Hok. unfold finish_provisioning.
  destruct (dm_ioctl_init_facts dm_name) as (io0 & Hinit & _).
  assert (Hplain : plain_cmd dm_name = io0) by (unfold plain_cmd; by rewrite Hinit).
  replace (Z.to_nat TABLE_LOAD_RETRIES) with (k + S (9 - k))%nat
    by (unfold TABLE_LOAD_RETRIES; lia).
  erewrite bind_run.
  2:{ rewrite table_load_loop_retries by (try done; unfold TABLE_LOAD_RETRIES; lia).
      apply table_load_loop_success; cbn [dm_table load_calls]; [|done].
      by rewrite Hname. }
  cbn [negb]. rewrite Hinit. cbn [deref].
  assert (Hreg' : is_Some
    (<[dm_name_of io := DmLoaded]> (dm_table w) !! dm_name_of io0)).
  { rewrite <- Hplain, <- Hname. eexists. apply lookup_insert_eq. }
  unfold resume_events. rewrite Hplain in *.
  destruct (dm_resume_ok E) eqn:Hres.
  - erewrite bind_run by (rewrite ioctl_resume, Hres; [reflexivity|apply Hreg']).
    rewrite <- Hname.
    cbn beta iota. rewrite decide_False by (intros H; by apply H).
    unfold mret, M_ret. cbn [props dm_table load_calls trace].
    do 2 f_equal; [lia|]. by rewrite <- !app_assoc.
  - erewrite bind_run by (rewrite ioctl_resume, Hres; [reflexivity|apply Hreg']).
    cbn beta iota. rewrite decide_True by done.
    unfold PLOG. erewrite bind_run by apply emit_run.
    unfold mret, M_ret, add_trace. cbn [props dm_table load_calls trace].
    do 2 f_equal; [lia|]. by rewrite <- !app_assoc.
Qed.
End Finish.

Lemma load_cmd_name dm_name nr_sec target_type (crypt_params : KeyBuffer) :
  dm_ioctl.sizeof + dm_target_spec.sizeof + Z.of_nat (length crypt_params) + 1
    <= DM_CRYPT_BUF_SIZE →
  dm_name_of (load_cmd dm_name nr_sec target_type crypt_params)
  = dm_name_of (plain_cmd dm_name).
Proof.
  intros Hfit.
  destruct (dm_ioctl_init_facts dm_name) as (io0 & Hinit & Hlen & Hstart & _).
  assert (Hplain : plain_cmd dm_name = io0) by (unfold plain_cmd; by rewrite Hinit).
  unfold load_cmd. rewrite Hplain.
  edestruct (table_load_buffer_fits io0 nr_sec target_type crypt_params Hlen Hstart)
    as (ioL & -> & _ & Hn & _); [lia|done].
Qed.

(** ** The bounded retry of the table load *)

Lemma count_resume_events E dm_name :
  count (is_ioctl DM_DEV_SUSPEND) (resume_events E dm_name) = 1%nat
  ∧ count (is_ioctl DM_TABLE_LOAD) (resume_events E dm_name) = 0%nat
  ∧ count (is_usleep 500000) (resume_events E dm_name) = 0%nat.
Proof. unfold resume_events. by destruct (dm_resume_ok E). Qed.

(** C4. Once the mapping is created and the table-load command is built,
    [create_crypto_blk_dev] issues [DM_TABLE_LOAD] at most
    [TABLE_LOAD_RETRIES] = 10 times, with [usleep(500000)] between two
    attempts.  When the first [k] attempts fail and the next one succeeds
    ([k < 10]), exactly [k + 1] load commands and [k] pauses are issued and
    the function goes on to the resume command; when all ten attempts fail,
    exactly ten load commands and nine pauses are issued, the failure is
    logged, the function returns [false] and no resume command is issued. *)
Theorem table_load_retries_bounded
    (E : collaborators) (dm_name : string) (nr_sec : Z) (target_type : string)
    (crypt_params : KeyBuffer) (w : world) (dev : Z) :
  open_ok E "/dev/device-mapper" = true →
  dm_table w !! dm_name_of (plain_cmd dm_name) = None →
  dm_create_ok E = true →
  dm_status_dev E = Some dev →
  dm_ioctl.sizeof + dm_target_spec.sizeof + Z.of_nat (length crypt_params) + 1
    <= DM_CRYPT_BUF_SIZE →
  let io := load_cmd dm_name nr_sec target_type crypt_params in
  let run := create_crypto_blk_dev E dm_name nr_sec target_type crypt_params w in
  let t := new_events (created dm_name w) run.2 in
  (∀ k, (k < 10)%nat →
     (∀ j, (j < k)%nat → dm_load_ok E (load_calls w + j) = false) →
     dm_load_ok E (load_calls w + k) = true →
     trace run.2 = trace (created dm_name w) ++ t
     ∧ t = load_retries k io ++ [EvIoctl DM_TABLE_LOAD io 0] ++ resume_events E dm_name
     ∧ count (is_ioctl DM_TABLE_LOAD) t = S k
     ∧ count (is_usleep 500000) t = k
     ∧ count (is_ioctl DM_DEV_SUSPEND) t = 1%nat
     ∧ run.1 = Ret (if dm_resume_ok E then Some (crypto_blkdev_of dev) else None))
  ∧ ((∀ j, (j < 10)%nat → dm_load_ok E (load_calls w + j) = false) →
     trace run.2 = trace (created dm_name w) ++ t
     ∧ t = load_retries 9 io ++ [EvIoctl DM_TABLE_LOAD io (-1);
                                 EvLog ERROR true "DM_TABLE_LOAD ioctl failed"]
     ∧ count (is_ioctl DM_TABLE_LOAD) t = 10%nat
     ∧ count (is_usleep 500000) t = 9%nat
     ∧ count (is_ioctl DM_DEV_SUSPEND) t = 0%nat
     ∧ run.1 = Ret None).
Proof.
  intros Hopen Hfresh Hcreate Hstatus Hfit io run t.
  assert (Hrun : run = finish_provisioning E dm_name (crypto_blkdev_of dev) io
                         (created dm_name w))
    by (by apply create_crypto_blk_dev_built).
  assert (Hname : dm_name_of io = dm_name_of (plain_cmd dm_name))
    by (by apply load_cmd_name).
  assert (Hreg : is_Some (dm_table (created dm_name w) !! dm_name_of (plain_cmd dm_name))).
  { cbn [created dm_table]. rewrite lookup_insert_eq. by eexists. }
  split.
  - intros k Hk Hfail Hok.
    assert (Ht : trace run.2 = trace (created dm_name w) ++
              (load_retries k io ++ [EvIoctl DM_TABLE_LOAD io 0] ++ resume_events E dm_name)).
    { rewrite Hrun, (finish_provisioning_success E dm_name _ io _ Hname Hreg k) by done.
      reflexivity. }
    assert (Hr : run.1 = Ret (if dm_resume_ok E then Some (crypto_blkdev_of dev) else None)).
    { rewrite Hrun, (finish_provisioning_success E dm_name _ io _ Hname Hreg k) by done.
      reflexivity. }
    subst t. rewrite (new_events_app _ _ _ Ht).
    destruct (count_resume_events E dm_name) as (Hc1 & Hc2 & Hc3).
    rewrite !count_app, count_load_retries_load, count_load_retries_usleep,
      count_load_retries_resume, Hc1, Hc2, Hc3.
    change (count (is_ioctl DM_TABLE_LOAD) [EvIoctl DM_TABLE_LOAD io 0]) with 1%nat.
    change (count (is_usleep 500000) [EvIoctl DM_TABLE_LOAD io 0]) with 0%nat.
    change (count (is_ioctl DM_DEV_SUSPEND) [EvIoctl DM_TABLE_LOAD io 0]) with 0%nat.
    repeat split; try done; lia.
  - intros Hfail.
    assert (Ht : trace run.2 = trace (created dm_name w) ++
              (load_retries 9 io ++ [EvIoctl DM_TABLE_LOAD io (-1);
                                     EvLog ERROR true "DM_TABLE_LOAD ioctl failed"])).
    { rewrite Hrun, (finish_provisioning_all_fail E dm_name _ io _) by done. reflexivity. }
    assert (Hr : run.1 = Ret None).
    { rewrite Hrun, (finish_provisioning_all_fail E dm_name _ io _) by done. reflexivity. }
    subst t. rewrite (new_events_app _ _ _ Ht).
    rewrite !count_app, count_load_retries_load, count_load_retries_usleep,
      count_load_retries_resume.
    repeat split; done.
Qed.

Lemma table_load_retries_bounded_witness :
  ((Scenario_C4.run Scenario_C4.env_tenth).1 = Ret (Some "/dev/block/dm-3")
   ∧ count (is_ioctl DM_TABLE_LOAD)
       (new_events (created kDmNameUserdata Scenario.boot)
          (Scenario_C4.run Scenario_C4.env_tenth).2) = 10%nat)
  ∧ ((Scenario_C4.run Scenario_C4.env_never).1 = Ret None
     ∧ count (is_ioctl DM_DEV_SUSPEND)
         (new_events (created kDmNameUserdata Scenario.boot)
            (Scenario_C4.run Scenario_C4.env_never).2) = 0%nat).
Proof.
  split.
  - destruct (table_load_retries_bounded Scenario_C4.env_tenth kDmNameUserdata 1000000
                DEFAULT_KEY_TARGET_TYPE Scenario_C4.crypt_params Scenario.boot 65027)
      as [Hsucc _]; try reflexivity.
    { vm_compute. discriminate. }
    destruct (Hsucc 9%nat) as (_ & _ & Hloads & _ & _ & Hres).
    + lia.
    + intros j Hj. apply bool_decide_eq_false. cbn. lia.
    + reflexivity.
    + split; [exact Hres|exact Hloads].
  - destruct (table_load_retries_bounded Scenario_C4.env_never kDmNameUserdata 1000000
                DEFAULT_KEY_TARGET_TYPE Scenario_C4.crypt_params Scenario.boot 65027)
      as [_ Hfail]; try reflexivity.
    { vm_compute. discriminate. }
    destruct Hfail as (_ & _ & _ & _ & Hresume & Hres).
    + intros j Hj. reflexivity.
    + split; [exact Hres|exact Hresume].
Defined.

(** ** The size check of the table-load command *)

Section Oversized.
Context (io : buffer) (nr_sec : Z) (target_type : string) (crypt_params : KeyBuffer).
Context (Hlen : length io = 4096%nat).
Context (Hstart : load_u32 dm_ioctl.data_start io = dm_ioctl.sizeof).

(** With parameters that do not leave room for the terminator, the store
    of the NUL is past the end of the buffer. *)
Lemma table_load_buffer_oversized paramix nullix endix :
  DM_CRYPT_BUF_SIZE <= nullix →
  table_load_buffer io DM_CRYPT_BUF_SIZE nr_sec target_type crypt_params
    paramix nullix endix = None.
Proof.
  intros Hbig. unfold table_load_buffer, store_char.
  rewrite decide_False; [done|].
  unfold store_u32, store_u64. rewrite !store_bytes_length, Hlen.
  unfold DM_CRYPT_BUF_SIZE in Hbig. lia.
Qed.
End Oversized.

(** For parameters of any length that does not fit, [create_crypto_blk_dev]
    does not take the "too big" exit: it reaches the store of the NUL. *)
Lemma create_crypto_blk_dev_oversized
    (E : collaborators) (dm_name : string) (nr_sec : Z) (target_type : string)
    (crypt_params : KeyBuffer) (w : world) (dev : Z) :
  open_ok E "/dev/device-mapper" = true →
  dm_table w !! dm_name_of (plain_cmd dm_name) = None →
  dm_create_ok E = true →
  dm_status_dev E = Some dev →
  dm_ioctl.sizeof + dm_target_spec.sizeof + Z.of_nat (length crypt_params) + 1
    > DM_CRYPT_BUF_SIZE →
  Z.of_nat (length crypt_params) < 2 ^ 63 →
  create_crypto_blk_dev E dm_name nr_sec target_type crypt_params w
  = (Undefined, created dm_name w).
Proof.
  intros Hopen Hfresh Hcreate Hstatus Hbig Hsize.
  destruct (dm_ioctl_init_facts dm_name) as (io0 & Hinit & Hlen & Hstart & _).
  assert (Hplain : plain_cmd dm_name = io0) by (unfold plain_cmd; by rewrite Hinit).
  unfold create_crypto_blk_dev, created.
  rewrite Hplain in *. rewrite Hinit.
  erewrite bind_run by apply open_run. rewrite Hopen. cbn [negb].
  erewrite bind_run.
  2:{ erewrite bind_run by (by apply ioctl_create_fresh). reflexivity. }
  rewrite bool_decide_true by done. cbn [negb deref].
  erewrite bind_run.
  2:{ apply ioctl_status_ok; [|done]. cbn [dm_table]. by rewrite lookup_insert_eq. }
  cbn beta iota. rewrite decide_False by (intros H; by apply H).
  rewrite Hstart.
  change (size_t_of (dm_ioctl.sizeof + dm_target_spec.sizeof))
    with (dm_ioctl.sizeof + dm_target_spec.sizeof).
  unfold dm_ioctl.sizeof, dm_target_spec.sizeof, DM_CRYPT_BUF_SIZE in *.
  replace (size_t_of (312 + 40 + Z.of_nat (length crypt_params)))
    with (312 + 40 + Z.of_nat (length crypt_params))
    by (unfold size_t_of, to_u64; rewrite Z.mod_small; lia).
  rewrite decide_False by (pose proof (endix_le_8 (312 + 40 + Z.of_nat (length crypt_params))); lia).
  rewrite table_load_buffer_oversized by (try done; unfold DM_CRYPT_BUF_SIZE; lia).
  unfold undefined, add_trace. cbn [props dm_table load_calls trace].
  rewrite <- !app_assoc. reflexivity.
Qed.

(** C1 (the code departs from it). Parameters of 4000 bytes need 4353 bytes,
    more than [DM_CRYPT_BUF_SIZE].  [create_crypto_blk_dev] does not return
    [false] with "crypt_params too big": [endix] is 8, the check passes, the
    [memcpy] is cut down to the 3744 bytes that are left in the buffer, and
    the run goes on to the store [buffer[nullix] = 0] at index 4352, past the
    end of the buffer.  [e4crypt_mount_metadata_encrypted] gets there with a
    key of 2000 bytes. *)
Theorem oversized_params_not_rejected :
  dm_ioctl.sizeof + dm_target_spec.sizeof + Z.of_nat (length Scenario_C1.crypt_params) + 1
    = 4353
  ∧ Z.land (size_t_of (352 + Z.of_nat (length Scenario_C1.crypt_params) + 1 + 7)) 8 = 8
  ∧ Z.min (Z.of_nat (length Scenario_C1.crypt_params)) (size_t_of (DM_CRYPT_BUF_SIZE - 352))
    = 3744
  ∧ store_char (352 + Z.of_nat (length Scenario_C1.crypt_params)) x00
      (replicate 4096 x00) = None
  ∧ Scenario_C1.run.1 = Undefined
  ∧ trace Scenario_C1.run.2
    = [EvOpen "/dev/device-mapper" true;
       EvIoctl DM_DEV_CREATE (plain_cmd kDmNameUserdata) 0;
       EvIoctl DM_DEV_STATUS (plain_cmd kDmNameUserdata) 0]
  ∧ Scenario_C1.run_mount.1 = Undefined
  ∧ last (trace Scenario_C1.run_mount.2)
    = Some (EvIoctl DM_DEV_STATUS (plain_cmd kDmNameUserdata) 0).
Proof. vm_compute. repeat split; reflexivity. Qed.

(** C2 (the code departs from it). For the 34 bytes of parameters
    "AES-256-XTS 01ab /dev/block/sda9 0" the command that is loaded has the
    parameters at offset 352, right after the target, and a NUL at offset
    386; the padded end of the parameters is 392, but the [next] field of
    the target holds 8. *)
Theorem next_field_is_not_padded_end :
  let io := load_cmd kDmNameUserdata 1000000 DEFAULT_KEY_TARGET_TYPE Scenario_C4.crypt_params in
  In (EvIoctl DM_TABLE_LOAD io 0)
     (trace (Scenario_C4.run (Scenario.env (λ _, true) true 1000000)).2)
  ∧ load_bytes (dm_ioctl.sizeof + dm_target_spec.sizeof) 34 io = Scenario_C4.crypt_params
  ∧ io !! 386%nat = Some x00
  ∧ align8 (dm_ioctl.sizeof + dm_target_spec.sizeof + 34 + 1) = 392
  ∧ load_u32 (dm_ioctl.sizeof + dm_target_spec.next) io = 8.
Proof. vm_compute. repeat split; try reflexivity. right. right. right. left. reflexivity. Qed.

(** ** The parameters of the default-key target *)

Lemma StrToHex_model_length key : length (StrToHex_model key).2 = (2 * length key)%nat.
Proof.
  unfold StrToHex_model. cbn [snd]. induction key as [|b key IH]; [done|].
  cbn [flat_map length app]. rewrite IH. lia.
Qed.

(** C9. For a key that [StrToHex] turns into hex and a device path without
    NUL character, [default_key_params] returns exactly the cipher name
    "AES-256-XTS", the hex of the key, the path of the backing device and the
    start sector 0, in this order, separated by single spaces; the hex of the
    key is twice as long as the key. *)
Theorem default_key_params_format
    (E : collaborators) (real_blkdev : string) (key : KeyBuffer) (w : world) :
  StrToHex E key = StrToHex_model key →
  c_str real_blkdev = real_blkdev →
  let hex_key := (StrToHex_model key).2 in
  (default_key_params E real_blkdev key w).1
  = Ret (list_byte_of_string "AES-256-XTS" ++ list_byte_of_string " " ++
         hex_key ++ list_byte_of_string " " ++
         list_byte_of_string real_blkdev ++ list_byte_of_string " " ++
         list_byte_of_string (to_string 0))
  ∧ length hex_key = (2 * length key)%nat.
Proof.
  intros Hhex Hpath hex_key. split; [|apply StrToHex_model_length].
  unfold default_key_params. rewrite Hhex, Hpath.
  unfold StrToHex_model at 1. rewrite decide_False by (intros H; by apply H).
  unfold LOG. erewrite bind_run by apply emit_run.
  cbn [fst mret M_ret]. f_equal.
  change (list_byte_of_string "AES-256-XTS ")
    with (list_byte_of_string "AES-256-XTS" ++ list_byte_of_string " ").
  change (list_byte_of_string " 0")
    with (list_byte_of_string " " ++ list_byte_of_string (to_string 0)).
  rewrite app_nil_l, <- !app_assoc. reflexivity.
Qed.

Lemma default_key_params_format_witness :
  (default_key_params (Scenario.env (λ _, true) true 1000000) "/dev/block/sda9" [x01; xab]
     Scenario.boot).1
  = Ret (list_byte_of_string "AES-256-XTS 01ab /dev/block/sda9 0")
  ∧ length (StrToHex_model [x01; xab]).2 = 4%nat.
Proof.
  exact (default_key_params_format (Scenario.env (λ _, true) true 1000000)
           "/dev/block/sda9" [x01; xab] Scenario.boot eq_refl eq_refl).
Defined.

(** ** The starting state of [e4crypt_enable_crypto] *)

(** C7. When [ro.crypto.state] holds a value that is not empty,
    [e4crypt_enable_crypto] returns [false] after two log records: no key is
    read or created, no command reaches the device-mapper driver, and the
    properties and the mappings are as before. *)
Theorem enable_crypto_rejects_encrypted_state (E : collaborators) (w : world) (v : string) :
  props w !! "ro.crypto.state" = Some v →
  c_str v ≠ "" →
  e4crypt_enable_crypto E w
  = (Ret false,
     add_trace
       [EvLog DEBUG false "e4crypt_enable_crypto";
        EvLog DEBUG false
          ("e4crypt_enable_crypto got unexpected starting state: " +:+ c_str v)] w).
Proof.
  intros Hstate Hv.
  assert (Hne : String.eqb v "" = false).
  { apply String.eqb_neq. intros ->. by apply Hv. }
  assert (Hne' : String.eqb (c_str v) "" = false) by (by apply String.eqb_neq).
  unfold e4crypt_enable_crypto, LOG.
  erewrite bind_run by apply emit_run.
  erewrite bind_run.
  2:{ unfold property_get. cbn [props add_trace]. rewrite Hstate, Hne. reflexivity. }
  unfold strcmp_ne. cbn [c_str]. rewrite Hne'.
  cbn [negb]. erewrite bind_run by apply emit_run.
  unfold mret, M_ret. by rewrite add_trace_add_trace.
Qed.

Lemma enable_crypto_rejects_encrypted_state_witness :
  e4crypt_enable_crypto (Scenario.env (λ _, true) true 1000000)
    (World {["ro.crypto.state" := "encrypted"]} ∅ 0 [])
  = (Ret false,
     World {["ro.crypto.state" := "encrypted"]} ∅ 0
       [EvLog DEBUG false "e4crypt_enable_crypto";
        EvLog DEBUG false
          "e4crypt_enable_crypto got unexpected starting state: encrypted"]).
Proof.
  assert (Hset : c_str "encrypted" ≠ "") by (vm_compute; discriminate).
  exact (enable_crypto_rejects_encrypted_state (Scenario.env (λ _, true) true 1000000)
           (World {["ro.crypto.state" := "encrypted"]} ∅ 0 []) "encrypted" eq_refl Hset).
Defined.

(** ** Functions that only add events to the trace *)

Lemma add_trace_nil w : add_trace [] w = w.
Proof. destruct w. unfold add_trace. cbn. by rewrite app_nil_r. Qed.

Lemma only_ret {A} P (a : A) : only P (mret a).
Proof. intros w. exists a, []. by rewrite add_trace_nil. Qed.

Lemma only_bind {A B} P (m : M A) (f : A → M B) :
  only P m → (∀ a, only P (f a)) → only P (m ≫= f).
Proof.
  intros Hm Hf w. destruct (Hm w) as (a & t1 & Hrun1 & Ht1).
  destruct (Hf a (add_trace t1 w)) as (b & t2 & Hrun2 & Ht2).
  exists b, (t1 ++ t2). split.
  - erewrite bind_run by exact Hrun1. by rewrite Hrun2, add_trace_add_trace.
  - by apply Forall_app.
Qed.

Lemma only_emit P e : P e = true → only P (emit e).
Proof. intros He w. exists (), [e]. split; [apply emit_run|]. by constructor. Qed.

Ltac only_step :=
  first
    [ apply only_ret
    | apply only_emit; reflexivity
    | apply only_bind; [|intros ?]
    | match goal with
      | |- only _ (if ?c then _ else _) => destruct c
      | |- only _ (match ?c with _ => _ end) => destruct c
      end ].

Lemma read_key_only E create_if_absent : only is_prelude (read_key E create_if_absent).
Proof. unfold read_key, mkdir, LOG, PLOG. repeat only_step. Qed.

Lemma get_number_of_sectors_only E real_blkdev :
  only is_prelude (get_number_of_sectors E real_blkdev).
Proof. unfold get_number_of_sectors, open, LOG, PLOG. repeat only_step. Qed.

Lemma default_key_params_only E real_blkdev key :
  only is_prelude (default_key_params E real_blkdev key).
Proof. unfold default_key_params, LOG. repeat only_step. Qed.

Lemma mount_via_fs_mgr_only E mount_point blk_device :
  only is_mount (mount_via_fs_mgr E mount_point blk_device).
Proof.
  unfold mount_via_fs_mgr, setexeccon, fs_mgr_do_mount, LOG, PLOG. repeat only_step.
Qed.

(** ** Every run of the retry loop and of [create_crypto_blk_dev] *)

Lemma table_grows_refl w : table_grows w w.
Proof. by intros n. Qed.

Lemma table_grows_trans w1 w2 w3 : table_grows w1 w2 → table_grows w2 w3 → table_grows w1 w3.
Proof. intros H1 H2 n Hn. by apply H2, H1. Qed.

Lemma lookup_insert_is_Some_grows (tbl : gmap string dm_status) k s n :
  is_Some (tbl !! n) → is_Some (<[k := s]> tbl !! n).
Proof.
  intros Hn. destruct (decide (k = n)) as [->|Hne].
  - rewrite lookup_insert_eq. by eexists.
  - by rewrite lookup_insert_ne.
Qed.

Lemma ioctl_load_spec E io w :
  ∃ rc w', ioctl E DM_TABLE_LOAD io w = (Ret (rc, io), w')
           ∧ props w' = props w ∧ table_grows w w'
           ∧ trace w' = trace w ++ [EvIoctl DM_TABLE_LOAD io rc].
Proof.
  unfold ioctl, dm_driver.
  destruct (dm_table w !! dm_name_of io) eqn:Hreg; [destruct (dm_load_ok E (load_calls w))|];
    eexists _, _; (split; [reflexivity|]); cbn [props dm_table trace];
    repeat split; intros n Hn; cbn [dm_table]; [|done..].
  by apply lookup_insert_is_Some_grows.
Qed.

(** The loop returns within its fuel, whatever the driver answers. *)
Lemma table_load_loop_spec E fuel i io w :
  (0 < fuel)%nat → TABLE_LOAD_RETRIES <= i + Z.of_nat fuel →
  ∃ b w' t, table_load_loop E fuel i io w = (Ret b, w')
            ∧ props w' = props w ∧ table_grows w w'
            ∧ trace w' = trace w ++ t ∧ Forall (λ e, is_load_step e = true) t.
Proof.
  revert i w. induction fuel as [|fuel IH]; intros i w Hpos Hfuel; [lia|].
  cbn [table_load_loop].
  destruct (ioctl_load_spec E io w) as (rc & w1 & Hrun & Hprops & Hgrows & Htrace).
  erewrite bind_run by exact Hrun. cbn beta iota.
  destruct (decide (rc = 0)) as [Hrc|Hrc].
  - exists true, w1, [EvIoctl DM_TABLE_LOAD io rc]. repeat split; try done.
    by repeat constructor.
  - destruct (decide (i + 1 >= TABLE_LOAD_RETRIES)) as [Hlast|Hmore].
    + unfold PLOG. erewrite bind_run by apply emit_run.
      eexists false, _, [EvIoctl DM_TABLE_LOAD io rc; _].
      split; [reflexivity|]. cbn [add_trace props dm_table trace].
      repeat split; try done.
      * rewrite Htrace, <- app_assoc. reflexivity.
      * by repeat constructor.
    + unfold PLOG, usleep. erewrite bind_run by apply emit_run.
      erewrite bind_run by apply emit_run.
      destruct (IH (i + 1)
                  (add_trace [EvUsleep 500000]
                     (add_trace [EvLog INFO true "DM_TABLE_LOAD ioctl failed, retrying"] w1)))
        as (b & w2 & t & Hrun2 & Hprops2 & Hgrows2 & Htrace2 & Ht); [lia|lia|].
      exists b, w2, ([EvIoctl DM_TABLE_LOAD io rc;
                      EvLog INFO true "DM_TABLE_LOAD ioctl failed, retrying";
                      EvUsleep 500000] ++ t).
      split; [exact Hrun2|]. cbn [add_trace props dm_table trace] in *.
      repeat split.
      * congruence.
      * eapply table_grows_trans; [exact Hgrows|]. exact Hgrows2.
      * rewrite Htrace2, Htrace, <- !app_assoc. reflexivity.
      * apply Forall_app. split; [by repeat constructor|done].
Qed.

Lemma is_load_step_provision e : is_load_step e = true → is_provision_step e = true.
Proof. by destruct e as [| |[] | | | | | | | |]. Qed.

Lemma is_load_step_not_resumed e : is_load_step e = true → is_resumed e = false.
Proof. by destruct e as [| |[] | | | | | | | |]. Qed.

(** Every run of the load and resume steps: the mapping stays registered,
    and the function returns the device exactly when the resume command was
    accepted, with the mapping active. *)
Lemma finish_provisioning_spec E dm_name crypto_blkdev io w :
  is_Some (dm_table w !! dm_name_of (plain_cmd dm_name)) →
  ∃ r w' t, finish_provisioning E dm_name crypto_blkdev io w = (Ret r, w')
    ∧ props w' = props w ∧ table_grows w w'
    ∧ trace w' = trace w ++ t
    ∧ Forall (λ e, is_provision_step e = true) t
    ∧ ((r = Some crypto_blkdev
        ∧ dm_table w' !! dm_name_of (plain_cmd dm_name) = Some DmActive)
       ∨ (r = None ∧ Forall (λ e, is_resumed e = false) t)).
Proof.
  intros Hreg. unfold finish_provisioning.
  destruct (table_load_loop_spec E (Z.to_nat TABLE_LOAD_RETRIES) 0 io w)
    as (b & w1 & t1 & Hrun1 & Hprops1 & Hgrows1 & Htrace1 & Ht1);
    [unfold TABLE_LOAD_RETRIES; lia..|].
  erewrite bind_run by exact Hrun1.
  assert (Ht1p : Forall (λ e, is_provision_step e = true) t1).
  { eapply Forall_impl; [exact Ht1|]. apply is_load_step_provision. }
  assert (Ht1r : Forall (λ e, is_resumed e = false) t1).
  { eapply Forall_impl; [exact Ht1|]. apply is_load_step_not_resumed. }
  destruct b; cbn [negb].
  2:{ exists None, w1, t1. repeat split; try done. by right. }
  destruct (dm_ioctl_init_facts dm_name) as (io0 & Hinit & _).
  assert (Hplain : plain_cmd dm_name = io0) by (unfold plain_cmd; by rewrite Hinit).
  rewrite Hinit, Hplain in *. cbn [deref].
  destruct (Hgrows1 _ Hreg) as [s Hs].
  destruct (dm_resume_ok E) eqn:Hres;
    (erewrite bind_run by (rewrite ioctl_resume, Hres by (by eexists); reflexivity));
    cbn beta iota.
  - rewrite decide_False by (intros H; by apply H).
    eexists (Some crypto_blkdev), _, (t1 ++ [EvIoctl DM_DEV_SUSPEND io0 0]).
    split; [reflexivity|]. cbn [props dm_table trace].
    repeat split; try done.
    + intros n Hn. by apply lookup_insert_is_Some_grows, Hgrows1.
    + by rewrite Htrace1, <- app_assoc.
    + apply Forall_app. split; [done|]. by repeat constructor.
    + left. split; [done|]. apply lookup_insert_eq.
  - rewrite decide_True by done.
    unfold PLOG. erewrite bind_run by apply emit_run.
    eexists None, _, (t1 ++ [EvIoctl DM_DEV_SUSPEND io0 (-1); _]).
    split; [reflexivity|]. cbn [add_trace props dm_table trace].
    repeat split; try done.
    + by rewrite Htrace1, <- !app_assoc.
    + apply Forall_app. split; [done|]. by repeat constructor.
    + right. split; [done|]. apply Forall_app. split; [done|]. by repeat constructor.
Qed.

(** The ways [create_crypto_blk_dev] can go.  The exit "crypt_params too big
    for DM_CRYPT_BUF_SIZE" is not among them. *)
Lemma create_crypto_blk_dev_cases E dm_name nr_sec target_type (crypt_params : KeyBuffer) w :
  let run := create_crypto_blk_dev E dm_name nr_sec target_type crypt_params w in
  let io0 := plain_cmd dm_name in
  (open_ok E "/dev/device-mapper" = false
   ∧ run = (Ret None,
            add_trace [EvOpen "/dev/device-mapper" false;
                       EvLog ERROR true "Cannot open device-mapper"] w))
  ∨ (open_ok E "/dev/device-mapper" = true
     ∧ run = (Ret None,
              add_trace [EvOpen "/dev/device-mapper" true;
                         EvIoctl DM_DEV_CREATE io0 (-1);
                         EvLog ERROR true ("Cannot create dm-crypt device " +:+ dm_name)] w))
  ∨ (open_ok E "/dev/device-mapper" = true
     ∧ dm_table w !! dm_name_of io0 = None
     ∧ (run = (Ret None,
               World (props w) (<[dm_name_of io0 := DmCreated]> (dm_table w)) (load_calls w)
                 (trace w ++
                    [EvOpen "/dev/device-mapper" true;
                     EvIoctl DM_DEV_CREATE io0 0;
                     EvIoctl DM_DEV_STATUS io0 (-1);
                     EvLog ERROR true
                       ("Cannot retrieve dm-crypt device status " +:+ dm_name)]))
        ∨ run = (Undefined, created dm_name w)
        ∨ ∃ crypto_blkdev io,
            run = finish_provisioning E dm_name crypto_blkdev io (created dm_name w))).
Proof.
  intros run io0. subst run.
  destruct (dm_ioctl_init_facts dm_name) as (io & Hinit & Hlen & Hstart & _).
  assert (Hplain : io0 = io) by (unfold io0, plain_cmd; by rewrite Hinit).
  rewrite Hplain. clear Hplain io0.
  assert (Hcreated : created dm_name w
    = World (props w) (<[dm_name_of io := DmCreated]> (dm_table w)) (load_calls w)
        (trace w ++ [EvOpen "/dev/device-mapper" true; EvIoctl DM_DEV_CREATE io 0;
                     EvIoctl DM_DEV_STATUS io 0])).
  { unfold created, plain_cmd. by rewrite Hinit. }
  unfold create_crypto_blk_dev. rewrite Hinit.
  erewrite bind_run by apply open_run.
  destruct (open_ok E "/dev/device-mapper") eqn:Hopen; cbn [negb].
  2:{ left. split; [done|]. unfold PLOG. erewrite bind_run by apply emit_run.
      unfold mret, M_ret. by rewrite add_trace_add_trace. }
  right.
  destruct (dm_table w !! dm_name_of io) as [s|] eqn:Hreg.
  { left. split; [done|].
    erewrite bind_run.
    2:{ erewrite bind_run by (apply ioctl_create_exists; cbn [add_trace dm_table]; by eexists).
        reflexivity. }
    rewrite bool_decide_false by done. cbn [negb].
    unfold PLOG. erewrite bind_run by apply emit_run.
    unfold mret, M_ret. by rewrite !add_trace_add_trace. }
  destruct (dm_create_ok E) eqn:Hcreate.
  2:{ left. split; [done|].
      erewrite bind_run.
      2:{ erewrite bind_run.
          2:{ unfold ioctl, dm_driver. cbn [add_trace dm_table]. rewrite Hreg, Hcreate.
              reflexivity. }
          reflexivity. }
      rewrite bool_decide_false by done. cbn [negb].
      unfold PLOG. erewrite bind_run by apply emit_run.
      unfold mret, M_ret, add_trace. cbn [props dm_table load_calls trace].
      by rewrite <- !app_assoc. }
  right. split; [done|]. split; [done|].
  erewrite bind_run.
  2:{ erewrite bind_run by (by apply ioctl_create_fresh). reflexivity. }
  rewrite bool_decide_true by done. cbn [negb deref].
  destruct (dm_status_dev E) as [dev|] eqn:Hstatus.
  2:{ left.
      erewrite bind_run.
      2:{ unfold ioctl, dm_driver. cbn [add_trace dm_table]. rewrite lookup_insert_eq, Hstatus.
          reflexivity. }
      cbn beta iota. rewrite decide_True by done.
      unfold PLOG. erewrite bind_run by apply emit_run.
      unfold mret, M_ret, add_trace. cbn [props dm_table load_calls trace].
      by rewrite <- !app_assoc. }
  right.
  erewrite bind_run.
  2:{ apply ioctl_status_ok; [|done]. cbn [dm_table]. by rewrite lookup_insert_eq. }
  cbn beta iota. rewrite decide_False by (intros H; by apply H).
  rewrite decide_False by (match goal with |- ¬ (Z.land (size_t_of (?n + 1 + 7)) 8 > _) =>
                             pose proof (endix_le_8 n) end; unfold DM_CRYPT_BUF_SIZE; lia).
  match goal with |- context [table_load_buffer ?a ?b ?c ?d ?e ?f ?g ?h] =>
    destruct (table_load_buffer a b c d e f g h) as [ioL|] end.
  - right. eexists _, ioL. rewrite Hcreated. unfold finish_provisioning, add_trace.
    rewrite Hinit. cbn [props dm_table load_calls trace]. rewrite <- !app_assoc. reflexivity.
  - left. rewrite Hcreated. unfold undefined, add_trace.
    cbn [props dm_table load_calls trace]. rewrite <- !app_assoc. reflexivity.
Qed.

Lemma create_crypto_blk_dev_exists E dm_name nr_sec target_type (crypt_params : KeyBuffer) w :
  is_Some (dm_table w !! dm_name_of (plain_cmd dm_name)) →
  open_ok E "/dev/device-mapper" = true →
  create_crypto_blk_dev E dm_name nr_sec target_type crypt_params w
  = (Ret None,
     add_trace [EvOpen "/dev/device-mapper" true;
                EvIoctl DM_DEV_CREATE (plain_cmd dm_name) (-1);
                EvLog ERROR true ("Cannot create dm-crypt device " +:+ dm_name)] w).
Proof.
  intros [s Hreg] Hopen.
  pose proof (create_crypto_blk_dev_cases E dm_name nr_sec target_type crypt_params w)
    as Hcases.
  cbv zeta in Hcases.
  destruct Hcases as [[Hno _]|[[_ Hrun]|[_ [Hfresh _]]]]; [congruence|done|congruence].
Qed.

(** Every run of [create_crypto_blk_dev]. *)
Lemma create_crypto_blk_dev_spec E dm_name nr_sec target_type (crypt_params : KeyBuffer) w :
  ∃ r w' t,
    create_crypto_blk_dev E dm_name nr_sec target_type crypt_params w = (r, w')
    ∧ props w' = props w ∧ table_grows w w' ∧ trace w' = trace w ++ t
    ∧ Forall (λ e, is_provision_step e = true) t
    ∧ r ≠ OutOfFuel
    ∧ ((∃ io, In (EvIoctl DM_DEV_CREATE io 0) t) →
       is_Some (dm_table w' !! dm_name_of (plain_cmd dm_name)))
    ∧ match r with
      | Ret (Some _) => dm_table w' !! dm_name_of (plain_cmd dm_name) = Some DmActive
      | _ => Forall (λ e, is_resumed e = false) t
      end.
Proof.
  pose proof (create_crypto_blk_dev_cases E dm_name nr_sec target_type crypt_params w)
    as Hcases.
  cbv zeta in Hcases.
  destruct Hcases as [[_ Hrun]|[[_ Hrun]|(_ & Hfresh & [Hrun|[Hrun|(dev & io & Hrun)]])]].
  1-4: eexists _, _, _; (split; [exact Hrun|]);
    cbn [created add_trace props dm_table trace]; split_and!;
    first [ done
          | apply table_grows_refl
          | by repeat constructor
          | intros [? Hin]; cbn in Hin; exfalso; intuition congruence
          | intros n Hn; by apply lookup_insert_is_Some_grows
          | intros _; rewrite lookup_insert_eq; by eexists
          | by intros n Hn ].
  - assert (Hreg : is_Some (dm_table (created dm_name w) !! dm_name_of (plain_cmd dm_name))).
    { cbn [created dm_table]. rewrite lookup_insert_eq. by eexists. }
    destruct (finish_provisioning_spec E dm_name dev io (created dm_name w) Hreg)
      as (r & w' & t & Hfin & Hprops & Hgrows & Htrace & Ht & Hres).
    exists (Ret r), w',
      ([EvOpen "/dev/device-mapper" true;
        EvIoctl DM_DEV_CREATE (plain_cmd dm_name) 0;
        EvIoctl DM_DEV_STATUS (plain_cmd dm_name) 0] ++ t).
    split; [by rewrite Hrun|]. cbn [created props dm_table trace] in *.
    repeat split; try done.
    + intros n Hn. apply Hgrows. cbn [dm_table]. by apply lookup_insert_is_Some_grows.
    + by rewrite Htrace, <- app_assoc.
    + apply Forall_app. split; [by repeat constructor|done].
    + intros _. by apply Hgrows.
    + destruct Hres as [[-> Hactive]|[-> Hquiet]]; [done|].
      apply Forall_app. split; [by repeat constructor|done].
Qed.

Lemma userdata_name : dm_name_of (plain_cmd kDmNameUserdata) = "userdata".
Proof. vm_compute. reflexivity. Qed.

(** ** A provisioning that fails after the create *)

Lemma is_provision_step_not_remove e : is_provision_step e = true → is_remove e = false.
Proof. by destruct e as [| |[] | | | | | | | |]. Qed.

(** C10. When the create command of [create_crypto_blk_dev] succeeded and
    the function returns [false] (the status, the table load or the resume
    failed), no [DM_DEV_REMOVE] was issued and the mapping "userdata" is still
    registered in the driver; the create command of every later call for
    "userdata" is rejected, and that call returns [false] at once. *)
Theorem failed_provisioning_leaves_mapping
    (E : collaborators) (nr_sec : Z) (target_type : string) (crypt_params : KeyBuffer)
    (w : world) :
  let run := create_crypto_blk_dev E kDmNameUserdata nr_sec target_type crypt_params w in
  let t := new_events w run.2 in
  trace run.2 = trace w ++ t
  ∧ ((∃ io, In (EvIoctl DM_DEV_CREATE io 0) t) →
     run.1 = Ret None →
     is_Some (dm_table run.2 !! "userdata")
     ∧ Forall (λ e, is_remove e = false) t
     ∧ ∀ E' nr_sec' target_type' (crypt_params' : KeyBuffer),
         open_ok E' "/dev/device-mapper" = true →
         create_crypto_blk_dev E' kDmNameUserdata nr_sec' target_type' crypt_params' run.2
         = (Ret None,
            add_trace [EvOpen "/dev/device-mapper" true;
                       EvIoctl DM_DEV_CREATE (plain_cmd kDmNameUserdata) (-1);
                       EvLog ERROR true "Cannot create dm-crypt device userdata"] run.2)).
Proof.
  intros run t.
  destruct (create_crypto_blk_dev_spec E kDmNameUserdata nr_sec target_type crypt_params w)
    as (r & w' & t' & Hrun & _ & _ & Htrace & Ht & _ & Hcreated & _).
  subst run t. rewrite Hrun. cbn [fst snd].
  rewrite (new_events_app _ _ _ Htrace). split; [done|].
  intros Hin Hr. specialize (Hcreated Hin). rewrite userdata_name in Hcreated.
  split; [done|]. split.
  - eapply Forall_impl; [exact Ht|]. apply is_provision_step_not_remove.
  - intros E' nr_sec' target_type' crypt_params' Hopen.
    apply create_crypto_blk_dev_exists; [|done]. by rewrite userdata_name.
Qed.

Lemma failed_provisioning_leaves_mapping_witness :
  let w' := (Scenario_C4.run Scenario_C4.env_never).2 in
  dm_table w' !! "userdata" = Some DmCreated
  ∧ (create_crypto_blk_dev (Scenario.env (λ _, true) true 1000000) kDmNameUserdata 1000000
       DEFAULT_KEY_TARGET_TYPE Scenario_C4.crypt_params w').1 = Ret None.
Proof.
  pose proof (failed_provisioning_leaves_mapping Scenario_C4.env_never 1000000
                DEFAULT_KEY_TARGET_TYPE Scenario_C4.crypt_params Scenario.boot) as Hleft.
  cbv zeta in Hleft. destruct Hleft as [_ Hleft].
  destruct Hleft as (_ & _ & Hagain).
  - exists (plain_cmd kDmNameUserdata). vm_compute. right. left. reflexivity.
  - vm_compute. reflexivity.
  - split; [vm_compute; reflexivity|].
    unfold Scenario_C4.run.
    rewrite (Hagain (Scenario.env (λ _, true) true 1000000) 1000000
               DEFAULT_KEY_TARGET_TYPE Scenario_C4.crypt_params eq_refl).
    reflexivity.
Defined.

(** ** Every run of the shared steps *)

Lemma bind_assoc_run {A B C} (m : M A) (f : A → M B) (g : B → M C) w :
  ((m ≫= f) ≫= g) w = (m ≫= λ a, f a ≫= g) w.
Proof. unfold mbind, M_bind. by destruct (m w) as [[a| |] w']. Qed.

Lemma bind_ext {A B} (m : M A) (f g : A → M B) w :
  (∀ a w', f a w' = g a w') → (m ≫= f) w = (m ≫= g) w.
Proof. intros H. unfold mbind, M_bind. destruct (m w) as [[a| |] w']; [apply H|done..]. Qed.

Lemma e4crypt_mount_metadata_encrypted_provision E w :
  e4crypt_mount_metadata_encrypted E w
  = (LOG DEBUG "e4crypt_mount_default_encrypted";; provision E false ≫= mount_tail E) w.
Proof.
  unfold e4crypt_mount_metadata_encrypted, provision.
  apply bind_ext. intros _ w0.
  rewrite bind_assoc_run. apply bind_ext. intros [key|] w1; [|reflexivity].
  destruct (fs_mgr_get_crypt_entry E) as [data_rec|].
  2:{ rewrite bind_assoc_run. apply bind_ext. reflexivity. }
  rewrite bind_assoc_run. apply bind_ext. intros [nr_sec|] w2; [|reflexivity].
  rewrite bind_assoc_run. apply bind_ext. intros crypt_params w3.
  rewrite bind_assoc_run. apply bind_ext. intros [crypto_blkdev|] w4; reflexivity.
Qed.

Lemma e4crypt_enable_crypto_provision E w :
  e4crypt_enable_crypto E w
  = (LOG DEBUG "e4crypt_enable_crypto";;
     encrypted_state ← property_get "ro.crypto.state" "";
     if strcmp_ne encrypted_state "" then
       LOG DEBUG ("e4crypt_enable_crypto got unexpected starting state: "
                  +:+ c_str encrypted_state);;
       mret false
     else provision E true ≫= enable_tail E) w.
Proof.
  unfold e4crypt_enable_crypto, provision.
  apply bind_ext. intros _ w0.
  apply bind_ext. intros encrypted_state w0'.
  destruct (strcmp_ne encrypted_state ""); [reflexivity|].
  rewrite bind_assoc_run. apply bind_ext. intros [key|] w1; [|reflexivity].
  destruct (fs_mgr_get_crypt_entry E) as [data_rec|].
  2:{ rewrite bind_assoc_run. apply bind_ext. reflexivity. }
  rewrite bind_assoc_run. apply bind_ext. intros [nr_sec|] w2; [|reflexivity].
  rewrite bind_assoc_run. apply bind_ext. intros crypt_params w3.
  rewrite bind_assoc_run. apply bind_ext. intros [crypto_blkdev|] w4; reflexivity.
Qed.

Lemma prelude_quiet t :
  Forall (λ e, is_prelude e = true) t →
  Forall (λ e, is_quiet e = true) t ∧ Forall (λ e, is_resumed e = false) t.
Proof.
  intros Ht. split; (eapply Forall_impl; [exact Ht|]); intros e He; unfold is_quiet.
  - by rewrite He.
  - by destruct e.
Qed.

Lemma provision_step_quiet t :
  Forall (λ e, is_provision_step e = true) t → Forall (λ e, is_quiet e = true) t.
Proof.
  intros Ht. eapply Forall_impl; [exact Ht|]. intros e He. unfold is_quiet.
  rewrite He. apply orb_true_r.
Qed.

(** Every run of the shared steps: the properties are untouched, no mapping
    is removed, and the steps succeed exactly when the mapping "userdata" was
    resumed, in which case it is active. *)
Lemma provision_spec E create_if_absent w :
  ∃ r w' t,
    provision E create_if_absent w = (r, w')
    ∧ props w' = props w ∧ table_grows w w' ∧ trace w' = trace w ++ t
    ∧ Forall (λ e, is_quiet e = true) t
    ∧ r ≠ OutOfFuel
    ∧ match r with
      | Ret (Some (data_rec, _, _)) =>
          fs_mgr_get_crypt_entry E = Some data_rec
          ∧ dm_table w' !! "userdata" = Some DmActive
      | _ => Forall (λ e, is_resumed e = false) t
      end.
Proof.
  unfold provision.
  destruct (read_key_only E create_if_absent w) as (k & t1 & Hrun1 & Ht1).
  destruct (prelude_quiet t1 Ht1) as [Hq1 Hr1].
  erewrite bind_run by exact Hrun1.
  destruct k as [key|].
  2:{ exists (Ret None), (add_trace t1 w), t1. split_and!; try done. by intros n Hn. }
  destruct (fs_mgr_get_crypt_entry E) as [data_rec|] eqn:Hentry.
  2:{ unfold LOG. erewrite bind_run by apply emit_run. rewrite add_trace_add_trace.
      eexists (Ret None), _, _. split; [reflexivity|]. cbn [add_trace props dm_table trace].
      split_and!; try done; [by intros n Hn|..];
        (apply Forall_app; split; [done|by repeat constructor]). }
  destruct (get_number_of_sectors_only E (blk_device data_rec) (add_trace t1 w))
    as (n & t2 & Hrun2 & Ht2).
  destruct (prelude_quiet t2 Ht2) as [Hq2 Hr2].
  erewrite bind_run by exact Hrun2. rewrite add_trace_add_trace.
  destruct n as [nr_sec|].
  2:{ eexists (Ret None), _, _. split; [reflexivity|]. cbn [add_trace props dm_table trace].
      split_and!; try done; [by intros n Hn|..]; by apply Forall_app. }
  destruct (default_key_params_only E (blk_device data_rec) key (add_trace (t1 ++ t2) w))
    as (crypt_params & t3 & Hrun3 & Ht3).
  destruct (prelude_quiet t3 Ht3) as [Hq3 Hr3].
  erewrite bind_run by exact Hrun3. rewrite add_trace_add_trace.
  destruct (create_crypto_blk_dev_spec E kDmNameUserdata nr_sec DEFAULT_KEY_TARGET_TYPE
              crypt_params (add_trace ((t1 ++ t2) ++ t3) w))
    as (r & w4 & t4 & Hrun4 & Hprops4 & Hgrows4 & Htrace4 & Ht4 & Hfuel4 & _ & Hres4).
  cbn [add_trace props dm_table trace] in *.
  assert (Hq : Forall (λ e, is_quiet e = true) (((t1 ++ t2) ++ t3) ++ t4)).
  { repeat (apply Forall_app; split); try done. by apply provision_step_quiet. }
  assert (Htr : trace w4 = trace w ++ ((t1 ++ t2) ++ t3) ++ t4)
    by (by rewrite Htrace4, <- !app_assoc).
  unfold mbind at 1. unfold M_bind at 1. rewrite Hrun4.
  destruct r as [[crypto_blkdev|]| |].
  - rewrite userdata_name in Hres4.
    eexists _, _, _. split; [reflexivity|]. by split_and!.
  - eexists _, _, _. split; [reflexivity|]. split_and!; try done.
    by repeat (apply Forall_app; split).
  - eexists _, _, _. split; [reflexivity|]. split_and!; try done.
    by repeat (apply Forall_app; split).
  - done.
Qed.

(** ** Mounting the mapped device *)

Lemma Forall_In {A} (P : A → Prop) (l : list A) (x : A) : Forall P l → In x l → P x.
Proof. intros Hl Hx. apply list_elem_of_In in Hx. by eapply Forall_forall in Hl. Qed.

Lemma is_quiet_not_remove e : is_quiet e = true → is_remove e = false.
Proof. by destruct e as [| |[] | | | | | | | |]. Qed.

Lemma is_mount_not_remove e : is_mount e = true → is_remove e = false.
Proof. by destruct e. Qed.

Ltac find_in := vm_compute; repeat (first [left; reflexivity | right]).

(** ** The state flag of [e4crypt_enable_crypto] *)

Lemma is_quiet_silent e : is_quiet e = true → is_signal e = false ∧ is_inplace e = false.
Proof. by destruct e as [| |[] | | | | | | | |]. Qed.

Lemma is_mount_not_inplace e : is_mount e = true → is_inplace e = false.
Proof. by destruct e. Qed.

Lemma property_set_run key value w :
  property_set key value w
  = (Ret (), World (<[key := value]> (props w)) (dm_table w) (load_calls w)
                   (trace w ++ [EvPropertySet key value])).
Proof. reflexivity. Qed.

Lemma to_u64_off64_t_of z : to_u64 (off64_t_of z) = to_u64 z.
Proof.
  unfold to_u64, off64_t_of. rewrite Zminus_mod_idemp_l. f_equal. lia.
Qed.

Lemma off64_t_of_small z : 0 <= z < 2 ^ 63 → off64_t_of z = z.
Proof. intros Hz. unfold off64_t_of. rewrite Z.mod_small by lia. lia. Qed.

Lemma off64_t_of_large z : 2 ^ 63 <= z < 2 ^ 64 → off64_t_of z = z - 2 ^ 64.
Proof.
  intros Hz. unfold off64_t_of.
  replace (z + 2 ^ 63) with (z - 2 ^ 63 + 1 * 2 ^ 64) by lia.
  rewrite Z.mod_add by lia. rewrite Z.mod_small by lia. lia.
Qed.

Lemma get_number_of_sectors_some E real_blkdev w n :
  (get_number_of_sectors E real_blkdev w).1 = Ret (Some n) →
  n = to_u64 (get_blkdev_size E (c_str real_blkdev)) ∧ n ≠ 0.
Proof.
  unfold get_number_of_sectors, PLOG. erewrite bind_run by apply open_run.
  destruct (open_ok E (c_str real_blkdev)); cbn [negb].
  2:{ by erewrite bind_run by apply emit_run. }
  destruct (decide (to_u64 (get_blkdev_size E (c_str real_blkdev)) = 0)) as [Hz|Hz].
  - by erewrite bind_run by apply emit_run.
  - by intros [= <-].
Qed.

(** The number of sectors that the shared steps return is a [uint64_t]. *)
Lemma provision_nr_sec E create_if_absent w w' data_rec nr_sec crypto_blkdev :
  provision E create_if_absent w = (Ret (Some (data_rec, nr_sec, crypto_blkdev)), w') →
  to_u64 nr_sec = nr_sec.
Proof.
  unfold provision. intros Hret.
  destruct (read_key_only E create_if_absent w) as (k & t1 & Hrun1 & _).
  erewrite bind_run in Hret by exact Hrun1.
  destruct k as [key|]; [|done].
  destruct (fs_mgr_get_crypt_entry E) as [d|].
  2:{ unfold LOG in Hret. by erewrite bind_run in Hret by apply emit_run. }
  destruct (get_number_of_sectors_only E (blk_device d) (add_trace t1 w))
    as (sz & t2 & Hrun2 & _).
  pose proof (get_number_of_sectors_some E (blk_device d) (add_trace t1 w)) as Hsome.
  rewrite Hrun2 in Hsome. cbn [fst] in Hsome.
  erewrite bind_run in Hret by exact Hrun2.
  destruct sz as [n|]; [|done].
  destruct (Hsome n eq_refl) as [Hn _].
  destruct (default_key_params_only E (blk_device d) key (add_trace t2 (add_trace t1 w)))
    as (params & t3 & Hrun3 & _).
  erewrite bind_run in Hret by exact Hrun3.
  unfold mbind at 1 in Hret. unfold M_bind at 1 in Hret.
  match type of Hret with context [create_crypto_blk_dev ?a ?b ?c ?d ?e ?f] =>
    destruct (create_crypto_blk_dev a b c d e f) as [[[p|]| |] w4]
  end; try done.
  cbn [mret M_ret] in Hret. injection Hret as <- <- <- <-.
  rewrite Hn. apply to_u64_idem.
Qed.

Ltac split_in H :=
  repeat match type of H with
         | In _ (_ ++ _) => apply in_app_or in H; destruct H as [H|H]
         | In _ (_ :: _) => destruct H as [H|H]
         | In _ [] => destruct H
         end.

(** C3. [e4crypt_enable_crypto] either leaves every property as it was, or
    it has set [ro.crypto.state] to "encrypted" after [cryptfs_enable_inplace]
    returned 0 with [size_already_done] equal (as [uint64_t]) to the number
    of sectors it was asked to encrypt, which it receives in [size] as an
    [off64_t].  When [cryptfs_enable_inplace]
    reports another number, the function returns [false], the properties are
    unchanged, no property is written and the restart thread is not started;
    with a return code of 0 the last record of the log is "Inplace crypto
    only got up to sector". *)
Theorem enable_crypto_flag_needs_full_transform (E : collaborators) (w : world) :
  let run := e4crypt_enable_crypto E w in
  let t := new_events w run.2 in
  trace run.2 = trace w ++ t
  ∧ (props run.2 = props w
     ∨ (props run.2 = encrypted_props (props w)
        ∧ run.1 = Ret true
        ∧ ∃ crypto_blkdev real_blkdev size size_already_done,
            In (EvEnableInplace crypto_blkdev real_blkdev size 0 size_already_done) t
            ∧ to_u64 size_already_done = to_u64 size))
  ∧ (∀ crypto_blkdev real_blkdev size rc size_already_done,
       In (EvEnableInplace crypto_blkdev real_blkdev size rc size_already_done) t →
       to_u64 size_already_done ≠ to_u64 size →
       run.1 = Ret false
       ∧ props run.2 = props w
       ∧ Forall (λ e, is_signal e = false) t
       ∧ (rc = 0 →
          last t = Some (EvLog ERROR false
                           ("Inplace crypto only got up to sector: "
                            +:+ to_string size_already_done)))).
Proof.
  intros run t. subst run t.
  destruct (e4crypt_enable_crypto E w) as [res wf] eqn:Hrun. cbn [fst snd].
  rewrite e4crypt_enable_crypto_provision in Hrun.
  unfold LOG at 1 in Hrun. erewrite bind_run in Hrun by apply emit_run.
  erewrite bind_run in Hrun by reflexivity.
  unfold new_events.
  destruct (strcmp_ne _ "").
  { unfold LOG in Hrun. erewrite bind_run in Hrun by apply emit_run.
    rewrite add_trace_add_trace in Hrun. injection Hrun as <- <-.
    cbn [add_trace trace props]. rewrite drop_app_length.
    split; [done|]. split; [by left|].
    intros c b n rc sz Hin. cbn [app In] in Hin. by destruct Hin as [?|[?|[]]]. }
  destruct (provision_spec E true (add_trace [EvLog DEBUG false "e4crypt_enable_crypto"] w))
    as (r & w1 & t1 & Hrun1 & Hprops1 & Hgrows1 & Htrace1 & Hq1 & Hfuel1 & Hres1).
  cbn [add_trace trace props] in Htrace1, Hprops1.
  assert (Hs1 : Forall (λ e, is_signal e = false) t1).
  { eapply Forall_impl; [exact Hq1|]. intros e He. by apply is_quiet_silent. }
  assert (Hi1 : ∀ c b n rc sz, ¬ In (EvEnableInplace c b n rc sz) t1).
  { intros c b n rc sz Hin. apply (Forall_In _ _ _ Hq1) in Hin.
    by apply is_quiet_silent in Hin as [_ ?]. }
  unfold mbind at 1 in Hrun. unfold M_bind at 1 in Hrun.
  rewrite Hrun1 in Hrun.
  destruct r as [[[[data_rec nr_sec] crypto_blkdev]|]| |]; [| | |done].
  2,3: cbn [enable_tail mret M_ret] in Hrun; injection Hrun as <- <-;
    rewrite Htrace1, <- app_assoc, drop_app_length;
    (split; [done|]); (split; [by left|]);
    intros c b n rc sz Hin; rewrite in_app_iff in Hin; cbn [In] in Hin;
    destruct Hin as [[?|[]]|Hin]; [discriminate|by apply Hi1 in Hin].
  assert (Hrange : to_u64 (off64_t_of nr_sec) = nr_sec).
  { rewrite to_u64_off64_t_of. eapply provision_nr_sec. exact Hrun1. }
  cbn [enable_tail] in Hrun. unfold LOG at 1 in Hrun.
  erewrite bind_run in Hrun by apply emit_run.
  unfold run_cryptfs_enable_inplace in Hrun.
  destruct (cryptfs_enable_inplace E (c_str crypto_blkdev) (blk_device data_rec)
              (off64_t_of nr_sec) (off64_t_of nr_sec) 0) as [rc size_already_done].
  erewrite bind_run in Hrun by (erewrite bind_run by apply emit_run; reflexivity).
  rewrite add_trace_add_trace in Hrun. cbn beta iota in Hrun.
  destruct (decide (rc ≠ 0)) as [Hrc|Hrc].
  { unfold LOG in Hrun. erewrite bind_run in Hrun by apply emit_run.
    rewrite add_trace_add_trace in Hrun. injection Hrun as <- <-.
    cbn [add_trace trace props]. rewrite Htrace1, <- !app_assoc, drop_app_length.
    split; [done|]. split; [by left|].
    intros c b n rc' sz Hin Hpartial.
    split_in Hin; try discriminate; [by apply Hi1 in Hin|].
    injection Hin as <- <- <- <- <-.
    split_and!; try done.
    repeat (apply Forall_app; split); try done; by repeat constructor. }
  assert (rc = 0) as -> by (destruct (decide (rc = 0)); [done|by exfalso; apply Hrc]).
  destruct (decide (to_u64 size_already_done ≠ nr_sec)) as [Hpart|Hfull].
  { unfold LOG in Hrun. erewrite bind_run in Hrun by apply emit_run.
    rewrite add_trace_add_trace in Hrun. injection Hrun as <- <-.
    cbn [add_trace trace props]. rewrite Htrace1, <- !app_assoc, drop_app_length.
    split; [done|]. split; [by left|].
    intros c b n rc' sz Hin Hpartial.
    split_in Hin; try discriminate; [by apply Hi1 in Hin|].
    injection Hin as <- <- <- <- <-.
    split_and!; try done.
    - repeat (apply Forall_app; split); try done; by repeat constructor.
    - intros _. rewrite !last_app. reflexivity. }
  assert (Hdone : to_u64 size_already_done = nr_sec).
  { destruct (decide (to_u64 size_already_done = nr_sec)); [done|by exfalso; apply Hfull]. }
  unfold LOG, detach_async_kick_off in Hrun.
  erewrite bind_run in Hrun by apply emit_run.
  erewrite bind_run in Hrun by apply property_set_run.
  erewrite bind_run in Hrun by apply property_set_run.
  match type of Hrun with context [mount_via_fs_mgr E ?mp ?dev ≫= _] =>
    match type of Hrun with (_ ≫= _) ?wm = _ =>
      destruct (mount_via_fs_mgr_only E mp dev wm) as (b & tm & Hrunm & Htm)
    end
  end.
  erewrite bind_run in Hrun by exact Hrunm.
  erewrite bind_run in Hrun by apply property_set_run.
  erewrite bind_run in Hrun by apply emit_run.
  injection Hrun as <- <-.
  cbn [add_trace trace props]. rewrite Hprops1, Htrace1, <- !app_assoc, drop_app_length.
  split; [done|]. split.
  - right. split; [done|]. split; [done|].
    exists (c_str crypto_blkdev), (blk_device data_rec), (off64_t_of nr_sec),
      size_already_done.
    split; [|by rewrite Hrange]. rewrite !in_app_iff. cbn [In]. tauto.
  - intros c b' n rc' sz Hin Hpartial. exfalso.
    split_in Hin; try discriminate.
    + by apply Hi1 in Hin.
    + injection Hin as <- <- <- <- <-. apply Hpartial. by rewrite Hrange.
    + apply (Forall_In _ _ _ Htm) in Hin. by apply is_mount_not_inplace in Hin.
Qed.

Lemma enable_crypto_flag_needs_full_transform_witness :
  let run := e4crypt_enable_crypto (Scenario.env (λ _, true) true 500000) Scenario.boot in
  run.1 = Ret false ∧ props run.2 = ∅
  ∧ last (trace run.2)
    = Some (EvLog ERROR false "Inplace crypto only got up to sector: 500000").
Proof.
  pose proof (enable_crypto_flag_needs_full_transform
                (Scenario.env (λ _, true) true 500000) Scenario.boot) as Hflag.
  cbv zeta in Hflag. destruct Hflag as (Htrace & _ & Hpartial).
  destruct (Hpartial "/dev/block/dm-3" "/dev/block/sda9" 1000000 0 500000)
    as (Hres & Hprops & _ & Hlast).
  - find_in.
  - vm_compute. discriminate.
  - split; [exact Hres|]. split; [exact Hprops|].
    rewrite Htrace. change (trace Scenario.boot) with (@nil event).
    exact (Hlast eq_refl).
Defined.

(** ** What reaches the log and the property service *)

Lemma emits_ret {A} P (a : A) : emits P (mret a).
Proof. intros w. exists []. by rewrite app_nil_r. Qed.

Lemma emits_bind {A B} P (m : M A) (f : A → M B) :
  emits P m → (∀ a, emits P (f a)) → emits P (m ≫= f).
Proof.
  intros Hm Hf w. destruct (Hm w) as (t1 & Htr1 & Ht1).
  unfold mbind, M_bind. destruct (m w) as [[a| |] w1]; cbn [snd] in *; [|by exists t1..].
  destruct (Hf a w1) as (t2 & Htr2 & Ht2). exists (t1 ++ t2). split.
  - by rewrite Htr2, Htr1, app_assoc.
  - by apply Forall_app.
Qed.

Lemma emits_emit P e : P e = true → emits P (emit e).
Proof. intros He w. exists [e]. split; [done|by constructor]. Qed.

Lemma emits_property_set P key value :
  P (EvPropertySet key value) = true → emits P (property_set key value).
Proof. intros He w. exists [EvPropertySet key value]. split; [done|by constructor]. Qed.

Lemma emits_property_get P key default_value : emits P (property_get key default_value).
Proof. intros w. exists []. by rewrite app_nil_r. Qed.

Lemma emits_only {A} (P Q : event → bool) (m : M A) :
  (∀ e, Q e = true → P e = true) → only Q m → emits P m.
Proof.
  intros HQP Hm w. destruct (Hm w) as (a & t & Hrun & Ht). exists t.
  rewrite Hrun. split; [done|]. eapply Forall_impl; [exact Ht|]. exact HQP.
Qed.

Lemma emits_provision P create_if_absent E :
  (∀ e, is_quiet e = true → P e = true) → emits P (provision E create_if_absent).
Proof.
  intros HQP w.
  destruct (provision_spec E create_if_absent w) as (r & w' & t & Hrun & _ & _ & Htr & Ht & _).
  exists t. rewrite Hrun. split; [done|]. eapply Forall_impl; [exact Ht|]. exact HQP.
Qed.

Ltac emits_step :=
  first
    [ apply emits_ret
    | apply emits_emit; reflexivity
    | apply emits_property_set; reflexivity
    | apply emits_property_get
    | apply emits_provision; intros [| |[] | | | | | | | |]; done
    | eapply emits_only; [|apply mount_via_fs_mgr_only]; intros []; done
    | apply emits_bind; [|intros ?]
    | match goal with
      | |- emits _ (if ?c then _ else _) => destruct c
      | |- emits _ (match ?c with _ => _ end) => destruct c
      | |- emits _ (let '(_, _) := ?c in _) => destruct c
      end ].

Lemma e4crypt_mount_metadata_encrypted_emits E :
  emits writes_fixed_property
    (LOG DEBUG "e4crypt_mount_default_encrypted";; provision E false ≫= mount_tail E).
Proof. unfold mount_tail, LOG, detach_async_kick_off. repeat emits_step. Qed.

Lemma e4crypt_enable_crypto_emits E :
  emits writes_fixed_property
    (LOG DEBUG "e4crypt_enable_crypto";;
     encrypted_state ← property_get "ro.crypto.state" "";
     if strcmp_ne encrypted_state "" then
       LOG DEBUG ("e4crypt_enable_crypto got unexpected starting state: "
                  +:+ c_str encrypted_state);;
       mret false
     else provision E true ≫= enable_tail E).
Proof.
  unfold enable_tail, run_cryptfs_enable_inplace, LOG, detach_async_kick_off.
  repeat emits_step.
Qed.

(** C5 (the code departs from it). For the key [01 ab] and the device
    /dev/block/sda9, [default_key_params] returns the parameters "AES-256-XTS
    01ab /dev/block/sda9 0" and passes the same string, with the key in hex,
    to the logger: the record "crypt_params: AES-256-XTS 01ab /dev/block/sda9
    0" is in the log of [default_key_params] and in the log of a run of
    [e4crypt_mount_metadata_encrypted] with that key. *)
Theorem crypt_params_logged_verbatim :
  let E := Scenario.env (λ _, true) true 1000000 in
  let run := default_key_params E "/dev/block/sda9" [x01; xab] Scenario.boot in
  retrieveKey E false "/metadata/vold/key" "/metadata/vold/tmp" = Some [x01; xab]
  ∧ StrToHex E [x01; xab] = (0, list_byte_of_string "01ab")
  ∧ run.1 = Ret (list_byte_of_string "AES-256-XTS 01ab /dev/block/sda9 0")
  ∧ In (EvLog DEBUG false "crypt_params: AES-256-XTS 01ab /dev/block/sda9 0") (trace run.2)
  ∧ verbatim_in "AES-256-XTS 01ab /dev/block/sda9 0"
      "crypt_params: AES-256-XTS 01ab /dev/block/sda9 0"
  ∧ In (EvLog DEBUG false "crypt_params: AES-256-XTS 01ab /dev/block/sda9 0")
       (trace (e4crypt_mount_metadata_encrypted E Scenario.boot).2).
Proof.
  cbv zeta. split; [reflexivity|]. split; [reflexivity|].
  split; [reflexivity|]. split; [left; reflexivity|].
  split; [exists "crypt_params: ", ""; reflexivity|]. find_in.
Qed.

(** When the hex conversion succeeds, [default_key_params] writes the
    parameter string as it is to the log, in one DEBUG record
    "crypt_params: " followed by the string, and does nothing else.  No entry
    point writes the parameter string to a property: the values they write
    are "encrypted", "file" and "trigger_reset_main". *)
Lemma crypt_params_logged_at_debug_never_stored
    (E : collaborators) (w : world) (real_blkdev : string) (key : KeyBuffer) :
  ((StrToHex E key).1 = 0 →
   ∃ params,
     default_key_params E real_blkdev key w
     = (Ret params,
        add_trace [EvLog DEBUG false ("crypt_params: " +:+ string_of_list_byte params)] w)
     ∧ holds_crypt_params params)
  ∧ (∀ k v,
       In (EvPropertySet k v) (new_events w (e4crypt_mount_metadata_encrypted E w).2)
       ∨ In (EvPropertySet k v) (new_events w (e4crypt_enable_crypto E w).2) →
       In v ["encrypted"; "file"; "trigger_reset_main"]
       ∧ ¬ holds_crypt_params (list_byte_of_string v)).
Proof.
  split.
  - intros Hok. unfold default_key_params.
    destruct (StrToHex E key) as [status hex_key]. cbn [fst] in Hok. subst status.
    rewrite decide_False by (intros H; by apply H).
    unfold LOG. erewrite bind_run by apply emit_run.
    eexists. split; [reflexivity|].
    rewrite app_nil_l, <- !app_assoc. by eexists.
  - assert (Hfixed : ∀ k v t, Forall (λ e, writes_fixed_property e = true) t →
              In (EvPropertySet k v) t →
              In v ["encrypted"; "file"; "trigger_reset_main"]
              ∧ ¬ holds_crypt_params (list_byte_of_string v)).
    { intros k v t Ht Hin. apply (Forall_In _ _ _ Ht) in Hin.
      cbn [writes_fixed_property] in Hin. apply bool_decide_eq_true in Hin.
      apply list_elem_of_In in Hin. cbn [In] in Hin.
      destruct Hin as [Heq|[Heq|[Heq|[]]]]; injection Heq as <- <-;
        (split; [cbn [In]; tauto|]); intros [rest Hrest]; vm_compute in Hrest;
        discriminate. }
    intros k v [Hin|Hin].
    + destruct (e4crypt_mount_metadata_encrypted_emits E w) as (t & Htr & Ht).
      rewrite <- e4crypt_mount_metadata_encrypted_provision in Htr.
      rewrite (new_events_app _ _ _ Htr) in Hin. by eapply Hfixed.
    + destruct (e4crypt_enable_crypto_emits E w) as (t & Htr & Ht).
      rewrite <- e4crypt_enable_crypto_provision in Htr.
      rewrite (new_events_app _ _ _ Htr) in Hin. by eapply Hfixed.
Qed.

Lemma crypt_params_logged_at_debug_never_stored_witness :
  (default_key_params (Scenario.env (λ _, true) true 1000000) "/dev/block/sda9"
     [x01; xab] Scenario.boot).2
  = World ∅ ∅ 0 [EvLog DEBUG false "crypt_params: AES-256-XTS 01ab /dev/block/sda9 0"]
  ∧ ¬ holds_crypt_params (list_byte_of_string "encrypted").
Proof.
  pose proof (crypt_params_logged_at_debug_never_stored
                (Scenario.env (λ _, true) true 1000000) Scenario.boot "/dev/block/sda9"
                [x01; xab]) as [Hlog Hstore].
  split.
  - destruct (Hlog eq_refl) as (params & Hrun & _). rewrite Hrun.
    apply (f_equal fst) in Hrun. cbn [fst] in Hrun. injection Hrun as <-. reflexivity.
  - apply (Hstore "ro.crypto.state" "encrypted"). right. find_in.
Defined.

(** ** A key that cannot be turned into hex *)




(** ** The restart thread: lemmas *)

Lemma thread_bind_run {A B} (m : T A) (f : A → T B) s a s' :
  m s = (Ret a, s') → (m ≫= f) s = f a s'.
Proof. intros H. unfold mbind, T_bind. by rewrite H. Qed.

Lemma thread_emit_run e s :
  thread_emit e s = (Ret (), ThreadState (reads s) (thread_trace s ++ [e])).
Proof. reflexivity. Qed.

Lemma time_slept_app t1 t2 : time_slept (t1 ++ t2) = time_slept t1 + time_slept t2.
Proof.
  unfold time_slept. induction t1 as [|e t1 IH]; cbn [foldr app]; [done|]. rewrite IH. lia.
Qed.

Lemma thread_count_app (p : thread_event → bool) t1 t2 :
  length (List.filter p (t1 ++ t2))
  = (length (List.filter p t1) + length (List.filter p t2))%nat.
Proof. by rewrite List.filter_app, length_app. Qed.

Lemma decrypt_signals_app t1 t2 :
  decrypt_signals (t1 ++ t2) = decrypt_signals t1 ++ decrypt_signals t2.
Proof. unfold decrypt_signals. apply omap_app. Qed.

(** Every run of the polling loop that starts with [i + fuel = 1000]: it
    returns after [n] reads, [1 <= n <= fuel], with a pause of 50 ms after
    each read but the last; the reads before the last did not see the flag;
    the result says whether the last one did. *)
Lemma prep_data_fs_loop_spec service fuel i s :
  0 <= i → (0 < fuel)%nat → i + Z.of_nat fuel = DATA_PREP_TIMEOUT →
  ∃ b t n,
    prep_data_fs_loop service fuel i s
    = (Ret b, ThreadState (reads s + n) (thread_trace s ++ t))
    ∧ (1 <= n <= fuel)%nat
    ∧ length (List.filter is_read t) = n
    ∧ length (List.filter is_pause t) = (n - 1)%nat
    ∧ time_slept t = 50000 * (Z.of_nat n - 1)
    ∧ decrypt_signals t = []
    ∧ (∀ j, (j < n - 1)%nat → data_prep_done service (reads s + j) = false)
    ∧ data_prep_done service (reads s + (n - 1)) = b
    ∧ (b = false → n = fuel)
    ∧ last t = Some (if b then TvLog INFO "Successful data prep"
                     else TvLog ERROR "post_fs_data timed out").
Proof.
  revert i s. induction fuel as [|fuel IH]; intros i s Hi Hpos Hsum; [lia|].
  cbn [prep_data_fs_loop].
  erewrite thread_bind_run by reflexivity.
  set (p := if String.eqb (service (reads s) "vold.post_fs_data_done") "" then "0"
            else service (reads s) "vold.post_fs_data_done").
  assert (Hdone : data_prep_done service (reads s) = first_char_is "1" p) by reflexivity.
  destruct (first_char_is "1" p) eqn:Hp.
  - erewrite thread_bind_run by apply thread_emit_run.
    exists true, [TvPropertyGet "vold.post_fs_data_done" p; TvLog INFO "Successful data prep"],
      1%nat.
    cbn [reads thread_trace]. rewrite <- app_assoc.
    replace (S (reads s)) with (reads s + 1)%nat by lia.
    split_and!; try done; try lia; try (intros j Hj; lia);
      try (by rewrite Nat.add_0_r, Hdone).
  - destruct (decide (i + 1 = DATA_PREP_TIMEOUT)) as [Hlast|Hmore].
    + erewrite thread_bind_run by apply thread_emit_run.
      exists false,
        [TvPropertyGet "vold.post_fs_data_done" p; TvLog ERROR "post_fs_data timed out"],
        1%nat.
      cbn [reads thread_trace]. rewrite <- app_assoc.
      replace (S (reads s)) with (reads s + 1)%nat by lia.
      split_and!; try done; try lia; try (intros j Hj; lia);
        try (by rewrite Nat.add_0_r, Hdone).
    + erewrite thread_bind_run by apply thread_emit_run.
      destruct (IH (i + 1)
                  (ThreadState (S (reads s))
                     ((thread_trace s ++ [TvPropertyGet "vold.post_fs_data_done" p])
                      ++ [TvUsleep 50000])))
        as (b & t & n & Hrun & Hn & Hreads & Hpauses & Hslept & Hsig & Hbefore & Hb & Hfull
            & Hlast); [lia..|].
      cbn [reads thread_trace] in *.
      exists b, ([TvPropertyGet "vold.post_fs_data_done" p; TvUsleep 50000] ++ t), (S n).
      split.
      { rewrite Hrun. do 2 f_equal; [lia|]. by rewrite <- !app_assoc. }
      split_and!.
      * lia.
      * lia.
      * rewrite thread_count_app, Hreads. reflexivity.
      * rewrite thread_count_app, Hpauses. cbn. lia.
      * rewrite time_slept_app, Hslept. cbn. lia.
      * by rewrite decrypt_signals_app, Hsig.
      * intros j Hj. destruct j as [|j].
        -- by rewrite Nat.add_0_r, Hdone.
        -- replace (reads s + S j)%nat with (S (reads s) + j)%nat by lia.
           apply Hbefore. lia.
      * replace (reads s + (S n - 1))%nat with (S (reads s) + (n - 1))%nat by lia. exact Hb.
      * intros Hf. rewrite (Hfull Hf). reflexivity.
      * rewrite last_app, Hlast. reflexivity.
Qed.

Lemma last_cons_Some {A} (x y : A) (l : list A) : last l = Some y → last (x :: l) = Some y.
Proof. by destruct l. Qed.

(** Every run of [prep_data_fs], from the loop. *)
Lemma prep_data_fs_spec service s :
  ∃ b t n,
    prep_data_fs service s
    = (Ret b,
       ThreadState (reads s + n)
         (thread_trace s ++
          [TvPropertySet "vold.post_fs_data_done" "0";
           TvPropertySet "vold.decrypt" "trigger_post_fs_data";
           TvLog DEBUG "Waiting for post_fs_data_done"] ++ t))
    ∧ (1 <= n <= 1000)%nat
    ∧ length (List.filter is_read t) = n
    ∧ length (List.filter is_pause t) = (n - 1)%nat
    ∧ time_slept t = 50000 * (Z.of_nat n - 1)
    ∧ decrypt_signals t = []
    ∧ (∀ j, (j < n - 1)%nat → data_prep_done service (reads s + j) = false)
    ∧ data_prep_done service (reads s + (n - 1)) = b
    ∧ (b = false → n = 1000%nat)
    ∧ last t = Some (if b then TvLog INFO "Successful data prep"
                     else TvLog ERROR "post_fs_data timed out").
Proof.
  unfold prep_data_fs.
  do 3 (erewrite thread_bind_run by apply thread_emit_run).
  match goal with |- context [prep_data_fs_loop _ _ _ ?s0] =>
    destruct (prep_data_fs_loop_spec service (Z.to_nat DATA_PREP_TIMEOUT) 0 s0)
      as (b & t & n & Hrun & Hn & Hrest)
  end; [done|unfold DATA_PREP_TIMEOUT; lia|done|].
  exists b, t, n. cbn [reads thread_trace] in *. rewrite Hrun.
  split; [by rewrite <- !app_assoc|]. split; [exact Hn|exact Hrest].
Qed.

(** X1. [prep_data_fs] returns [true] exactly when one of its first 1000
    reads of [vold.post_fs_data_done] sees a value that starts with '1'; it
    stops reading at the first such read, and it has written "0" to
    [vold.post_fs_data_done] and "trigger_post_fs_data" to [vold.decrypt]
    before the first read. *)
Theorem prep_data_fs_waits_for_flag (service : nat → string → string) (s : thread_state) :
  let run := prep_data_fs service s in
  ∃ b t n,
    run = (Ret b, ThreadState (reads s + n) (thread_trace s ++ t))
    ∧ take 3 t = [TvPropertySet "vold.post_fs_data_done" "0";
                  TvPropertySet "vold.decrypt" "trigger_post_fs_data";
                  TvLog DEBUG "Waiting for post_fs_data_done"]
    ∧ length (List.filter is_read (take 3 t)) = 0%nat
    ∧ length (List.filter is_read t) = n
    ∧ (b = true ↔ ∃ k, (k < 1000)%nat ∧ data_prep_done service (reads s + k) = true)
    ∧ (∀ j, (j < n - 1)%nat → data_prep_done service (reads s + j) = false)
    ∧ (b = true → data_prep_done service (reads s + (n - 1)) = true).
Proof.
  intros run. subst run.
  destruct (prep_data_fs_spec service s)
    as (b & t & n & Hrun & Hn & Hreads & _ & _ & _ & Hbefore & Hb & Hfull & _).
  eexists b, _, n. split; [exact Hrun|]. split; [done|]. split; [done|].
  split; [by rewrite thread_count_app, Hreads|]. split; [|split; [done|by intros ->]].
  split.
  - intros ->. exists (n - 1)%nat. split; [lia|done].
  - intros (k & Hk & Hdone). destruct b; [done|].
    rewrite (Hfull eq_refl) in Hbefore, Hb.
    change (1000 - 1)%nat with 999%nat in *.
    destruct (decide (k = 999%nat)) as [->|Hne]; [congruence|].
    rewrite Hbefore in Hdone by lia. done.
Qed.

Lemma prep_data_fs_waits_for_flag_witness :
  ∃ t n, prep_data_fs (flag_from 3) thread_start = (Ret true, ThreadState n t).
Proof.
  destruct (prep_data_fs_waits_for_flag (flag_from 3) thread_start)
    as (b & t & n & Hrun & _ & _ & _ & Hiff & _).
  exists ([] ++ t), (0 + n)%nat. rewrite Hrun. f_equal. f_equal.
  apply Hiff. exists 3%nat. split; [lia|reflexivity].
Defined.

(** X2. [prep_data_fs] reads the flag at most 1000 times and sleeps 50 ms
    after every read but the last, which is less than 50 seconds in all; when
    it returns [false] it has read 1000 times, slept 49.95 seconds and logged
    "post_fs_data timed out". *)
Theorem prep_data_fs_waits_at_most_50s (service : nat → string → string) (s : thread_state) :
  let run := prep_data_fs service s in
  let t := drop (length (thread_trace s)) (thread_trace run.2) in
  thread_trace run.2 = thread_trace s ++ t
  ∧ (length (List.filter is_read t) <= 1000)%nat
  ∧ length (List.filter is_pause t) = (length (List.filter is_read t) - 1)%nat
  ∧ time_slept t = 50000 * Z.of_nat (length (List.filter is_pause t))
  ∧ time_slept t < 50 * 1000000
  ∧ (run.1 = Ret false →
     length (List.filter is_read t) = 1000%nat
     ∧ time_slept t = 49950000
     ∧ last t = Some (TvLog ERROR "post_fs_data timed out")).
Proof.
  intros run t. subst run t.
  destruct (prep_data_fs_spec service s)
    as (b & t & n & Hrun & Hn & Hreads & Hpauses & Hslept & _ & _ & _ & Hfull & Hlast).
  rewrite Hrun. cbn [fst snd thread_trace]. rewrite drop_app_length.
  rewrite !thread_count_app, !time_slept_app, Hreads, Hpauses, Hslept.
  change (length (List.filter is_read _)) with 0%nat.
  change (length (List.filter is_pause _)) with 0%nat.
  change (time_slept _ + ?x) with (0 + x).
  split_and!; try done; try lia.
  intros Hb. injection Hb as ->. specialize (Hfull eq_refl).
  split_and!; try lia; try (rewrite Hfull; lia).
  cbn [app]. do 3 apply last_cons_Some. exact Hlast.
Qed.

Lemma prep_data_fs_waits_at_most_50s_witness :
  let run := prep_data_fs (λ _ _, "") thread_start in
  run.1 = Ret false ∧ time_slept (thread_trace run.2) = 49950000.
Proof.
  assert (Hret : (prep_data_fs (λ _ _, "") thread_start).1 = Ret false)
    by (vm_compute; reflexivity).
  split; [exact Hret|].
  destruct (prep_data_fs_waits_at_most_50s (λ _ _, "") thread_start)
    as (_ & _ & _ & _ & _ & Hfalse).
  exact (proj1 (proj2 (Hfalse Hret))).
Defined.

(** X3. [async_kick_off] first sleeps 2 seconds, then writes
    "trigger_load_persist_props" and, from [prep_data_fs],
    "trigger_post_fs_data" to [vold.decrypt]; it writes
    "trigger_restart_framework" after them exactly when one of the 1000 reads
    of [prep_data_fs] sees the flag, and writes nothing else to
    [vold.decrypt]. *)
Theorem async_kick_off_restarts_after_data_prep
    (service : nat → string → string) (s : thread_state) :
  let run := async_kick_off service s in
  let t := drop (length (thread_trace s)) (thread_trace run.2) in
  run.1 = Ret ()
  ∧ thread_trace run.2 = thread_trace s ++ t
  ∧ take 2 t = [TvLog DEBUG "Asynchronously restarting framework"; TvSleep 2]
  ∧ time_slept t < 52 * 1000000
  ∧ ((∃ k, (k < 1000)%nat ∧ data_prep_done service (reads s + k) = true) →
     decrypt_signals t
     = ["trigger_load_persist_props"; "trigger_post_fs_data"; "trigger_restart_framework"]
     ∧ last t = Some (TvPropertySet "vold.decrypt" "trigger_restart_framework"))
  ∧ ((∀ k, (k < 1000)%nat → data_prep_done service (reads s + k) = false) →
     decrypt_signals t = ["trigger_load_persist_props"; "trigger_post_fs_data"]
     ∧ last t = Some (TvLog ERROR "post_fs_data timed out")).
Proof.
  intros run t. subst run t. unfold async_kick_off.
  do 3 (erewrite thread_bind_run by apply thread_emit_run).
  match goal with |- context [(prep_data_fs service ≫= _) ?s0] =>
    destruct (prep_data_fs_spec service s0)
      as (b & t & n & Hrun & Hn & Hreads & Hpauses & Hslept & Hsig & Hbefore & Hb & Hfull
          & Hlast)
  end.
  cbn [reads thread_trace] in *.
  erewrite thread_bind_run by exact Hrun.
  destruct b; cbn [negb].
  - rewrite thread_emit_run. cbn [fst snd thread_trace reads].
    rewrite <- !app_assoc, drop_app_length.
    split; [done|]. split; [done|]. split; [done|].
    split.
    { cbn [app]. unfold time_slept at 1. cbn [foldr slept].
      fold (time_slept (t ++ [TvPropertySet "vold.decrypt" "trigger_restart_framework"])).
      rewrite time_slept_app, Hslept. cbn. lia. }
    split.
    + intros _. split.
      * cbn [app]. unfold decrypt_signals at 1. cbn [omap list_omap String.eqb Ascii.eqb].
        cbn. fold (decrypt_signals (t ++ [TvPropertySet "vold.decrypt" "trigger_restart_framework"])).
        rewrite decrypt_signals_app, Hsig. reflexivity.
      * rewrite !app_assoc. apply last_snoc.
    + intros Hnone. rewrite Hnone in Hb by lia. done.
  - cbn [mret T_ret fst snd thread_trace].
    rewrite <- !app_assoc, drop_app_length.
    split; [done|]. split; [done|]. split; [done|].
    split.
    { cbn [app]. unfold time_slept at 1. cbn [foldr slept].
      fold (time_slept t). rewrite Hslept. lia. }
    split.
    + intros (k & Hk & Hdone). rewrite (Hfull eq_refl) in Hb, Hbefore.
      change (1000 - 1)%nat with 999%nat in *.
      destruct (decide (k = 999%nat)) as [->|Hne]; [congruence|].
      rewrite Hbefore in Hdone by lia. done.
    + intros _. split.
      * cbn [app]. unfold decrypt_signals at 1. cbn. fold (decrypt_signals t).
        rewrite Hsig. reflexivity.
      * rewrite !last_app, Hlast. done.
Qed.

Lemma async_kick_off_restarts_after_data_prep_witness :
  decrypt_signals (thread_trace (async_kick_off (flag_from 3) thread_start).2)
  = ["trigger_load_persist_props"; "trigger_post_fs_data"; "trigger_restart_framework"].
Proof.
  destruct (async_kick_off_restarts_after_data_prep (flag_from 3) thread_start)
    as (_ & _ & _ & _ & Hdone & _).
  apply Hdone. exists 3%nat. split; [lia|reflexivity].
Defined.

(** ** More on the command buffer *)

Lemma load_store_u32 off v (buf : buffer) :
  0 <= off → off + 4 <= Z.of_nat (length buf) →
  load_u32 off (store_u32 off v buf) = to_u32 v.
Proof.
  intros H0 H1. unfold load_u32, store_u32.
  replace 4%nat with (length (le_encode 4 v)) at 1 by apply le_encode_length.
  rewrite load_bytes_store_bytes by (rewrite ?le_encode_length; lia).
  apply le_decode_encode.
Qed.

Lemma load_u32_store_bytes_ne off off' data (buf : buffer) :
  0 <= off → 0 <= off' →
  off' + Z.of_nat (length data) <= off ∨ off + 4 <= off' →
  load_u32 off (store_bytes off' data buf) = load_u32 off buf.
Proof.
  intros H0 H0' Hd. unfold load_u32. f_equal.
  apply load_bytes_store_bytes_ne; [done|done|]. lia.
Qed.

Lemma load_u64_store_bytes_ne off off' data (buf : buffer) :
  0 <= off → 0 <= off' →
  off' + Z.of_nat (length data) <= off ∨ off + 8 <= off' →
  load_u64 off (store_bytes off' data buf) = load_u64 off buf.
Proof.
  intros H0 H0' Hd. unfold load_u64. f_equal.
  apply load_bytes_store_bytes_ne; [done|done|]. lia.
Qed.

Lemma load_u32_insert_ne off (i : nat) b (buf : buffer) :
  0 <= off → Z.of_nat i < off ∨ off + 4 <= Z.of_nat i →
  load_u32 off (<[i := b]> buf) = load_u32 off buf.
Proof. intros H0 Hd. unfold load_u32. f_equal. apply load_bytes_insert_ne; [done|]. lia. Qed.

Lemma load_u64_insert_ne off (i : nat) b (buf : buffer) :
  0 <= off → Z.of_nat i < off ∨ off + 8 <= Z.of_nat i →
  load_u64 off (<[i := b]> buf) = load_u64 off buf.
Proof. intros H0 Hd. unfold load_u64. f_equal. apply load_bytes_insert_ne; [done|]. lia. Qed.

Lemma load_bytes_zeros off k n :
  0 <= off → (Z.to_nat off + k ≤ n)%nat →
  load_bytes off k (replicate n x00) = replicate k x00.
Proof.
  intros H0 Hk. unfold load_bytes. rewrite drop_replicate, take_replicate. f_equal. lia.
Qed.

Lemma le_decode_zeros k : le_decode (replicate k x00) = 0.
Proof. induction k as [|k IH]; cbn [replicate le_decode]; [done|]. rewrite IH. done. Qed.

Lemma to_u32_small v : 0 <= v < 2 ^ 32 → to_u32 v = v.
Proof. intros Hv. unfold to_u32. by apply Z.mod_small. Qed.

Lemma load_u32_store_bytes off v (buf : buffer) :
  0 <= off → off + 4 <= Z.of_nat (length buf) →
  load_u32 off (store_bytes off (le_encode 4 v) buf) = to_u32 v.
Proof. apply load_store_u32. Qed.

Lemma load_u64_store_bytes off v (buf : buffer) :
  0 <= off → off + 8 <= Z.of_nat (length buf) →
  load_u64 off (store_bytes off (le_encode 8 v) buf) = to_u64 v.
Proof. apply load_store_u64. Qed.

(** The reads and the stores of this file, with their side conditions. *)
Ltac mem_side :=
  rewrite ?le_encode_length, ?store_bytes_length, ?length_insert, ?length_replicate;
  unfold dm_ioctl.data_size, dm_ioctl.data_start, dm_ioctl.version, dm_ioctl.flags,
    dm_ioctl.target_count, dm_ioctl.dev, dm_ioctl.name, dm_ioctl.sizeof_name,
    dm_ioctl.sizeof, dm_target_spec.sizeof, dm_target_spec.status,
    dm_target_spec.sector_start, dm_target_spec.length, dm_target_spec.next,
    dm_target_spec.target_type, dm_target_spec.sizeof_target_type in *;
  lia.

Ltac mem_skip :=
  unfold store_u32, store_u64;
  repeat first
    [ rewrite load_u32_store_bytes_ne by (try done; mem_side)
    | rewrite load_u64_store_bytes_ne by (try done; mem_side)
    | rewrite load_u32_insert_ne by (try done; mem_side)
    | rewrite load_u64_insert_ne by (try done; mem_side) ].

(** X4. [dm_ioctl_init] returns [nullptr] for a buffer smaller than
    [struct dm_ioctl]; for any other size it returns the whole buffer with
    the version 4.0.0, [data_size] the size of the buffer, [data_start] the
    size of the header, and the flags, the target count and the device
    number zero. *)
Theorem dm_ioctl_init_header (buffer_size : Z) (dm_name : string) :
  (buffer_size < dm_ioctl.sizeof → dm_ioctl_init buffer_size dm_name = None)
  ∧ (dm_ioctl.sizeof <= buffer_size →
     ∃ io, dm_ioctl_init buffer_size dm_name = Some io
       ∧ Z.of_nat (length io) = buffer_size
       ∧ (load_u32 (dm_ioctl.version 0) io, load_u32 (dm_ioctl.version 1) io,
          load_u32 (dm_ioctl.version 2) io) = (4, 0, 0)
       ∧ load_u32 dm_ioctl.data_size io = to_u32 buffer_size
       ∧ load_u32 dm_ioctl.data_start io = dm_ioctl.sizeof
       ∧ load_u32 dm_ioctl.flags io = 0
       ∧ load_u32 dm_ioctl.target_count io = 0
       ∧ load_u64 dm_ioctl.dev io = 0).
Proof.
  unfold dm_ioctl_init. split; intros Hsize.
  - by rewrite decide_True.
  - rewrite decide_False by lia. eexists. split; [reflexivity|].
    pose proof (string_copy_length dm_name dm_ioctl.sizeof_name) as Hname.
    unfold dm_ioctl.sizeof in Hsize.
    assert (Hzero32 : ∀ off, 0 <= off → off + 4 <= 312 →
              load_u32 off (replicate (Z.to_nat buffer_size) x00) = 0).
    { intros off H0 H1. unfold load_u32. rewrite load_bytes_zeros by lia.
      apply le_decode_zeros. }
    split_and!.
    + unfold store_u32. rewrite !store_bytes_length, length_replicate. lia.
    + f_equal; [f_equal|].
      * mem_skip. rewrite load_u32_store_bytes by (try done; mem_side). done.
      * mem_skip. rewrite load_u32_store_bytes by (try done; mem_side). done.
      * mem_skip. rewrite load_u32_store_bytes by (try done; mem_side). done.
    + mem_skip. rewrite load_u32_store_bytes by (try done; mem_side).
      unfold to_u32. apply Z.mod_mod. lia.
    + mem_skip. rewrite load_u32_store_bytes by (try done; mem_side). done.
    + mem_skip. rewrite load_u32_store_bytes by (try done; mem_side). done.
    + mem_skip. apply Hzero32; mem_side.
    + mem_skip. unfold load_u64. rewrite load_bytes_zeros by mem_side.
      apply le_decode_zeros.
Qed.

Lemma dm_ioctl_init_header_witness :
  ∃ io, dm_ioctl_init 512 "userdata" = Some io
    ∧ load_u32 dm_ioctl.data_size io = 512
    ∧ dm_ioctl_init 311 "userdata" = None.
Proof.
  destruct (dm_ioctl_init_header 512 "userdata") as [_ Hsome].
  destruct Hsome as (io & Hio & _ & _ & Hsize & _); [vm_compute; discriminate|].
  exists io. split; [exact Hio|]. split; [exact Hsize|].
  destruct (dm_ioctl_init_header 311 "userdata") as [Hnone _].
  apply Hnone. reflexivity.
Defined.

Lemma list_byte_of_string_cons c s :
  list_byte_of_string (String c s) = byte_of_ascii c :: list_byte_of_string s.
Proof. reflexivity. Qed.

Lemma list_byte_of_string_length s : length (list_byte_of_string s) = String.length s.
Proof.
  induction s as [|c s IH]; [done|].
  rewrite list_byte_of_string_cons. cbn [length String.length]. by rewrite IH.
Qed.

Lemma byte_of_ascii_is_zero c : Byte.eqb (byte_of_ascii c) x00 = Ascii.eqb c Ascii.zero.
Proof.
  destruct (Ascii.eqb c Ascii.zero) eqn:Hc.
  - apply Ascii.eqb_eq in Hc. by subst c.
  - apply Ascii.eqb_neq in Hc.
    destruct (Byte.eqb (byte_of_ascii c) x00) eqn:Hb; [|done].
    apply Byte.byte_dec_bl in Hb. exfalso. apply Hc.
    rewrite <- (ascii_of_byte_of_ascii c), Hb. reflexivity.
Qed.

Lemma c_str_bytes_of_string s :
  c_str_bytes (list_byte_of_string s) = list_byte_of_string (c_str s).
Proof.
  induction s as [|c s IH]; [done|].
  rewrite list_byte_of_string_cons. cbn [c_str_bytes c_str].
  rewrite byte_of_ascii_is_zero. destruct (Ascii.eqb c Ascii.zero); [done|].
  by rewrite list_byte_of_string_cons, IH.
Qed.

Lemma c_str_bytes_app_zeros l k : c_str_bytes l = l → c_str_bytes (l ++ replicate k x00) = l.
Proof.
  induction l as [|b l IH]; intros Hl.
  - by destruct k.
  - cbn [c_str_bytes app] in *. destruct (Byte.eqb b x00); [done|].
    injection Hl as Hl. by rewrite IH.
Qed.

Lemma load_bytes_store_bytes_app off data k (buf : buffer) :
  0 <= off → off + Z.of_nat (length data) + Z.of_nat k <= Z.of_nat (length buf) →
  load_bytes off (length data + k) (store_bytes off data buf)
  = data ++ load_bytes (off + Z.of_nat (length data)) k buf.
Proof.
  intros H0 Hlen. unfold load_bytes, store_bytes. apply list_eq. intros i.
  destruct (decide (i < length data)%nat) as [Hi|Hi].
  - rewrite lookup_take_lt, lookup_drop, lookup_app_l by lia.
    apply store_bytes_at_lookup; lia.
  - rewrite lookup_app_r by lia.
    destruct (decide (i < length data + k)%nat) as [Hik|Hik].
    + rewrite !lookup_take_lt, !lookup_drop by lia.
      rewrite store_bytes_at_lookup_ne by lia. f_equal. lia.
    + by rewrite !lookup_take_ge by lia.
Qed.

(** The name field of the buffer that [dm_ioctl_init] returns: the characters
    that [std::string::copy] took, then zeros; the bytes behind the field are
    zero. *)
Lemma dm_ioctl_init_name_field buffer_size dm_name :
  dm_ioctl.sizeof <= buffer_size →
  ∃ io, dm_ioctl_init buffer_size dm_name = Some io
    ∧ load_bytes dm_ioctl.name dm_ioctl.sizeof_name io
      = string_copy dm_name dm_ioctl.sizeof_name
        ++ replicate (dm_ioctl.sizeof_name - length (string_copy dm_name dm_ioctl.sizeof_name))
             x00
    ∧ ∀ i : nat, dm_ioctl.name + Z.of_nat dm_ioctl.sizeof_name <= Z.of_nat i < buffer_size →
                 io !! i = Some x00.
Proof.
  intros Hsize. unfold dm_ioctl_init. rewrite decide_False by lia.
  eexists. split; [reflexivity|].
  pose proof (string_copy_length dm_name dm_ioctl.sizeof_name) as Hname.
  set (copy := string_copy dm_name dm_ioctl.sizeof_name) in *.
  unfold dm_ioctl.sizeof, dm_ioctl.sizeof_name, dm_ioctl.name in *.
  unfold store_u32. split.
  - replace 128%nat with (length copy + (128 - length copy))%nat at 1 by lia.
    rewrite load_bytes_store_bytes_app by (try done; mem_side). f_equal.
    rewrite !load_bytes_store_bytes_ne by (try done; mem_side).
    apply load_bytes_zeros; lia.
  - intros i Hi. unfold store_bytes.
    rewrite !store_bytes_at_lookup_ne by mem_side.
    apply lookup_replicate_2. lia.
Qed.

(** X5. A device name without NUL character and shorter than the name field
    (128 bytes) is read back from the buffer of [dm_ioctl_init] as it is. *)
Theorem dm_ioctl_init_name_round_trip (buffer_size : Z) (dm_name : string) :
  dm_ioctl.sizeof <= buffer_size →
  c_str dm_name = dm_name →
  (String.length dm_name < dm_ioctl.sizeof_name)%nat →
  ∃ io, dm_ioctl_init buffer_size dm_name = Some io ∧ dm_name_of io = dm_name.
Proof.
  intros Hsize Hnul Hlen.
  destruct (dm_ioctl_init_name_field buffer_size dm_name Hsize) as (io & Hio & Hfield & _).
  exists io. split; [exact Hio|]. unfold dm_name_of. rewrite Hfield.
  unfold string_copy. rewrite take_ge by (rewrite list_byte_of_string_length; lia).
  rewrite c_str_bytes_app_zeros by (by rewrite c_str_bytes_of_string, Hnul).
  apply string_of_list_byte_of_string.
Qed.

Lemma dm_ioctl_init_name_round_trip_witness :
  ∃ io, dm_ioctl_init DM_CRYPT_BUF_SIZE kDmNameUserdata = Some io
        ∧ dm_name_of io = "userdata".
Proof.
  apply (dm_ioctl_init_name_round_trip DM_CRYPT_BUF_SIZE kDmNameUserdata).
  - vm_compute. discriminate.
  - reflexivity.
  - vm_compute. lia.
Defined.

(** X6. [dm_ioctl_init] cuts a longer name to the 128 bytes of the name
    field, without a terminator, and writes nothing behind the field: the
    uuid and the rest of the buffer stay zero. *)
Theorem dm_ioctl_init_long_name (buffer_size : Z) (dm_name : string) :
  dm_ioctl.sizeof <= buffer_size →
  (dm_ioctl.sizeof_name <= String.length dm_name)%nat →
  ∃ io, dm_ioctl_init buffer_size dm_name = Some io
    ∧ load_bytes dm_ioctl.name dm_ioctl.sizeof_name io
      = take dm_ioctl.sizeof_name (list_byte_of_string dm_name)
    ∧ ∀ i : nat, dm_ioctl.name + Z.of_nat dm_ioctl.sizeof_name <= Z.of_nat i < buffer_size →
                 io !! i = Some x00.
Proof.
  intros Hsize Hlen.
  destruct (dm_ioctl_init_name_field buffer_size dm_name Hsize) as (io & Hio & Hfield & Hrest).
  exists io. split; [exact Hio|]. split; [|exact Hrest].
  rewrite Hfield. unfold string_copy.
  rewrite length_take, list_byte_of_string_length.
  replace (dm_ioctl.sizeof_name - _)%nat with 0%nat by lia.
  apply app_nil_r.
Qed.

Lemma dm_ioctl_init_long_name_witness :
  ∃ io, dm_ioctl_init DM_CRYPT_BUF_SIZE (string_of_list_byte (replicate 130 x61)) = Some io
        ∧ load_bytes dm_ioctl.name dm_ioctl.sizeof_name io = replicate 128 x61
        ∧ io !! 176%nat = Some x00.
Proof.
  destruct (dm_ioctl_init_long_name DM_CRYPT_BUF_SIZE
              (string_of_list_byte (replicate 130 x61)))
    as (io & Hio & Hfield & Hrest).
  - vm_compute. discriminate.
  - vm_compute. lia.
  - exists io. split; [exact Hio|]. split; [exact Hfield|].
    apply Hrest. vm_compute. split; [discriminate|reflexivity].
Defined.

(** ** The functions that the entry points call *)

Lemma new_events_add_trace t w : new_events w (add_trace t w) = t.
Proof. by apply new_events_app. Qed.

(** X7. [mount_via_fs_mgr] mounts only in the fsck context, clears the
    context after every mount, also a failed one, and returns [true] exactly
    when the two context switches and the mount returned 0; it changes
    neither the properties nor the mappings. *)
Theorem mount_via_fs_mgr_in_fsck_context
    (E : collaborators) (mount_point blk_device : string) (w : world) :
  let run := mount_via_fs_mgr E mount_point blk_device w in
  let t := new_events w run.2 in
  let con := Some (secontextFsck E) in
  let mount_rc := fs_mgr_do_mount_rc E mount_point blk_device in
  (∃ b, run.1 = Ret b
        ∧ (b = true ↔ setexeccon_rc E con = 0 ∧ mount_rc = 0 ∧ setexeccon_rc E None = 0))
  ∧ props run.2 = props w ∧ dm_table run.2 = dm_table w
  ∧ (if decide (setexeccon_rc E con = 0) then
       ∃ log, t = [EvSetexeccon con 0; EvFsMgrDoMount mount_point blk_device mount_rc;
                   EvSetexeccon None (setexeccon_rc E None); log]
     else t = [EvSetexeccon con (setexeccon_rc E con);
               EvLog ERROR true "Failed to setexeccon"]).
Proof.
  cbv zeta. unfold mount_via_fs_mgr, setexeccon, fs_mgr_do_mount, LOG, PLOG.
  erewrite bind_run by (erewrite bind_run by apply emit_run; reflexivity).
  destruct (decide (setexeccon_rc E (Some (secontextFsck E)) ≠ 0)) as [Hctx|Hctx].
  { erewrite bind_run by apply emit_run. rewrite add_trace_add_trace.
    unfold mret, M_ret. cbn [fst snd]. rewrite new_events_add_trace.
    rewrite decide_False by done. split_and!; try done.
    exists false. split; [done|]. split; [done|]. intros (? & _). done. }
  apply dec_stable in Hctx. rewrite Hctx. rewrite decide_True by done.
  erewrite bind_run by (erewrite bind_run by apply emit_run; reflexivity).
  erewrite bind_run by (erewrite bind_run by apply emit_run; reflexivity).
  rewrite !add_trace_add_trace.
  destruct (decide (setexeccon_rc E None ≠ 0)) as [Hclr|Hclr].
  { erewrite bind_run by apply emit_run. rewrite add_trace_add_trace.
    unfold mret, M_ret. cbn [fst snd]. rewrite new_events_add_trace.
    split_and!; try done; [|by eexists].
    exists false. split; [done|]. split; [done|]. intros (_ & _ & ?). done. }
  apply dec_stable in Hclr.
  destruct (decide (fs_mgr_do_mount_rc E mount_point blk_device ≠ 0)) as [Hmnt|Hmnt].
  { erewrite bind_run by apply emit_run. rewrite add_trace_add_trace.
    unfold mret, M_ret. cbn [fst snd]. rewrite new_events_add_trace.
    split_and!; try done; [|by eexists].
    exists false. split; [done|]. split; [done|]. intros (_ & ? & _). done. }
  apply dec_stable in Hmnt.
  erewrite bind_run by apply emit_run. rewrite add_trace_add_trace.
  unfold mret, M_ret. cbn [fst snd]. rewrite new_events_add_trace.
  split_and!; try done; [|by eexists].
  exists true. done.
Qed.

(** The runs of [read_key], by the answers of its collaborators. *)
Lemma read_key_runs E create_if_absent w :
  let run := read_key E create_if_absent w in
  (fs_mgr_get_crypt_entry E = None
   ∧ run = (Ret None, add_trace [EvLog ERROR false "Failed to get data_rec"] w))
  ∨ (∃ data_rec, fs_mgr_get_crypt_entry E = Some data_rec ∧ key_dir data_rec = None
       ∧ run = (Ret None, add_trace [EvLog ERROR false "Failed to get key_dir"] w))
  ∨ (∃ data_rec dir, fs_mgr_get_crypt_entry E = Some data_rec ∧ key_dir data_rec = Some dir
       ∧ pathExists E dir = false ∧ mkdir_rc E dir ≠ 0
       ∧ run = (Ret None,
                add_trace [EvLog DEBUG false ("key_dir: " +:+ dir);
                           EvMkdir dir 511 (mkdir_rc E dir);
                           EvLog ERROR true ("Unable to create: " +:+ dir)] w))
  ∨ (∃ data_rec dir made, fs_mgr_get_crypt_entry E = Some data_rec
       ∧ key_dir data_rec = Some dir
       ∧ ((pathExists E dir = true ∧ made = [])
          ∨ (pathExists E dir = false ∧ mkdir_rc E dir = 0
             ∧ made = [EvMkdir dir 511 0; EvLog DEBUG false ("Created: " +:+ dir)]))
       ∧ let key := retrieveKey E create_if_absent (dir +:+ "/key") (dir +:+ "/tmp") in
         run = (Ret key,
                add_trace ([EvLog DEBUG false ("key_dir: " +:+ dir)] ++ made ++
                           [EvRetrieveKey create_if_absent (dir +:+ "/key") (dir +:+ "/tmp")
                              (bool_decide (is_Some key))]) w)).
Proof.
  cbv zeta. unfold read_key, mkdir, LOG, PLOG.
  destruct (fs_mgr_get_crypt_entry E) as [data_rec|]; [right|left].
  2:{ split; [done|]. by erewrite bind_run by apply emit_run. }
  destruct (key_dir data_rec) as [dir|] eqn:Hdir; [right|left].
  2:{ exists data_rec. by split_and!. }
  erewrite bind_run by apply emit_run.
  destruct (pathExists E dir) eqn:Hexists.
  { right. exists data_rec, dir, []. split_and!; try done; [by left|].
    erewrite bind_run by reflexivity. cbn [negb].
    erewrite bind_run by apply emit_run. by rewrite add_trace_add_trace. }
  destruct (decide (mkdir_rc E dir ≠ 0)) as [Hrc|Hrc]; [left|right].
  - exists data_rec, dir. split_and!; try done.
    erewrite bind_run.
    2:{ erewrite bind_run by (erewrite bind_run by apply emit_run; reflexivity).
        rewrite decide_True by done. erewrite bind_run by apply emit_run. reflexivity. }
    cbn [negb]. by rewrite !add_trace_add_trace.
  - apply dec_stable in Hrc. eexists data_rec, dir, _. split_and!; try done.
    { right. split_and!; try done. }
    erewrite bind_run.
    2:{ erewrite bind_run by (erewrite bind_run by apply emit_run; reflexivity).
        rewrite decide_False by (intros H; by apply H).
        erewrite bind_run by apply emit_run. reflexivity. }
    cbn [negb]. erewrite bind_run by apply emit_run. rewrite !add_trace_add_trace.
    rewrite Hrc. reflexivity.
Qed.

(** X8. [read_key] returns a key exactly when the fstab entry names a key
    directory, the directory exists or [mkdir] created it, and [retrieveKey]
    gives the key for [<key_dir>/key] and [<key_dir>/tmp]. *)
Theorem read_key_succeeds_iff
    (E : collaborators) (create_if_absent : bool) (w : world) (key : KeyBuffer) :
  (read_key E create_if_absent w).1 = Ret (Some key)
  ↔ ∃ data_rec dir,
      fs_mgr_get_crypt_entry E = Some data_rec ∧ key_dir data_rec = Some dir
      ∧ (pathExists E dir = true ∨ mkdir_rc E dir = 0)
      ∧ retrieveKey E create_if_absent (dir +:+ "/key") (dir +:+ "/tmp") = Some key.
Proof.
  pose proof (read_key_runs E create_if_absent w) as Hruns. cbv zeta in Hruns.
  destruct Hruns as [[Hentry ->]|[(data_rec & Hentry & Hdir & ->)
    |[(data_rec & dir & Hentry & Hdir & Hexists & Hrc & ->)
     |(data_rec & dir & made & Hentry & Hdir & Hmade & ->)]]]; cbn [fst].
  - split; [done|]. intros (? & ? & ? & _). congruence.
  - split; [done|]. intros (? & ? & ? & ? & _). congruence.
  - split; [done|]. intros (? & ? & ? & ? & [?|?] & _); congruence.
  - split.
    + intros [= Hkey]. exists data_rec, dir. split_and!; try done.
      destruct Hmade as [[? _]|(_ & ? & _)]; [by left|by right].
    + intros (data_rec' & dir' & Hentry' & Hdir' & _ & Hkey).
      assert (dir' = dir) as -> by congruence. by rewrite Hkey.
Qed.

(** X9. [read_key] creates the key directory only when it is missing, with
    the mode 0777, and asks for the key only when the directory is there,
    with the caller's [create_if_absent]; it changes neither the properties
    nor the mappings. *)
Theorem read_key_calls (E : collaborators) (create_if_absent : bool) (w : world) :
  let run := read_key E create_if_absent w in
  let t := new_events w run.2 in
  props run.2 = props w ∧ dm_table run.2 = dm_table w
  ∧ (∀ path mode rc, In (EvMkdir path mode rc) t →
       mode = 511 ∧ pathExists E path = false ∧ rc = mkdir_rc E path
       ∧ ∃ data_rec, fs_mgr_get_crypt_entry E = Some data_rec
                     ∧ key_dir data_rec = Some path)
  ∧ (∀ c dir temp ok, In (EvRetrieveKey c dir temp ok) t →
       c = create_if_absent
       ∧ ∃ key_dir, dir = key_dir +:+ "/key" ∧ temp = key_dir +:+ "/tmp"
                    ∧ (pathExists E key_dir = true ∨ mkdir_rc E key_dir = 0)
                    ∧ (ok = true ↔ ∃ key, run.1 = Ret (Some key))).
Proof.
  pose proof (read_key_runs E create_if_absent w) as Hruns. cbv zeta in *.
  destruct Hruns as [[Hentry ->]|[(data_rec & Hentry & Hdir & ->)
    |[(data_rec & dir & Hentry & Hdir & Hexists & Hrc & ->)
     |(data_rec & dir & made & Hentry & Hdir & Hmade & ->)]]];
    cbn [fst snd]; rewrite new_events_add_trace; cbn [add_trace props dm_table].
  - split_and!; try done; intros; cbn [In] in *; intuition congruence.
  - split_and!; try done; intros; cbn [In] in *; intuition congruence.
  - split_and!; try done.
    + intros path mode rc Hin. cbn [In] in Hin.
      destruct Hin as [?|[[= <- <- <-]|[?|[]]]]; try done.
      split_and!; try done. by exists data_rec.
    + intros; cbn [In] in *; intuition congruence.
  - assert (Hdir_ok : pathExists E dir = true ∨ mkdir_rc E dir = 0).
    { destruct Hmade as [[? _]|(_ & ? & _)]; [by left|by right]. }
    split_and!; try done.
    + intros path mode rc Hin.
      destruct Hmade as [[_ ->]|(Hexists & Hrc & ->)]; cbn [app In] in Hin.
      * intuition congruence.
      * destruct Hin as [?|[[= <- <- <-]|[?|[?|[]]]]]; try done.
        split_and!; try done. by exists data_rec.
    + intros c d temp ok Hin.
      assert (Hev : EvRetrieveKey c d temp ok
                    = EvRetrieveKey create_if_absent (dir +:+ "/key") (dir +:+ "/tmp")
                        (bool_decide (is_Some (retrieveKey E create_if_absent
                                                 (dir +:+ "/key") (dir +:+ "/tmp"))))).
      { destruct Hmade as [[_ ->]|(_ & _ & ->)]; cbn [app In] in Hin;
          intuition congruence. }
      injection Hev as -> -> -> ->. split; [done|]. exists dir. split_and!; try done.
      destruct (retrieveKey E create_if_absent _ _) as [key|].
      * rewrite bool_decide_true by done. split; [by eexists|done].
      * rewrite bool_decide_false by (by intros [? ?]). split; [done|]. by intros [? ?].
Qed.

Lemma read_key_calls_witness :
  let E := Scenario.env (λ _, true) true 1000000 in
  In (EvRetrieveKey true "/metadata/vold/key" "/metadata/vold/tmp" true)
     (new_events Scenario.boot (read_key E true Scenario.boot).2)
  ∧ ∃ key_dir, "/metadata/vold/key" = key_dir +:+ "/key"
               ∧ "/metadata/vold/tmp" = key_dir +:+ "/tmp".
Proof.
  assert (Hin : In (EvRetrieveKey true "/metadata/vold/key" "/metadata/vold/tmp" true)
                   (new_events Scenario.boot
                      (read_key (Scenario.env (λ _, true) true 1000000) true
                         Scenario.boot).2)) by find_in.
  split; [exact Hin|].
  destruct (read_key_calls (Scenario.env (λ _, true) true 1000000) true Scenario.boot)
    as (_ & _ & _ & Hkey).
  destruct (Hkey _ _ _ _ Hin) as (_ & key_dir & Hdir & Htemp & _).
  exists key_dir. split; [exact Hdir|exact Htemp].
Defined.

(** X10. [get_number_of_sectors] opens the device path up to its first NUL
    and succeeds exactly when the open succeeds and the size, as an
    [unsigned long], is not zero; the size it gives is then positive and
    fits 64 bits.  Each failure ends in a [PLOG(ERROR)]. *)
Theorem get_number_of_sectors_result (E : collaborators) (real_blkdev : string) (w : world) :
  let run := get_number_of_sectors E real_blkdev w in
  let t := new_events w run.2 in
  let path := c_str real_blkdev in
  (∀ n, run.1 = Ret (Some n)
        ↔ open_ok E path = true ∧ n = to_u64 (get_blkdev_size E path) ∧ n ≠ 0)
  ∧ (∀ n, run.1 = Ret (Some n) → 0 < n < 2 ^ 64)
  ∧ (run.1 = Ret None ∨ ∃ n, run.1 = Ret (Some n))
  ∧ (run.1 = Ret None → ∃ msg, last t = Some (EvLog ERROR true msg))
  ∧ (∀ p ok, In (EvOpen p ok) t → p = path)
  ∧ props run.2 = props w ∧ dm_table run.2 = dm_table w.
Proof.
  cbv zeta. unfold get_number_of_sectors, PLOG.
  erewrite bind_run by apply open_run.
  assert (Hrange : 0 <= to_u64 (get_blkdev_size E (c_str real_blkdev)) < 2 ^ 64).
  { unfold to_u64. apply Z.mod_pos_bound. lia. }
  destruct (open_ok E (c_str real_blkdev)) eqn:Hopen; cbn [negb].
  2:{ erewrite bind_run by apply emit_run. rewrite add_trace_add_trace.
      unfold mret, M_ret. cbn [fst snd]. rewrite new_events_add_trace.
      split_and!; try done.
      - intros n. split; [done|]. by intros [? _].
      - by left.
      - by eexists.
      - intros p ok Hin. destruct Hin as [[= <- <-]|[?|[]]]; done. }
  destruct (decide (to_u64 (get_blkdev_size E (c_str real_blkdev)) = 0)) as [Hzero|Hpos].
  { erewrite bind_run by apply emit_run. rewrite add_trace_add_trace.
    unfold mret, M_ret. cbn [fst snd]. rewrite new_events_add_trace.
    split_and!; try done.
    - intros n. split; [done|]. intros (_ & -> & ?). done.
    - by left.
    - by eexists.
    - intros p ok Hin. destruct Hin as [[= <- <-]|[?|[]]]; done. }
  unfold mret, M_ret. cbn [fst snd]. rewrite new_events_add_trace.
  split_and!; try done.
  - intros n. split; [intros [= <-]; done|]. by intros (_ & -> & _).
  - intros n [= <-]. lia.
  - right. by eexists.
  - intros p ok Hin. destruct Hin as [[= <- <-]|[]]; done.
Qed.

Lemma get_number_of_sectors_result_witness :
  let E := Scenario.env (λ _, true) true 1000000 in
  (get_number_of_sectors E "/dev/block/sda9" Scenario.boot).1 = Ret (Some 1000000)
  ∧ 0 < 1000000 < 2 ^ 64.
Proof.
  assert (Hret : (get_number_of_sectors (Scenario.env (λ _, true) true 1000000)
                    "/dev/block/sda9" Scenario.boot).1 = Ret (Some 1000000))
    by reflexivity.
  split; [exact Hret|].
  destruct (get_number_of_sectors_result (Scenario.env (λ _, true) true 1000000)
              "/dev/block/sda9" Scenario.boot) as (_ & Hrange & _).
  exact (Hrange 1000000 Hret).
Defined.

(** X11. [default_key_params] returns the empty buffer exactly when
    [StrToHex] fails.  Otherwise the parameters are the cipher, the key in
    the encoding of [StrToHex], the device path up to its first NUL and the
    offset 0, which is 15 bytes more than the encoded key and the path. *)
Theorem default_key_params_empty_iff_failure
    (E : collaborators) (real_blkdev : string) (key : KeyBuffer) (w : world) :
  let run := default_key_params E real_blkdev key w in
  let hex_key := (StrToHex E key).2 in
  ∃ params, run.1 = Ret params
    ∧ (params = [] ↔ (StrToHex E key).1 ≠ 0)
    ∧ ((StrToHex E key).1 = 0 →
       params = list_byte_of_string "AES-256-XTS " ++ hex_key ++ list_byte_of_string " "
                ++ list_byte_of_string (c_str real_blkdev) ++ list_byte_of_string " 0"
       ∧ length params = (15 + length hex_key + String.length (c_str real_blkdev))%nat)
    ∧ props run.2 = props w ∧ dm_table run.2 = dm_table w.
Proof.
  cbv zeta. unfold default_key_params, LOG.
  destruct (StrToHex E key) as [status hex_key]. cbn [fst snd].
  destruct (decide (status ≠ 0)) as [Hst|Hst].
  - erewrite bind_run by apply emit_run. exists []. by split_and!.
  - apply dec_stable in Hst. subst status.
    erewrite bind_run by apply emit_run. eexists. split; [reflexivity|].
    cbn [add_trace props dm_table snd]. split_and!; try done.
    intros _. split.
      * rewrite app_nil_l, <- !app_assoc. reflexivity.
      * rewrite !length_app, !list_byte_of_string_length.
        cbn [length String.length]. lia.
Qed.

Lemma default_key_params_empty_iff_failure_witness :
  let E := Scenario.env (λ _, true) true 1000000 in
  ∃ params, (default_key_params E "/dev/block/sda9" [x01; xab] Scenario.boot).1 = Ret params
            ∧ length params = 34%nat.
Proof.
  destruct (default_key_params_empty_iff_failure (Scenario.env (λ _, true) true 1000000)
              "/dev/block/sda9" [x01; xab] Scenario.boot)
    as (params & Hret & _ & Hok & _).
  exists params. split; [exact Hret|].
  destruct (Hok eq_refl) as [_ Hlen]. exact Hlen.
Defined.

(** ** The table-load command *)

Lemma load_bytes_all_zero off k (buf : buffer) :
  0 <= off →
  (∀ i : nat, off <= Z.of_nat i < off + Z.of_nat k → buf !! i = Some x00) →
  load_bytes off k buf = replicate k x00.
Proof.
  intros H0 Hzero. unfold load_bytes. apply list_eq. intros i.
  destruct (decide (i < k)%nat) as [Hi|Hi].
  - rewrite lookup_take_lt, lookup_drop by done.
    rewrite Hzero by lia. symmetry. by apply lookup_replicate_2.
  - rewrite lookup_take_ge by lia. symmetry. apply lookup_ge_None.
    rewrite length_replicate. lia.
Qed.

(** X12. The table-load command for parameters that leave room for their
    terminator: one target that maps the [nr_sec] sectors from sector 0, with
    the status 0 and the target type padded with zeros, in a buffer whose
    header and name are those of [dm_ioctl_init]. *)
Theorem table_load_buffer_target
    (dm_name target_type : string) (nr_sec : Z) (crypt_params : KeyBuffer) (endix : Z) :
  let paramix := dm_ioctl.sizeof + dm_target_spec.sizeof in
  let nullix := paramix + Z.of_nat (length crypt_params) in
  let type := string_copy target_type dm_target_spec.sizeof_target_type in
  nullix < DM_CRYPT_BUF_SIZE →
  ∃ io0 io,
    dm_ioctl_init DM_CRYPT_BUF_SIZE dm_name = Some io0
    ∧ table_load_buffer io0 DM_CRYPT_BUF_SIZE nr_sec target_type crypt_params
        paramix nullix endix = Some io
    ∧ load_u32 dm_ioctl.target_count io = 1
    ∧ load_u64 (dm_ioctl.sizeof + dm_target_spec.sector_start) io = 0
    ∧ load_u64 (dm_ioctl.sizeof + dm_target_spec.length) io = to_u64 nr_sec
    ∧ load_u32 (dm_ioctl.sizeof + dm_target_spec.status) io = 0
    ∧ load_bytes (dm_ioctl.sizeof + dm_target_spec.target_type)
        dm_target_spec.sizeof_target_type io
      = type ++ replicate (dm_target_spec.sizeof_target_type - length type) x00
    ∧ load_u32 dm_ioctl.data_size io = DM_CRYPT_BUF_SIZE
    ∧ load_u32 dm_ioctl.data_start io = dm_ioctl.sizeof
    ∧ load_bytes dm_ioctl.name dm_ioctl.sizeof_name io
      = load_bytes dm_ioctl.name dm_ioctl.sizeof_name io0.
Proof.
  intros paramix nullix type Hfit.
  destruct (dm_ioctl_init_facts dm_name) as (io0 & Hinit & Hlen & Hstart & Hsize & _).
  destruct (dm_ioctl_init_name_field DM_CRYPT_BUF_SIZE dm_name) as (io0' & Hinit' & _ & Hzero);
    [vm_compute; discriminate|].
  assert (io0' = io0) as -> by congruence. clear Hinit'.
  exists io0. unfold table_load_buffer. rewrite tgt_after_target_count by done.
  pose proof (string_copy_length target_type dm_target_spec.sizeof_target_type) as Htype.
  fold type in Htype |- *.
  subst paramix nullix.
  unfold DM_CRYPT_BUF_SIZE, dm_ioctl.sizeof, dm_target_spec.sizeof,
    dm_target_spec.sizeof_target_type, dm_ioctl.name, dm_ioctl.sizeof_name in *.
  change (size_t_of (4096 - (312 + 40))) with 3744.
  rewrite Z.min_l by lia. rewrite Nat2Z.id, firstn_all.
  unfold store_char. rewrite decide_True.
  2:{ unfold store_u32, store_u64. rewrite !store_bytes_length, Hlen. lia. }
  cbn [mbind option_bind]. eexists. split; [exact Hinit|]. split; [reflexivity|].
  split_and!.
  - mem_skip. rewrite load_u32_store_bytes by (try done; mem_side). done.
  - mem_skip. rewrite load_u64_store_bytes by (try done; mem_side). done.
  - mem_skip. rewrite load_u64_store_bytes by (try done; mem_side). done.
  - mem_skip. rewrite load_u32_store_bytes by (try done; mem_side). done.
  - unfold store_u32, store_u64.
    rewrite load_bytes_store_bytes_ne by (try done; mem_side).
    rewrite load_bytes_insert_ne by (try done; mem_side).
    rewrite load_bytes_store_bytes_ne by (try done; mem_side).
    replace 16%nat with (length type + (16 - length type))%nat at 1 by lia.
    rewrite load_bytes_store_bytes_app by (try done; mem_side). f_equal.
    rewrite !load_bytes_store_bytes_ne by (try done; mem_side).
    apply load_bytes_all_zero; [mem_side|]. intros i Hi. apply Hzero. mem_side.
  - mem_skip. exact Hsize.
  - mem_skip. exact Hstart.
  - unfold store_u32, store_u64.
    rewrite load_bytes_store_bytes_ne by (try done; mem_side).
    rewrite load_bytes_insert_ne by (try done; mem_side).
    rewrite !load_bytes_store_bytes_ne by (try done; mem_side). done.
Qed.

Lemma table_load_buffer_target_witness :
  ∃ io0 io,
    dm_ioctl_init DM_CRYPT_BUF_SIZE kDmNameUserdata = Some io0
    ∧ table_load_buffer io0 DM_CRYPT_BUF_SIZE 1000000 DEFAULT_KEY_TARGET_TYPE
        Scenario_C4.crypt_params 352 386 8 = Some io
    ∧ load_u32 dm_ioctl.target_count io = 1
    ∧ load_u64 (dm_ioctl.sizeof + dm_target_spec.length) io = 1000000
    ∧ load_bytes (dm_ioctl.sizeof + dm_target_spec.target_type) 16 io
      = list_byte_of_string "default-key" ++ replicate 5 x00.
Proof.
  destruct (table_load_buffer_target kDmNameUserdata DEFAULT_KEY_TARGET_TYPE 1000000
              Scenario_C4.crypt_params 8)
    as (io0 & io & Hinit & Hio & Hcount & _ & Hlength & _ & Htype & _).
  - vm_compute. reflexivity.
  - exists io0, io. split_and!; [exact Hinit|exact Hio|exact Hcount|exact Hlength|exact Htype].
Defined.

(** ** The device that [create_crypto_blk_dev] returns *)

(** After a create and a status request that the driver accepted, the
    function runs the load and the resume steps for the path that it built
    from the device number of the status reply. *)
Lemma create_crypto_blk_dev_status_ok E dm_name nr_sec target_type
    (crypt_params : KeyBuffer) w dev :
  open_ok E "/dev/device-mapper" = true →
  dm_table w !! dm_name_of (plain_cmd dm_name) = None →
  dm_create_ok E = true →
  dm_status_dev E = Some dev →
  let run := create_crypto_blk_dev E dm_name nr_sec target_type crypt_params w in
  run = (Undefined, created dm_name w)
  ∨ ∃ io, run = finish_provisioning E dm_name (crypto_blkdev_of dev) io (created dm_name w).
Proof.
  intros Hopen Hfresh Hcreate Hstatus run. subst run.
  destruct (dm_ioctl_init_facts dm_name) as (io & Hinit & Hlen & Hstart & _).
  assert (Hplain : plain_cmd dm_name = io) by (unfold plain_cmd; by rewrite Hinit).
  unfold created, finish_provisioning. rewrite Hplain in *. clear Hplain.
  unfold create_crypto_blk_dev. rewrite Hinit.
  erewrite bind_run by apply open_run. rewrite Hopen. cbn [negb].
  erewrite bind_run.
  2:{ erewrite bind_run by (by apply ioctl_create_fresh). reflexivity. }
  rewrite bool_decide_true by done. cbn [negb deref].
  erewrite bind_run.
  2:{ apply ioctl_status_ok; [|done]. cbn [dm_table]. by rewrite lookup_insert_eq. }
  cbn beta iota. rewrite decide_False by (intros H; by apply H).
  rewrite load_store_u64 by (unfold dm_ioctl.dev; lia). rewrite to_u64_idem.
  rewrite decide_False by (match goal with |- ¬ (Z.land (size_t_of (?n + 1 + 7)) 8 > _) =>
                             pose proof (endix_le_8 n) end; unfold DM_CRYPT_BUF_SIZE; lia).
  match goal with |- context [table_load_buffer ?a ?b ?c ?d ?e ?f ?g ?h] =>
    destruct (table_load_buffer a b c d e f g h) as [ioL|] end.
  - right. exists ioL. unfold crypto_blkdev_of, add_trace.
    cbn [props dm_table load_calls trace]. rewrite <- !app_assoc. reflexivity.
  - left. unfold undefined, add_trace.
    cbn [props dm_table load_calls trace]. rewrite <- !app_assoc. reflexivity.
Qed.

(** A run of [create_crypto_blk_dev] that returns a device. *)
Lemma create_crypto_blk_dev_some E dm_name nr_sec target_type (crypt_params : KeyBuffer) w
    crypto_blkdev :
  let run := create_crypto_blk_dev E dm_name nr_sec target_type crypt_params w in
  run.1 = Ret (Some crypto_blkdev) →
  open_ok E "/dev/device-mapper" = true
  ∧ dm_table w !! dm_name_of (plain_cmd dm_name) = None
  ∧ dm_create_ok E = true
  ∧ (∃ dev, dm_status_dev E = Some dev ∧ crypto_blkdev = crypto_blkdev_of dev)
  ∧ dm_table run.2 !! dm_name_of (plain_cmd dm_name) = Some DmActive.
Proof.
  intros run Hret. subst run.
  pose proof (create_crypto_blk_dev_cases E dm_name nr_sec target_type crypt_params w)
    as Hcases.
  cbv zeta in Hcases.
  destruct Hcases as [[_ Hrun]|[[_ Hrun]|(Hopen & Hfresh & Hrest)]];
    [by rewrite Hrun in Hret..|].
  destruct (dm_create_ok E) eqn:Hcreate.
  2:{ exfalso. revert Hret. unfold create_crypto_blk_dev.
      destruct (dm_ioctl_init DM_CRYPT_BUF_SIZE dm_name) as [io|] eqn:Hinit.
      - assert (Hplain : plain_cmd dm_name = io) by (unfold plain_cmd; by rewrite Hinit).
        rewrite Hplain in Hfresh.
        erewrite bind_run by apply open_run. rewrite Hopen. cbn [negb].
        erewrite bind_run.
        2:{ erewrite bind_run.
            2:{ unfold ioctl, dm_driver. cbn [add_trace dm_table]. rewrite Hfresh, Hcreate.
                reflexivity. }
            reflexivity. }
        rewrite bool_decide_false by done. cbn [negb].
        unfold PLOG. by erewrite bind_run by apply emit_run.
      - erewrite bind_run by apply open_run. rewrite Hopen. cbn [negb].
        erewrite bind_run by reflexivity. cbn [negb].
        unfold PLOG. by erewrite bind_run by apply emit_run. }
  destruct (dm_status_dev E) as [dev|] eqn:Hstatus.
  2:{ exfalso. destruct Hrest as [Hrun|[Hrun|(p & io & Hrun)]];
        [by rewrite Hrun in Hret..|].
      revert Hret. unfold create_crypto_blk_dev.
      destruct (dm_ioctl_init_facts dm_name) as (io0 & Hinit & _).
      assert (Hplain : plain_cmd dm_name = io0) by (unfold plain_cmd; by rewrite Hinit).
      rewrite Hplain in Hfresh. rewrite Hinit.
      erewrite bind_run by apply open_run. rewrite Hopen. cbn [negb].
      erewrite bind_run.
      2:{ erewrite bind_run by (by apply ioctl_create_fresh). reflexivity. }
      rewrite bool_decide_true by done. cbn [negb deref].
      erewrite bind_run.
      2:{ unfold ioctl, dm_driver. cbn [add_trace dm_table]. rewrite lookup_insert_eq, Hstatus.
          reflexivity. }
      cbn beta iota. rewrite decide_True by done.
      unfold PLOG. by erewrite bind_run by apply emit_run. }
  split_and!; try done.
  - exists dev. split; [done|].
    destruct (create_crypto_blk_dev_status_ok E dm_name nr_sec target_type crypt_params w dev
                Hopen Hfresh Hcreate Hstatus) as [Hrun|[io Hrun]];
      [by rewrite Hrun in Hret|].
    rewrite Hrun in Hret.
    destruct (finish_provisioning_spec E dm_name (crypto_blkdev_of dev) io (created dm_name w))
      as (r & w' & t & Hfin & _ & _ & _ & _ & Hr).
    { cbn [created dm_table]. rewrite lookup_insert_eq. by eexists. }
    rewrite Hfin in Hret. cbn [fst] in Hret.
    destruct Hr as [[-> _]|[-> _]]; congruence.
  - destruct (create_crypto_blk_dev_spec E dm_name nr_sec target_type crypt_params w)
      as (r & w' & t & Hrun & _ & _ & _ & _ & _ & _ & Hr).
    rewrite Hrun in Hret |- *. cbn [fst snd] in *. subst r. exact Hr.
Qed.

(** X13. When [create_crypto_blk_dev] returns a device, the device-mapper
    was opened, the name was not registered before and the driver accepted
    the create and the status request; the device is the path built from the
    device number of the status reply, and its mapping is active. *)
Theorem create_crypto_blk_dev_returns_status_device
    (E : collaborators) (dm_name : string) (nr_sec : Z) (target_type : string)
    (crypt_params : KeyBuffer) (w : world) (crypto_blkdev : string) :
  let run := create_crypto_blk_dev E dm_name nr_sec target_type crypt_params w in
  run.1 = Ret (Some crypto_blkdev) →
  open_ok E "/dev/device-mapper" = true
  ∧ dm_table w !! dm_name_of (plain_cmd dm_name) = None
  ∧ dm_create_ok E = true
  ∧ (∃ dev, dm_status_dev E = Some dev ∧ crypto_blkdev = crypto_blkdev_of dev)
  ∧ dm_table run.2 !! dm_name_of (plain_cmd dm_name) = Some DmActive.
Proof. apply create_crypto_blk_dev_some. Qed.

Lemma create_crypto_blk_dev_returns_status_device_witness :
  (Scenario_C4.run Scenario_C4.env_tenth).1 = Ret (Some "/dev/block/dm-3")
  ∧ ∃ dev, dm_status_dev Scenario_C4.env_tenth = Some dev
           ∧ "/dev/block/dm-3" = crypto_blkdev_of dev.
Proof.
  assert (Hret : (Scenario_C4.run Scenario_C4.env_tenth).1 = Ret (Some "/dev/block/dm-3"))
    by (vm_compute; reflexivity).
  split; [exact Hret|].
  exact (proj1 (proj2 (proj2 (proj2
    (create_crypto_blk_dev_returns_status_device Scenario_C4.env_tenth kDmNameUserdata 1000000
       DEFAULT_KEY_TARGET_TYPE Scenario_C4.crypt_params Scenario.boot "/dev/block/dm-3"
       Hret))))).
Defined.

Lemma testbit_small x k n : 0 <= x < 2 ^ k → k <= n → Z.testbit x n = false.
Proof.
  intros Hx Hn. destruct (decide (0 <= k)) as [Hk|Hk].
  - rewrite <- (Z.mod_small x (2 ^ k)) by lia. apply Z.mod_pow2_bits_high. lia.
  - rewrite Z.pow_neg_r in Hx by lia. lia.
Qed.

(** The number in the path: bits 0 to 7 and 20 to 31 of the device number. *)
Lemma minor_bits dev n :
  0 <= n →
  Z.testbit (Z.lor (Z.land (to_u64 dev) 255) (Z.land (Z.shiftr (to_u64 dev) 12) 1048320)) n
  = if decide (n < 8) then Z.testbit dev n
    else if decide (n < 20) then Z.testbit dev (n + 12) else false.
Proof.
  intros Hn. unfold to_u64.
  change 255 with (Z.ones 8). change 1048320 with (Z.shiftl (Z.ones 12) 8).
  rewrite Z.lor_spec, !Z.land_spec, Z.shiftr_spec, Z.shiftl_spec by lia.
  rewrite !Z.testbit_mod_pow2 by lia.
  rewrite (Z.testbit_ones_nonneg 8 n) by lia.
  destruct (decide (n < 8)) as [H8|H8].
  - rewrite (proj2 (Z.ltb_lt n 8)) by lia. rewrite (proj2 (Z.ltb_lt n 64)) by lia.
    rewrite (Z.testbit_neg_r _ (n - 8)) by lia.
    rewrite andb_true_r, andb_false_r, orb_false_r. reflexivity.
  - rewrite (proj2 (Z.ltb_ge n 8)) by lia. rewrite andb_false_r, orb_false_l.
    rewrite (Z.testbit_ones_nonneg 12 (n - 8)) by lia.
    destruct (decide (n < 20)) as [H20|H20].
    + rewrite (proj2 (Z.ltb_lt (n + 12) 64)) by lia.
      rewrite (proj2 (Z.ltb_lt (n - 8) 12)) by lia.
      rewrite andb_true_r. reflexivity.
    + rewrite (proj2 (Z.ltb_ge (n - 8) 12)) by lia. apply andb_false_r.
Qed.

(** X14. The device number of the status reply encodes a major number of 12
    bits and a minor number of 20 bits, as the kernel does for user space:
    [(minor & 0xff) | (major << 8) | ((minor & ~0xff) << 12)].  The path
    that [create_crypto_blk_dev] builds from it names the minor number. *)
Theorem crypto_blkdev_of_names_minor (major minor : Z) :
  0 <= major < 2 ^ 12 → 0 <= minor < 2 ^ 20 →
  crypto_blkdev_of
    (Z.lor (Z.lor (Z.land minor 255) (Z.shiftl major 8))
           (Z.shiftl (Z.land minor (Z.lnot 255)) 12))
  = "/dev/block/dm-" +:+ to_string minor.
Proof.
  intros Hmajor Hminor. unfold crypto_blkdev_of. f_equal. f_equal.
  apply Z.bits_inj'. intros n Hn. rewrite minor_bits by done.
  change 255 with (Z.ones 8).
  destruct (decide (n < 8)) as [H8|H8].
  - rewrite !Z.lor_spec, Z.land_spec, !Z.shiftl_spec by lia.
    rewrite (Z.testbit_ones_nonneg 8 n) by lia.
    rewrite (proj2 (Z.ltb_lt n 8)) by lia.
    rewrite (Z.testbit_neg_r major (n - 8)), (Z.testbit_neg_r _ (n - 12)) by lia.
    by rewrite andb_true_r, !orb_false_r.
  - destruct (decide (n < 20)) as [H20|H20].
    + rewrite !Z.lor_spec, Z.land_spec, !Z.shiftl_spec by lia.
      rewrite Z.land_spec, Z.lnot_spec by lia.
      rewrite !(Z.testbit_ones_nonneg 8) by lia.
      rewrite (proj2 (Z.ltb_ge (n + 12) 8)) by lia.
      rewrite (proj2 (Z.ltb_ge (n + 12 - 12) 8)) by lia.
      rewrite (testbit_small major 12 (n + 12 - 8)) by lia.
      replace (n + 12 - 12) with n by lia.
      cbn [negb]. by rewrite andb_false_r, andb_true_r.
    + symmetry. apply (testbit_small minor 20); lia.
Qed.

Lemma crypto_blkdev_of_names_minor_witness :
  crypto_blkdev_of 65027 = "/dev/block/dm-3".
Proof.
  apply (crypto_blkdev_of_names_minor 254 3); lia.
Defined.

(** ** The steps that the entry points share *)

(** What the shared steps return: the fstab entry, the size of its device
    and the path for the device number of the status reply. *)
Lemma provision_some E create_if_absent w data_rec nr_sec crypto_blkdev :
  (provision E create_if_absent w).1 = Ret (Some (data_rec, nr_sec, crypto_blkdev)) →
  fs_mgr_get_crypt_entry E = Some data_rec
  ∧ nr_sec = to_u64 (get_blkdev_size E (c_str (blk_device data_rec))) ∧ nr_sec ≠ 0
  ∧ ∃ dev, dm_status_dev E = Some dev ∧ crypto_blkdev = crypto_blkdev_of dev.
Proof.
  unfold provision. intros Hret.
  destruct (read_key_only E create_if_absent w) as (k & t1 & Hrun1 & _).
  erewrite bind_run in Hret by exact Hrun1.
  destruct k as [key|]; [|done].
  destruct (fs_mgr_get_crypt_entry E) as [d|] eqn:Hentry.
  2:{ unfold LOG in Hret. by erewrite bind_run in Hret by apply emit_run. }
  destruct (get_number_of_sectors_only E (blk_device d) (add_trace t1 w))
    as (sz & t2 & Hrun2 & _).
  pose proof (get_number_of_sectors_some E (blk_device d) (add_trace t1 w)) as Hsome.
  rewrite Hrun2 in Hsome. cbn [fst] in Hsome.
  erewrite bind_run in Hret by exact Hrun2.
  destruct sz as [n|]; [|done].
  destruct (Hsome n eq_refl) as [Hn Hn0].
  match type of Hret with (((?m ≫= _) _).1 = _) =>
    destruct (default_key_params_only E (blk_device d) key (add_trace t2 (add_trace t1 w)))
      as (params & t3 & Hrun3 & _)
  end.
  erewrite bind_run in Hret by exact Hrun3.
  unfold mbind at 1 in Hret. unfold M_bind at 1 in Hret.
  match type of Hret with context [create_crypto_blk_dev ?a ?b ?c ?d ?e ?f] =>
    pose proof (create_crypto_blk_dev_some a b c d e f) as Hdev;
    destruct (create_crypto_blk_dev a b c d e f) as [[[p|]| |] w4]
  end; try done.
  cbn [fst mret M_ret] in Hret. injection Hret as <- <- <-.
  cbv zeta in Hdev. destruct (Hdev p eq_refl) as (_ & _ & _ & Hp & _).
  by split_and!.
Qed.

Lemma emits_create_crypto_blk_dev P E dm_name nr_sec target_type (crypt_params : KeyBuffer) :
  (∀ e, is_provision_step e = true → P e = true) →
  emits P (create_crypto_blk_dev E dm_name nr_sec target_type crypt_params).
Proof.
  intros HP w.
  destruct (create_crypto_blk_dev_spec E dm_name nr_sec target_type crypt_params w)
    as (r & w' & t & Hrun & _ & _ & Htr & Ht & _).
  exists t. rewrite Hrun. split; [done|]. eapply Forall_impl; [exact Ht|]. exact HP.
Qed.

Lemma emits_same {A} (P : event → bool) (m : M A) : only P m → emits P m.
Proof. apply emits_only. done. Qed.

(** The shared steps ask for the key with the flag of their caller. *)
Lemma provision_calls E create_if_absent :
  emits (provision_call create_if_absent) (provision E create_if_absent).
Proof.
  unfold provision. apply emits_bind.
  { apply emits_same. unfold read_key, mkdir, LOG, PLOG.
    destruct create_if_absent; repeat only_step. }
  intros [key|]; [|apply emits_ret].
  destruct (fs_mgr_get_crypt_entry E) as [d|].
  2:{ unfold LOG. apply emits_bind; [by apply emits_emit|intros ?; apply emits_ret]. }
  apply emits_bind.
  { apply emits_same. unfold get_number_of_sectors, open, LOG, PLOG. repeat only_step. }
  intros [n|]; [|apply emits_ret].
  apply emits_bind.
  { apply emits_same. unfold default_key_params, LOG. repeat only_step. }
  intros params. apply emits_bind.
  { apply emits_create_crypto_blk_dev. intros [| |[] | | | | | | | |]; done. }
  intros [p|]; apply emits_ret.
Qed.

(** The mount of [mount_via_fs_mgr] is the one it was asked for. *)
Lemma mount_via_fs_mgr_args E mount_point blk_device w :
  ∃ b tm, mount_via_fs_mgr E mount_point blk_device w = (Ret b, add_trace tm w)
    ∧ Forall (λ e, is_mount e = true) tm
    ∧ ∀ mp dev rc, In (EvFsMgrDoMount mp dev rc) tm → mp = mount_point ∧ dev = blk_device.
Proof.
  unfold mount_via_fs_mgr, setexeccon, fs_mgr_do_mount, LOG, PLOG.
  erewrite bind_run by (erewrite bind_run by apply emit_run; reflexivity).
  destruct (decide (setexeccon_rc E (Some (secontextFsck E)) ≠ 0)) as [Hctx|Hctx].
  { erewrite bind_run by apply emit_run. rewrite add_trace_add_trace.
    eexists _, _. split; [reflexivity|]. split; [by repeat constructor|].
    cbn [app In]. intros; intuition congruence. }
  erewrite bind_run by (erewrite bind_run by apply emit_run; reflexivity).
  erewrite bind_run by (erewrite bind_run by apply emit_run; reflexivity).
  rewrite !add_trace_add_trace.
  destruct (decide (setexeccon_rc E None ≠ 0)) as [Hclear|Hclear].
  { erewrite bind_run by apply emit_run. rewrite add_trace_add_trace.
    eexists _, _. split; [reflexivity|]. split; [by repeat constructor|].
    cbn [app In]. intros; intuition congruence. }
  destruct (decide (fs_mgr_do_mount_rc E mount_point blk_device ≠ 0)) as [Hrc|Hrc].
  { erewrite bind_run by apply emit_run. rewrite add_trace_add_trace.
    eexists _, _. split; [reflexivity|]. split; [by repeat constructor|].
    cbn [app In]. intros; intuition congruence. }
  erewrite bind_run by apply emit_run. rewrite add_trace_add_trace.
  eexists _, _. split; [reflexivity|]. split; [by repeat constructor|].
  cbn [app In]. intros; intuition congruence.
Qed.

Ltac in_list := repeat first [rewrite in_app_iff | progress cbn [In]]; intuition auto.
Ltac last_list := repeat first [rewrite last_app | rewrite last_cons]; reflexivity.

Lemma provision_trace E create_if_absent w :
  ∃ r w' tp,
    provision E create_if_absent w = (r, w')
    ∧ props w' = props w ∧ trace w' = trace w ++ tp
    ∧ Forall (λ e, provision_call create_if_absent e = true) tp
    ∧ r ≠ OutOfFuel.
Proof.
  destruct (provision_spec E create_if_absent w)
    as (r & w' & t & Hrun & Hprops & _ & Htr & _ & Hfuel & _).
  destruct (provision_calls E create_if_absent w) as (t' & Htr' & Ht').
  rewrite Hrun in Htr'. cbn [snd] in Htr'. rewrite Htr in Htr'.
  apply app_inv_head in Htr'. subst t'. by exists r, w', t.
Qed.

Lemma mount_tail_some E data_rec nr_sec crypto_blkdev w :
  ∃ tm, mount_tail E (Some (data_rec, nr_sec, crypto_blkdev)) w
        = (Ret true,
           add_trace ([EvLog DEBUG false "Restarting filesystem for metadata encryption"]
                      ++ tm ++ [EvThreadDetach "async_kick_off"]) w)
        ∧ Forall (λ e, is_mount e = true) tm
        ∧ ∀ mp dev rc, In (EvFsMgrDoMount mp dev rc) tm →
                       mp = mount_point data_rec ∧ dev = c_str crypto_blkdev.
Proof.
  cbn [mount_tail]. unfold LOG, detach_async_kick_off.
  erewrite bind_run by apply emit_run.
  destruct (mount_via_fs_mgr_args E (mount_point data_rec) (c_str crypto_blkdev)
              (add_trace [EvLog DEBUG false "Restarting filesystem for metadata encryption"] w))
    as (b & tm & Hrun & Htm & Hargs).
  erewrite bind_run by exact Hrun. erewrite bind_run by apply emit_run.
  exists tm. rewrite !add_trace_add_trace. split; [|done].
  unfold mret, M_ret. rewrite <- ?app_assoc. reflexivity.
Qed.

(** X15. [e4crypt_mount_metadata_encrypted] writes no property, does not
    encrypt in place and never asks for a new key; it starts the restart
    thread exactly when it returns [true], as the last thing it does. *)
Theorem mount_metadata_encrypted_calls (E : collaborators) (w : world) :
  let run := e4crypt_mount_metadata_encrypted E w in
  let t := new_events w run.2 in
  props run.2 = props w
  ∧ (∀ key value, ¬ In (EvPropertySet key value) t)
  ∧ (∀ crypto_blkdev real_blkdev size rc size_already_done,
       ¬ In (EvEnableInplace crypto_blkdev real_blkdev size rc size_already_done) t)
  ∧ (∀ c dir temp ok, In (EvRetrieveKey c dir temp ok) t → c = false)
  ∧ (run.1 = Ret true ↔ In (EvThreadDetach "async_kick_off") t)
  ∧ (run.1 = Ret true → last t = Some (EvThreadDetach "async_kick_off")).
Proof.
  intros run t. subst run t.
  destruct (e4crypt_mount_metadata_encrypted E w) as [res wf] eqn:Hrun. cbn [fst snd].
  rewrite e4crypt_mount_metadata_encrypted_provision in Hrun.
  unfold LOG at 1 in Hrun. erewrite bind_run in Hrun by apply emit_run.
  destruct (provision_trace E false
              (add_trace [EvLog DEBUG false "e4crypt_mount_default_encrypted"] w))
    as (r & w1 & tp & Hrun1 & Hprops1 & Htrace1 & Hcalls & Hfuel).
  cbn [add_trace trace props] in Htrace1, Hprops1.
  unfold mbind at 1 in Hrun. unfold M_bind at 1 in Hrun. rewrite Hrun1 in Hrun.
  assert (Hkey : ∀ c dir temp ok, In (EvRetrieveKey c dir temp ok) tp → c = false).
  { intros c dir temp ok Hin. apply (Forall_In _ _ _ Hcalls) in Hin.
    cbn in Hin. by apply bool_decide_eq_true in Hin. }
  assert (Hno_set : ∀ key value, ¬ In (EvPropertySet key value) tp).
  { intros key value Hin. by apply (Forall_In _ _ _ Hcalls) in Hin. }
  assert (Hno_enc : ∀ c b n rc d, ¬ In (EvEnableInplace c b n rc d) tp).
  { intros c b n rc d Hin. by apply (Forall_In _ _ _ Hcalls) in Hin. }
  assert (Hno_thread : ∀ entry, ¬ In (EvThreadDetach entry) tp).
  { intros entry Hin. by apply (Forall_In _ _ _ Hcalls) in Hin. }
  destruct r as [[[[d n] p]|]| |]; [| | |done].
  - destruct (mount_tail_some E d n p w1) as (tm & Hrunm & Htm & _).
    rewrite Hrunm in Hrun. injection Hrun as <- <-.
    erewrite new_events_app.
    2:{ cbn [add_trace trace]. rewrite Htrace1, <- !app_assoc. reflexivity. }
    cbn [add_trace props]. split_and!.
    + done.
    + intros key value Hin. split_in Hin; try discriminate.
      * by apply Hno_set in Hin.
      * by apply (Forall_In _ _ _ Htm) in Hin.
    + intros c b sz rc dn Hin. split_in Hin; try discriminate.
      * by apply Hno_enc in Hin.
      * by apply (Forall_In _ _ _ Htm) in Hin.
    + intros c dir temp ok Hin. split_in Hin; try discriminate.
      * by apply Hkey in Hin.
      * by apply (Forall_In _ _ _ Htm) in Hin.
    + split; [|done]. intros _. in_list.
    + intros _. last_list.
  - cbn [mount_tail mret M_ret] in Hrun. injection Hrun as <- <-.
    erewrite new_events_app by (rewrite Htrace1, <- !app_assoc; reflexivity).
    split_and!; try done.
    + intros key value Hin. split_in Hin; try discriminate. by apply Hno_set in Hin.
    + intros c b sz rc dn Hin. split_in Hin; try discriminate. by apply Hno_enc in Hin.
    + intros c dir temp ok Hin. split_in Hin; try discriminate. by apply Hkey in Hin.
    + split; [done|]. intros Hin. split_in Hin; try discriminate. by apply Hno_thread in Hin.
  - injection Hrun as <- <-.
    erewrite new_events_app by (rewrite Htrace1, <- !app_assoc; reflexivity).
    split_and!; try done.
    + intros key value Hin. split_in Hin; try discriminate. by apply Hno_set in Hin.
    + intros c b sz rc dn Hin. split_in Hin; try discriminate. by apply Hno_enc in Hin.
    + intros c dir temp ok Hin. split_in Hin; try discriminate. by apply Hkey in Hin.
    + split; [done|]. intros Hin. split_in Hin; try discriminate. by apply Hno_thread in Hin.
Qed.

Lemma mount_metadata_encrypted_calls_witness :
  let run := e4crypt_mount_metadata_encrypted (Scenario.env (λ _, true) true 1000000)
               Scenario.boot in
  run.1 = Ret true ∧ last (new_events Scenario.boot run.2)
                     = Some (EvThreadDetach "async_kick_off").
Proof.
  pose proof (mount_metadata_encrypted_calls (Scenario.env (λ _, true) true 1000000)
                Scenario.boot) as Hcalls.
  cbv zeta in Hcalls. destruct Hcalls as (_ & _ & _ & _ & _ & Hlast).
  assert (Hret : (e4crypt_mount_metadata_encrypted (Scenario.env (λ _, true) true 1000000)
                    Scenario.boot).1 = Ret true) by (vm_compute; reflexivity).
  split; [exact Hret|exact (Hlast Hret)].
Defined.

(** The two ways [e4crypt_enable_crypto] goes on after the shared steps. *)
Lemma enable_tail_some E data_rec nr_sec crypto_blkdev rc size_already_done w :
  cryptfs_enable_inplace E (c_str crypto_blkdev) (blk_device data_rec)
    (off64_t_of nr_sec) (off64_t_of nr_sec) 0
  = (rc, size_already_done) →
  let begin := [EvLog INFO false ("Beginning inplace encryption, nr_sec: "
                                  +:+ to_string nr_sec);
                EvEnableInplace (c_str crypto_blkdev) (blk_device data_rec)
                  (off64_t_of nr_sec) rc size_already_done] in
  let run := enable_tail E (Some (data_rec, nr_sec, crypto_blkdev)) w in
  ((rc ≠ 0 ∨ to_u64 size_already_done ≠ nr_sec)
   ∧ ∃ msg, run = (Ret false, add_trace (begin ++ [EvLog ERROR false msg]) w))
  ∨ (rc = 0 ∧ to_u64 size_already_done = nr_sec
     ∧ ∃ tm, Forall (λ e, is_mount e = true) tm
         ∧ (∀ mp dev rc', In (EvFsMgrDoMount mp dev rc') tm →
                          mp = mount_point data_rec ∧ dev = c_str crypto_blkdev)
         ∧ run = (Ret true,
                  World (encrypted_props (props w)) (dm_table w) (load_calls w)
                    (trace w ++ begin
                       ++ [EvLog INFO false "Inplace encryption complete";
                           EvPropertySet "ro.crypto.state" "encrypted";
                           EvPropertySet "ro.crypto.type" "file"]
                       ++ tm
                       ++ [EvPropertySet "vold.decrypt" "trigger_reset_main";
                           EvThreadDetach "async_kick_off"]))).
Proof.
  intros Hinplace begin run. subst begin run.
  cbn [enable_tail]. unfold LOG, run_cryptfs_enable_inplace, detach_async_kick_off.
  rewrite Hinplace.
  erewrite bind_run by apply emit_run.
  erewrite bind_run by (erewrite bind_run by apply emit_run; reflexivity).
  rewrite add_trace_add_trace. cbn beta iota.
  destruct (decide (rc ≠ 0)) as [Hrc|Hrc].
  { left. split; [by left|]. eexists.
    erewrite bind_run by apply emit_run. rewrite add_trace_add_trace. reflexivity. }
  apply dec_stable in Hrc.
  destruct (decide (to_u64 size_already_done ≠ nr_sec)) as [Hsize|Hsize].
  { left. split; [by right|]. eexists.
    erewrite bind_run by apply emit_run. rewrite add_trace_add_trace. reflexivity. }
  apply dec_stable in Hsize. right. split; [done|]. split; [done|].
  erewrite bind_run by apply emit_run. rewrite add_trace_add_trace.
  erewrite bind_run by apply property_set_run.
  erewrite bind_run by apply property_set_run.
  match goal with |- context [mount_via_fs_mgr E ?mp ?dev ≫= _] =>
    match goal with |- context [(_ ≫= _) ?w0] =>
      destruct (mount_via_fs_mgr_args E mp dev w0) as (b & tm & Hrun & Htm & Hargs)
    end
  end.
  erewrite bind_run by exact Hrun.
  erewrite bind_run by apply property_set_run.
  erewrite bind_run by apply emit_run.
  exists tm. split; [done|]. split; [done|]. unfold mret, M_ret, add_trace, encrypted_props.
  cbn [props dm_table load_calls trace]. rewrite <- ?app_assoc. reflexivity.
Qed.

(** The runs of [e4crypt_enable_crypto]: the unexpected state, a failure of
    the shared steps, a failed or partial transform, and the success. *)
Lemma e4crypt_enable_crypto_runs E w :
  let run := e4crypt_enable_crypto E w in
  let t := new_events w run.2 in
  let log0 := EvLog DEBUG false "e4crypt_enable_crypto" in
  (∃ msg, run.1 = Ret false ∧ t = [log0; EvLog DEBUG false msg])
  ∨ ∃ tp, Forall (λ e, provision_call true e = true) tp
      ∧ ((run.1 ≠ Ret true ∧ t = [log0] ++ tp)
         ∨ ∃ data_rec nr_sec crypto_blkdev rc size_already_done,
             (provision E true (add_trace [log0] w)).1
             = Ret (Some (data_rec, nr_sec, crypto_blkdev))
             ∧ cryptfs_enable_inplace E (c_str crypto_blkdev) (blk_device data_rec)
                 (off64_t_of nr_sec) (off64_t_of nr_sec) 0 = (rc, size_already_done)
             ∧ let begin :=
                 [EvLog INFO false ("Beginning inplace encryption, nr_sec: "
                                    +:+ to_string nr_sec);
                  EvEnableInplace (c_str crypto_blkdev) (blk_device data_rec)
                    (off64_t_of nr_sec) rc size_already_done] in
               (run.1 = Ret false ∧ (rc ≠ 0 ∨ to_u64 size_already_done ≠ nr_sec)
                ∧ ∃ msg, t = [log0] ++ tp ++ begin ++ [EvLog ERROR false msg])
               ∨ (run.1 = Ret true ∧ rc = 0 ∧ to_u64 size_already_done = nr_sec
                  ∧ ∃ tm, Forall (λ e, is_mount e = true) tm
                      ∧ (∀ mp dev rc', In (EvFsMgrDoMount mp dev rc') tm →
                           mp = mount_point data_rec ∧ dev = c_str crypto_blkdev)
                      ∧ t = [log0] ++ tp ++ begin
                            ++ [EvLog INFO false "Inplace encryption complete";
                                EvPropertySet "ro.crypto.state" "encrypted";
                                EvPropertySet "ro.crypto.type" "file"]
                            ++ tm
                            ++ [EvPropertySet "vold.decrypt" "trigger_reset_main";
                                EvThreadDetach "async_kick_off"])).
Proof.
  intros run t log0. subst run t log0.
  destruct (e4crypt_enable_crypto E w) as [res wf] eqn:Hrun. cbn [fst snd].
  rewrite e4crypt_enable_crypto_provision in Hrun.
  unfold LOG at 1 in Hrun. erewrite bind_run in Hrun by apply emit_run.
  erewrite bind_run in Hrun by reflexivity.
  match type of Hrun with context [strcmp_ne ?s ""] => destruct (strcmp_ne s "") end.
  { left. unfold LOG in Hrun. erewrite bind_run in Hrun by apply emit_run.
    rewrite add_trace_add_trace in Hrun. injection Hrun as <- <-.
    rewrite new_events_add_trace. by eexists. }
  right.
  destruct (provision_trace E true (add_trace [EvLog DEBUG false "e4crypt_enable_crypto"] w))
    as (r & w1 & tp & Hrun1 & Hprops1 & Htrace1 & Hcalls & Hfuel).
  cbn [add_trace trace props] in Htrace1, Hprops1.
  exists tp. split; [done|].
  unfold mbind at 1 in Hrun. unfold M_bind at 1 in Hrun. rewrite Hrun1 in Hrun.
  destruct r as [[[[d n] p]|]| |]; [| | |done].
  - right.
    destruct (cryptfs_enable_inplace E (c_str p) (blk_device d) (off64_t_of n)
                (off64_t_of n) 0) as [rc dn] eqn:Hinplace.
    exists d, n, p, rc, dn. split; [by rewrite Hrun1|]. split; [done|]. cbv zeta.
    pose proof (enable_tail_some E d n p rc dn w1 Hinplace) as Htail. cbv zeta in Htail.
    destruct Htail as [(Hfail & msg & Htail)|(Hrc & Hsize & tm & Htm & Hargs & Htail)];
      rewrite Htail in Hrun; injection Hrun as <- <-.
    + left. split; [done|]. split; [done|]. exists msg.
      apply new_events_app. cbn [add_trace trace]. rewrite Htrace1, <- !app_assoc.
      reflexivity.
    + right. split_and!; try done. exists tm. split; [done|]. split; [done|].
      apply new_events_app. cbn [trace]. rewrite Htrace1, <- !app_assoc. reflexivity.
  - left. cbn [enable_tail mret M_ret] in Hrun. injection Hrun as <- <-.
    split; [done|]. apply new_events_app. rewrite Htrace1, <- !app_assoc. reflexivity.
  - left. injection Hrun as <- <-.
    split; [done|]. apply new_events_app. rewrite Htrace1, <- !app_assoc. reflexivity.
Qed.

Lemma provision_call_facts tp :
  Forall (λ e, provision_call true e = true) tp →
  (∀ c dir temp ok, In (EvRetrieveKey c dir temp ok) tp → c = true)
  ∧ Forall (λ e, is_signal e = false) tp
  ∧ Forall (λ e, is_inplace e = false) tp.
Proof.
  intros Hcalls. split_and!.
  - intros c dir temp ok Hin. apply (Forall_In _ _ _ Hcalls) in Hin.
    cbn in Hin. by apply bool_decide_eq_true in Hin.
  - eapply Forall_impl; [exact Hcalls|]. by intros [].
  - eapply Forall_impl; [exact Hcalls|]. by intros [].
Qed.

Lemma is_mount_not_signal e : is_mount e = true → is_signal e = false.
Proof. by destruct e. Qed.

(** X16. [e4crypt_enable_crypto] asks for the key with [create_if_absent]
    set, and starts the restart thread exactly when it returns [true].  A run
    that returns [true] ends with: the record of the complete encryption,
    [ro.crypto.state] and [ro.crypto.type], the mount, [vold.decrypt], the
    thread; nothing is signalled before. *)
Theorem enable_crypto_success_order (E : collaborators) (w : world) :
  let run := e4crypt_enable_crypto E w in
  let t := new_events w run.2 in
  (∀ c dir temp ok, In (EvRetrieveKey c dir temp ok) t → c = true)
  ∧ (run.1 = Ret true ↔ In (EvThreadDetach "async_kick_off") t)
  ∧ (run.1 = Ret true →
     ∃ pre tm,
       t = pre ++ [EvLog INFO false "Inplace encryption complete";
                   EvPropertySet "ro.crypto.state" "encrypted";
                   EvPropertySet "ro.crypto.type" "file"]
               ++ tm
               ++ [EvPropertySet "vold.decrypt" "trigger_reset_main";
                   EvThreadDetach "async_kick_off"]
       ∧ Forall (λ e, is_signal e = false) pre
       ∧ Forall (λ e, is_mount e = true) tm).
Proof.
  pose proof (e4crypt_enable_crypto_runs E w) as Hruns. cbv zeta in *.
  destruct Hruns as [(msg & Hret & Ht)|(tp & Hcalls & Hruns)].
  { rewrite Hret, Ht. split_and!.
    - intros c dir temp ok Hin. split_in Hin; discriminate.
    - split; [done|]. intros Hin. split_in Hin; discriminate.
    - done. }
  destruct (provision_call_facts tp Hcalls) as (Hkey & Hquiet & _).
  destruct Hruns as [[Hret Ht]|(d & n & p & rc & dn & _ & _ & Hruns)].
  { rewrite Ht. split_and!.
    - intros c dir temp ok Hin. split_in Hin; try discriminate. by apply Hkey in Hin.
    - split; [done|]. intros Hin. split_in Hin; try discriminate.
      by apply (Forall_In _ _ _ Hquiet) in Hin.
    - done. }
  cbv zeta in Hruns.
  destruct Hruns as [(Hret & _ & msg & Ht)|(Hret & _ & _ & tm & Htm & _ & Ht)];
    rewrite Hret, Ht.
  - split_and!.
    + intros c dir temp ok Hin. split_in Hin; try discriminate. by apply Hkey in Hin.
    + split; [done|]. intros Hin. split_in Hin; try discriminate.
      by apply (Forall_In _ _ _ Hquiet) in Hin.
    + done.
  - split_and!.
    + intros c dir temp ok Hin. split_in Hin; try discriminate.
      * by apply Hkey in Hin.
      * by apply (Forall_In _ _ _ Htm) in Hin.
    + split; [|done]. intros _. in_list.
    + intros _.
      exists ([EvLog DEBUG false "e4crypt_enable_crypto"] ++ tp ++
              [EvLog INFO false ("Beginning inplace encryption, nr_sec: " +:+ to_string n);
               EvEnableInplace (c_str p) (blk_device d) (off64_t_of n) rc dn]), tm.
      split; [rewrite <- !app_assoc; reflexivity|].
      split; [|done]. repeat (apply Forall_app; split); try done; by repeat constructor.
Qed.

Lemma enable_crypto_success_order_witness :
  let run := e4crypt_enable_crypto (Scenario.env (λ _, true) true 1000000) Scenario.boot in
  run.1 = Ret true ∧ In (EvThreadDetach "async_kick_off") (new_events Scenario.boot run.2).
Proof.
  pose proof (enable_crypto_success_order (Scenario.env (λ _, true) true 1000000)
                Scenario.boot) as Horder.
  cbv zeta in Horder. destruct Horder as (_ & Hthread & _).
  assert (Hret : (e4crypt_enable_crypto (Scenario.env (λ _, true) true 1000000)
                    Scenario.boot).1 = Ret true) by (vm_compute; reflexivity).
  split; [exact Hret|]. apply Hthread. exact Hret.
Defined.

(** X17. [e4crypt_enable_crypto] calls [cryptfs_enable_inplace] at most
    once, from the device of the fstab entry to the path of the mapped
    device.  The size and the total size that the callee receives are the
    number of sectors of the device converted to [off64_t]: the number
    itself below 2^63 sectors, a negative number from there on. *)
Theorem enable_crypto_encrypts_whole_device (E : collaborators) (w : world) :
  let t := new_events w (e4crypt_enable_crypto E w).2 in
  (count is_inplace t ≤ 1)%nat
  ∧ ∀ crypto_blkdev real_blkdev size rc size_already_done,
      In (EvEnableInplace crypto_blkdev real_blkdev size rc size_already_done) t →
      ∃ data_rec dev nr_sec,
        fs_mgr_get_crypt_entry E = Some data_rec
        ∧ real_blkdev = blk_device data_rec
        ∧ nr_sec = to_u64 (get_blkdev_size E (c_str real_blkdev)) ∧ nr_sec ≠ 0
        ∧ size = off64_t_of nr_sec
        ∧ (nr_sec < 2 ^ 63 → size = nr_sec)
        ∧ (2 ^ 63 <= nr_sec → size = nr_sec - 2 ^ 64)
        ∧ dm_status_dev E = Some dev
        ∧ crypto_blkdev = c_str (crypto_blkdev_of dev)
        ∧ cryptfs_enable_inplace E crypto_blkdev real_blkdev size size 0
          = (rc, size_already_done).
Proof.
  pose proof (e4crypt_enable_crypto_runs E w) as Hruns. cbv zeta in *.
  destruct Hruns as [(msg & _ & Ht)|(tp & Hcalls & Hruns)].
  { rewrite Ht. split; [cbn; lia|]. intros c b sz rc dn Hin. split_in Hin; discriminate. }
  destruct (provision_call_facts tp Hcalls) as (_ & _ & Hno).
  assert (Hcount : count is_inplace tp = 0%nat).
  { unfold count. clear -Hno. induction Hno as [|e l He _ IH]; [done|].
    cbn [List.filter]. by rewrite He. }
  destruct Hruns as [[_ Ht]|(d & n & p & rc & dn & Hprov & Hinplace & Hruns)].
  { rewrite Ht. split.
    - rewrite count_app, Hcount. cbn. lia.
    - intros c b sz rc dn Hin. split_in Hin; try discriminate.
      by apply (Forall_In _ _ _ Hno) in Hin. }
  apply provision_some in Hprov. destruct Hprov as (Hentry & Hn & Hn0 & dev & Hdev & ->).
  assert (Hargs : ∀ c b sz rc' dn',
            EvEnableInplace (c_str (crypto_blkdev_of dev)) (blk_device d) (off64_t_of n)
              rc dn
            = EvEnableInplace c b sz rc' dn' →
            ∃ data_rec dev0 nr_sec,
              fs_mgr_get_crypt_entry E = Some data_rec ∧ b = blk_device data_rec
              ∧ nr_sec = to_u64 (get_blkdev_size E (c_str b)) ∧ nr_sec ≠ 0
              ∧ sz = off64_t_of nr_sec
              ∧ (nr_sec < 2 ^ 63 → sz = nr_sec)
              ∧ (2 ^ 63 <= nr_sec → sz = nr_sec - 2 ^ 64)
              ∧ dm_status_dev E = Some dev0 ∧ c = c_str (crypto_blkdev_of dev0)
              ∧ cryptfs_enable_inplace E c b sz sz 0 = (rc', dn')).
  { intros c b sz rc' dn' [= <- <- <- <- <-].
    assert (Hrange : 0 <= n < 2 ^ 64).
    { rewrite Hn. unfold to_u64. apply Z.mod_pos_bound. lia. }
    exists d, dev, n. split_and!; try done.
    - intros Hsmall. apply off64_t_of_small. lia.
    - intros Hlarge. apply off64_t_of_large. lia. }
  cbv zeta in Hruns.
  destruct Hruns as [(_ & _ & msg & Ht)|(_ & _ & _ & tm & Htm & _ & Ht)]; rewrite Ht.
  - split.
    + rewrite !count_app, Hcount. cbn. lia.
    + intros c b sz rc' dn' Hin. split_in Hin; try discriminate.
      * by apply (Forall_In _ _ _ Hno) in Hin.
      * by apply Hargs.
  - assert (Hcountm : count is_inplace tm = 0%nat).
    { unfold count. clear -Htm. induction Htm as [|e l He _ IH]; [done|].
      cbn [List.filter]. apply is_mount_not_inplace in He. by rewrite He. }
    split.
    + rewrite !count_app, Hcount, Hcountm. cbn. lia.
    + intros c b sz rc' dn' Hin. split_in Hin; try discriminate.
      * by apply (Forall_In _ _ _ Hno) in Hin.
      * by apply Hargs.
      * apply (Forall_In _ _ _ Htm) in Hin. done.
Qed.

Lemma enable_crypto_encrypts_whole_device_witness :
  In (EvEnableInplace "/dev/block/dm-3" "/dev/block/sda9" 1000000 0 1000000)
     (new_events Scenario.boot
        (e4crypt_enable_crypto (Scenario.env (λ _, true) true 1000000) Scenario.boot).2)
  ∧ ∃ data_rec dev,
      fs_mgr_get_crypt_entry (Scenario.env (λ _, true) true 1000000) = Some data_rec
      ∧ "/dev/block/sda9" = blk_device data_rec
      ∧ dm_status_dev (Scenario.env (λ _, true) true 1000000) = Some dev
      ∧ "/dev/block/dm-3" = c_str (crypto_blkdev_of dev).
Proof.
  assert (Hin : In (EvEnableInplace "/dev/block/dm-3" "/dev/block/sda9" 1000000 0 1000000)
     (new_events Scenario.boot
        (e4crypt_enable_crypto (Scenario.env (λ _, true) true 1000000) Scenario.boot).2))
    by find_in.
  split; [exact Hin|].
  destruct (proj2 (enable_crypto_encrypts_whole_device
                     (Scenario.env (λ _, true) true 1000000) Scenario.boot) _ _ _ _ _ Hin)
    as (data_rec & dev & nr_sec & Hentry & Hreal & _ & _ & _ & _ & _ & Hdev & Hpath & _).
  exists data_rec, dev.
  split; [exact Hentry|]. split; [exact Hreal|]. split; [exact Hdev|exact Hpath].
Defined.





Lemma read_key_none E create_if_absent w :
  (∀ dir temp, retrieveKey E create_if_absent dir temp = None) →
  ∃ t, read_key E create_if_absent w = (Ret None, add_trace t w)
       ∧ Forall (λ e, is_key_step e = true) t.
Proof.
  intros Hnone.
  pose proof (read_key_runs E create_if_absent w) as Hruns. cbv zeta in Hruns.
  destruct Hruns as [[_ ->]|[(data_rec & _ & _ & ->)
    |[(data_rec & dir & _ & _ & _ & _ & ->)
     |(data_rec & dir & made & _ & _ & Hmade & ->)]]].
  - eexists. split; [reflexivity|]. by repeat constructor.
  - eexists. split; [reflexivity|]. by repeat constructor.
  - eexists. split; [reflexivity|]. by repeat constructor.
  - rewrite Hnone. eexists. split; [reflexivity|].
    destruct Hmade as [[_ ->]|(_ & _ & ->)]; by repeat constructor.
Qed.

(** X19. Without a key, both entry points return [false] after [read_key]:
    they open no device, send no command to the device-mapper, mount nothing
    and leave the mappings and the properties as they are. *)
Theorem no_key_no_mapping (E : collaborators) (w : world) :
  (∀ c dir temp, retrieveKey E c dir temp = None) →
  let mount := e4crypt_mount_metadata_encrypted E w in
  let enable := e4crypt_enable_crypto E w in
  (mount.1 = Ret false ∧ enable.1 = Ret false)
  ∧ (dm_table mount.2 = dm_table w ∧ dm_table enable.2 = dm_table w)
  ∧ (props mount.2 = props w ∧ props enable.2 = props w)
  ∧ Forall (λ e, is_key_step e = true) (new_events w mount.2)
  ∧ Forall (λ e, is_key_step e = true) (new_events w enable.2).
Proof.
  intros Hnone mount enable. subst mount enable.
  assert (Hmount : ∃ t, e4crypt_mount_metadata_encrypted E w = (Ret false, add_trace t w)
                        ∧ Forall (λ e, is_key_step e = true) t).
  { unfold e4crypt_mount_metadata_encrypted, LOG.
    erewrite bind_run by apply emit_run.
    destruct (read_key_none E false
                (add_trace [EvLog DEBUG false "e4crypt_mount_default_encrypted"] w)
                (Hnone false)) as (t & Hrun & Ht).
    erewrite bind_run by exact Hrun. rewrite add_trace_add_trace.
    eexists. split; [reflexivity|]. apply Forall_app. split; [by repeat constructor|done]. }
  assert (Henable : ∃ t, e4crypt_enable_crypto E w = (Ret false, add_trace t w)
                         ∧ Forall (λ e, is_key_step e = true) t).
  { unfold e4crypt_enable_crypto, LOG.
    erewrite bind_run by apply emit_run.
    erewrite bind_run by reflexivity.
    match goal with |- context [strcmp_ne ?s ""] => destruct (strcmp_ne s "") end.
    - erewrite bind_run by apply emit_run. rewrite add_trace_add_trace.
      eexists. split; [reflexivity|]. by repeat constructor.
    - destruct (read_key_none E true
                  (add_trace [EvLog DEBUG false "e4crypt_enable_crypto"] w)
                  (Hnone true)) as (t & Hrun & Ht).
      erewrite bind_run by exact Hrun. rewrite add_trace_add_trace.
      eexists. split; [reflexivity|]. apply Forall_app. split; [by repeat constructor|done]. }
  destruct Hmount as (tm & -> & Htm). destruct Henable as (te & -> & Hte).
  cbn [fst snd]. rewrite !new_events_add_trace. by split_and!.
Qed.

Lemma no_key_no_mapping_witness :
  let E := with_key_missing (Scenario.env (λ _, true) true 1000000) in
  (e4crypt_mount_metadata_encrypted E Scenario.boot).1 = Ret false
  ∧ (e4crypt_enable_crypto E Scenario.boot).1 = Ret false.
Proof.
  destruct (no_key_no_mapping (with_key_missing (Scenario.env (λ _, true) true 1000000))
              Scenario.boot) as (Hret & _).
  - reflexivity.
  - exact Hret.
Defined.

(** ** The mount after the mapping is established *)

(** The run of [mount_via_fs_mgr], by the answers of its collaborators. *)
Lemma mount_via_fs_mgr_run E mount_point blk_device w :
  let con := Some (secontextFsck E) in
  let mount_rc := fs_mgr_do_mount_rc E mount_point blk_device in
  let clear_rc := setexeccon_rc E None in
  ∃ b tm,
    mount_via_fs_mgr E mount_point blk_device w = (Ret b, add_trace tm w)
    ∧ ((setexeccon_rc E con ≠ 0
        ∧ tm = [EvSetexeccon con (setexeccon_rc E con);
                EvLog ERROR true "Failed to setexeccon"])
       ∨ (setexeccon_rc E con = 0
          ∧ tm = [EvSetexeccon con 0;
                  EvFsMgrDoMount mount_point blk_device mount_rc;
                  EvSetexeccon None clear_rc;
                  if decide (clear_rc ≠ 0) then EvLog ERROR true "Failed to clear setexeccon"
                  else if decide (mount_rc ≠ 0) then
                    EvLog ERROR false
                      ("fs_mgr_do_mount failed with rc " +:+ to_string mount_rc)
                  else EvLog DEBUG false ("Mounted " +:+ mount_point)])).
Proof.
  cbv zeta. unfold mount_via_fs_mgr, setexeccon, fs_mgr_do_mount, LOG, PLOG.
  erewrite bind_run by (erewrite bind_run by apply emit_run; reflexivity).
  destruct (decide (setexeccon_rc E (Some (secontextFsck E)) ≠ 0)) as [Hctx|Hctx].
  { erewrite bind_run by apply emit_run. rewrite add_trace_add_trace.
    eexists _, _. split; [reflexivity|]. left. by split. }
  apply dec_stable in Hctx. rewrite Hctx.
  erewrite bind_run by (erewrite bind_run by apply emit_run; reflexivity).
  erewrite bind_run by (erewrite bind_run by apply emit_run; reflexivity).
  rewrite !add_trace_add_trace.
  destruct (decide (setexeccon_rc E None ≠ 0)) as [Hclear|Hclear].
  { erewrite bind_run by apply emit_run. rewrite add_trace_add_trace.
    eexists _, _. split; [reflexivity|]. right. by split. }
  destruct (decide (fs_mgr_do_mount_rc E mount_point blk_device ≠ 0)) as [Hrc|Hrc].
  { erewrite bind_run by apply emit_run. rewrite add_trace_add_trace.
    eexists _, _. split; [reflexivity|]. right. by split. }
  erewrite bind_run by apply emit_run. rewrite add_trace_add_trace.
  eexists _, _. split; [reflexivity|]. right. by split.
Qed.

(** C8 does not hold: [fs_mgr_do_mount] returns 5 and [setexeccon(nullptr)]
    returns -1.  [e4crypt_mount_metadata_encrypted] returns [true] with the
    mapping active, but the failure of the mount is in no record of the log:
    the one ERROR record is "Failed to clear setexeccon". *)
Lemma mount_failure_not_logged :
  fs_mgr_do_mount_rc Scenario_C8.env "/data" "/dev/block/dm-3" = 5
  ∧ Scenario_C8.run.1 = Ret true
  ∧ dm_table Scenario_C8.run.2 !! "userdata" = Some DmActive
  ∧ trace Scenario_C8.run.2
    = [EvLog DEBUG false "e4crypt_mount_default_encrypted";
       EvLog DEBUG false "key_dir: /metadata/vold";
       EvRetrieveKey false "/metadata/vold/key" "/metadata/vold/tmp" true;
       EvOpen "/dev/block/sda9" true;
       EvLog DEBUG false "crypt_params: AES-256-XTS 01ab /dev/block/sda9 0";
       EvOpen "/dev/device-mapper" true;
       EvIoctl DM_DEV_CREATE (plain_cmd kDmNameUserdata) 0;
       EvIoctl DM_DEV_STATUS (plain_cmd kDmNameUserdata) 0;
       EvIoctl DM_TABLE_LOAD
         (load_cmd kDmNameUserdata 1000000 DEFAULT_KEY_TARGET_TYPE
            (list_byte_of_string "AES-256-XTS 01ab /dev/block/sda9 0")) 0;
       EvIoctl DM_DEV_SUSPEND (plain_cmd kDmNameUserdata) 0;
       EvLog DEBUG false "Restarting filesystem for metadata encryption";
       EvSetexeccon (Some "u:r:fsck:s0") 0;
       EvFsMgrDoMount "/data" "/dev/block/dm-3" 5;
       EvSetexeccon None (-1);
       EvLog ERROR true "Failed to clear setexeccon";
       EvThreadDetach "async_kick_off"].
Proof. vm_compute. repeat split; reflexivity. Qed.

(** C8, amended. Once the resume command of the mapping was accepted,
    [e4crypt_mount_metadata_encrypted] returns [true] whatever the mount
    step does: no [DM_DEV_REMOVE] is issued and the mapping "userdata" is
    active when the function returns.  The mount step is always run, for the
    mount point of the fstab entry and the mapped device, between the record
    "Restarting filesystem for metadata encryption" and the start of the
    restart thread.  It ends with one record of the log: after a failure of
    the first [setexeccon], which leaves the mount out, "Failed to setexeccon";
    after a failure of [setexeccon(nullptr)], "Failed to clear setexeccon",
    whatever the mount returned; otherwise "fs_mgr_do_mount failed with rc"
    and the return code when the mount failed, and "Mounted" when not. *)
Theorem mount_failure_keeps_mapping (E : collaborators) (w : world) :
  let run := e4crypt_mount_metadata_encrypted E w in
  let t := new_events w run.2 in
  trace run.2 = trace w ++ t
  ∧ ((∃ io, In (EvIoctl DM_DEV_SUSPEND io 0) t) →
     run.1 = Ret true
     ∧ dm_table run.2 !! "userdata" = Some DmActive
     ∧ Forall (λ e, is_remove e = false) t
     ∧ ∃ data_rec dev pre tm,
         fs_mgr_get_crypt_entry E = Some data_rec
         ∧ dm_status_dev E = Some dev
         ∧ t = pre ++ [EvLog DEBUG false "Restarting filesystem for metadata encryption"]
                 ++ tm ++ [EvThreadDetach "async_kick_off"]
         ∧ Forall (λ e, is_quiet e = true) pre
         ∧ let mount_point := mount_point data_rec in
           let blk_device := c_str (crypto_blkdev_of dev) in
           let con := Some (secontextFsck E) in
           let mount_rc := fs_mgr_do_mount_rc E mount_point blk_device in
           let clear_rc := setexeccon_rc E None in
           (setexeccon_rc E con ≠ 0
            ∧ tm = [EvSetexeccon con (setexeccon_rc E con);
                    EvLog ERROR true "Failed to setexeccon"])
           ∨ (setexeccon_rc E con = 0
              ∧ tm = [EvSetexeccon con 0;
                      EvFsMgrDoMount mount_point blk_device mount_rc;
                      EvSetexeccon None clear_rc;
                      if decide (clear_rc ≠ 0)
                      then EvLog ERROR true "Failed to clear setexeccon"
                      else if decide (mount_rc ≠ 0) then
                        EvLog ERROR false
                          ("fs_mgr_do_mount failed with rc " +:+ to_string mount_rc)
                      else EvLog DEBUG false ("Mounted " +:+ mount_point)])).
Proof.
  intros run t. subst run t.
  destruct (e4crypt_mount_metadata_encrypted E w) as [res wf] eqn:Hrun. cbn [fst snd].
  rewrite e4crypt_mount_metadata_encrypted_provision in Hrun.
  unfold LOG at 1 in Hrun. erewrite bind_run in Hrun by apply emit_run.
  destruct (provision_spec E false
              (add_trace [EvLog DEBUG false "e4crypt_mount_default_encrypted"] w))
    as (r & w1 & t1 & Hrun1 & Hprops1 & Hgrows1 & Htrace1 & Hq1 & Hfuel1 & Hres1).
  cbn [add_trace trace] in Htrace1.
  unfold mbind at 1 in Hrun. unfold M_bind at 1 in Hrun. rewrite Hrun1 in Hrun.
  destruct r as [[[[data_rec nr_sec] crypto_blkdev]|]| |]; [| | |done].
  - destruct (provision_some E false
                (add_trace [EvLog DEBUG false "e4crypt_mount_default_encrypted"] w)
                data_rec nr_sec crypto_blkdev) as (Hentry & _ & _ & dev & Hdev & ->);
      [by rewrite Hrun1|].
    cbn [mount_tail] in Hrun. unfold LOG, detach_async_kick_off in Hrun.
    erewrite bind_run in Hrun by apply emit_run.
    pose proof (mount_via_fs_mgr_run E (mount_point data_rec) (c_str (crypto_blkdev_of dev))
                  (add_trace
                     [EvLog DEBUG false "Restarting filesystem for metadata encryption"] w1))
      as Hmount.
    cbv zeta in Hmount. destruct Hmount as (b & tm & Hrunm & Htm).
    erewrite bind_run in Hrun by exact Hrunm.
    erewrite bind_run in Hrun by apply emit_run.
    rewrite !add_trace_add_trace in Hrun. injection Hrun as <- <-.
    match goal with |- context [new_events w ?wf] =>
      assert (Ht : new_events w wf
                   = ([EvLog DEBUG false "e4crypt_mount_default_encrypted"] ++ t1)
                     ++ [EvLog DEBUG false "Restarting filesystem for metadata encryption"]
                     ++ tm ++ [EvThreadDetach "async_kick_off"])
    end.
    { apply new_events_app. cbn [add_trace trace]. rewrite Htrace1, <- !app_assoc.
      reflexivity. }
    rewrite Ht. cbn [add_trace trace dm_table].
    assert (Htm_mount : Forall (λ e, is_mount e = true) tm).
    { destruct Htm as [[_ ->]|[_ ->]]; repeat constructor; try done.
      by repeat destruct (decide _). }
    split; [rewrite Htrace1, <- !app_assoc; reflexivity|]. intros _.
    split; [done|]. split; [apply Hres1|]. split.
    + repeat (apply Forall_app; split); try (by repeat constructor).
      * eapply Forall_impl; [exact Hq1|]. apply is_quiet_not_remove.
      * eapply Forall_impl; [exact Htm_mount|]. apply is_mount_not_remove.
    + exists data_rec, dev,
        ([EvLog DEBUG false "e4crypt_mount_default_encrypted"] ++ t1), tm.
      split; [done|]. split; [done|]. split; [done|]. split.
      * apply Forall_app. split; [by repeat constructor|done].
      * exact Htm.
  - cbn [mount_tail mret M_ret] in Hrun. injection Hrun as <- <-.
    unfold new_events. rewrite Htrace1, <- app_assoc, drop_app_length.
    split; [done|]. intros [io Hin].
    rewrite in_app_iff in Hin. cbn [In] in Hin.
    destruct Hin as [[?|[]]|Hin]; [discriminate|].
    by apply (Forall_In _ _ _ Hres1) in Hin.
  - injection Hrun as <- <-.
    unfold new_events. rewrite Htrace1, <- app_assoc, drop_app_length.
    split; [done|]. intros [io Hin].
    rewrite in_app_iff in Hin. cbn [In] in Hin.
    destruct Hin as [[?|[]]|Hin]; [discriminate|].
    by apply (Forall_In _ _ _ Hres1) in Hin.
Qed.

Lemma mount_failure_keeps_mapping_witness :
  let E := with_mount_rc (-1) (Scenario.env (λ _, true) true 1000000) in
  let run := e4crypt_mount_metadata_encrypted E Scenario.boot in
  run.1 = Ret true
  ∧ dm_table run.2 !! "userdata" = Some DmActive
  ∧ ∃ pre tm,
      new_events Scenario.boot run.2
      = pre ++ [EvLog DEBUG false "Restarting filesystem for metadata encryption"]
            ++ tm ++ [EvThreadDetach "async_kick_off"]
      ∧ last tm = Some (EvLog ERROR false "fs_mgr_do_mount failed with rc -1").
Proof.
  pose proof (mount_failure_keeps_mapping
                (with_mount_rc (-1) (Scenario.env (λ _, true) true 1000000)) Scenario.boot)
    as Hkeep.
  cbv zeta in Hkeep. destruct Hkeep as [_ Hkeep].
  destruct Hkeep as (Hres & Hactive & _ & data_rec & dev & pre & tm & _ & _ & Ht & _ & Htm).
  - exists (plain_cmd kDmNameUserdata). find_in.
  - split; [exact Hres|]. split; [exact Hactive|].
    exists pre, tm. split; [exact Ht|].
    destruct Htm as [[Hcon _]|[_ ->]]; [exfalso; apply Hcon; reflexivity|].
    reflexivity.
Defined.
